(** * Workshop dashboard: ingestion, classification and board partitioning

    A shallow embedding of the order pipeline of [app.py] and [test.py]
    (the two deployed variants of the dashboard): the field reconciler
    [get_field], the date normaliser [parse_date], the order classifier
    [process_orders_dataframe], the paginated fetcher [request_json] /
    [fetch_sales_orders] and the board partitioners [render_board] /
    [render_tv_board].

    Conventions of the embedding.
    - JSON / Python values are the inductive [pyvalue]; a [dict] is a
      [gmap string pyvalue].  Strings are byte strings: the model is exact
      on ASCII data.
    - A Python [float] is an IEEE 754 binary64 number, the kernel's
      [PrimFloat.float]: [float(n)] of an integer rounds to the nearest
      double and raises [OverflowError] beyond the range, sums and quotients
      round as the machine does.  [float(s)] of a string is a parameter of
      the classifier.
    - A raised exception is a value of [exc]; Streamlit's [st.stop()] is the
      [Stopped] outcome of the [io] monad, whose log records every
      [requests.get], [time.sleep], [st.error] and [st.warning].
    - What a page shows is a [board], its titled groups in order.  The
      cards of [app.py] can raise, so its board is a computation in [ui]:
      the groups shown so far together with the outcome of the script. *)

From Stdlib Require Import Ascii ZArith QArith Lia.
From Stdlib Require PrimFloat SpecFloat FloatOps.
From stdpp Require Import gmap strings list sorting fin_maps.

#[local] Set Warnings "-register-all".
#[local] Open Scope string_scope.
#[local] Open Scope Z_scope.

(* ===================================================================== *)
(** ** Python values *)
(* ===================================================================== *)

(** A Python [float]. *)
Abbreviation float := PrimFloat.float.

Inductive pyvalue : Type :=
  | PNone
  | PBool (b : bool)
  | PInt (z : Z)
  | PFloat (x : float)
  | PStr (s : string)
  | PList (l : list pyvalue)
  | PDict (d : gmap string pyvalue).

Abbreviation pydict := (gmap string pyvalue).

(** Exceptions the modelled code can raise. *)
Inductive pyexc : Type :=
  | TypeError
  | ValueError
  | AttributeError
  | IndexError
  | OverflowError.

Inductive exc (A : Type) : Type :=
  | Ok (a : A)
  | Raise (e : pyexc).
Arguments Ok {A} a.
Arguments Raise {A} e.

#[global] Instance exc_ret : MRet exc := fun A a => Ok a.
#[global] Instance exc_bind : MBind exc := fun A B f m =>
  match m with
  | Ok a => f a
  | Raise e => Raise e
  end.
#[global] Instance exc_fmap : FMap exc := fun A B f m =>
  match m with
  | Ok a => Ok (f a)
  | Raise e => Raise e
  end.

(** The double nearest to the integer [z], ties to even; infinite when
    [z] is beyond the range of the doubles. *)
Definition Z2float (z : Z) : float :=
  FloatOps.SF2Prim (SpecFloat.binary_normalize FloatOps.prec FloatOps.emax z 0 false).

(** [float(z)] of an integer: [OverflowError] ("int too large to convert
    to float") when the nearest double is not finite. *)
Definition float_of_int (z : Z) : exc float :=
  match SpecFloat.binary_normalize FloatOps.prec FloatOps.emax z 0 false with
  | SpecFloat.S754_infinity _ => Raise OverflowError
  | _ => Ok (Z2float z)
  end.

(** [x == z] of a float and an integer: the exact values are compared. *)
Definition float_eq_int (x : float) (z : Z) : bool :=
  match FloatOps.Prim2SF x with
  | SpecFloat.S754_zero _ => z =? 0
  | SpecFloat.S754_finite s m e =>
      let v := if s then Z.neg m else Z.pos m in
      if 0 <=? e then v * 2 ^ e =? z else v =? z * 2 ^ (- e)
  | _ => false
  end.

(** [bool(v)]. *)
Definition truthy (v : pyvalue) : bool :=
  match v with
  | PNone => false
  | PBool b => b
  | PInt z => negb (z =? 0)
  | PFloat x => negb (PrimFloat.eqb x PrimFloat.zero)
  | PStr s => negb (String.eqb s "")
  | PList l => match l with [] => false | _ => true end
  | PDict d => match map_to_list d with [] => false | _ => true end
  end.

(** [a or b]. *)
Definition py_or (a b : pyvalue) : pyvalue := if truthy a then a else b.

(** [d.get(k)], with the default [None]. *)
Definition dict_get (d : pydict) (k : string) : pyvalue :=
  default PNone (d !! k).

(** [d.get(k, dflt)]. *)
Definition dict_get_default (d : pydict) (k : string) (dflt : pyvalue) : pyvalue :=
  default dflt (d !! k).

(** [v == s] for a string literal [s]. *)
Definition py_eq_str (v : pyvalue) (s : string) : bool :=
  match v with
  | PStr x => String.eqb x s
  | _ => false
  end.

(** [v == z] for an integer literal [z] (numbers compare by value). *)
Definition py_eq_int (v : pyvalue) (z : Z) : bool :=
  match v with
  | PInt x => x =? z
  | PBool b => Z.b2z b =? z
  | PFloat x => float_eq_int x z
  | _ => false
  end.

(** [c.lower()] on one ASCII character. *)
Definition ascii_lower (c : ascii) : ascii :=
  let n := nat_of_ascii c in
  if ((65 <=? n)%nat && (n <=? 90)%nat)%bool then ascii_of_nat (n + 32) else c.

(** [s.startswith(p)]. *)
Fixpoint startswith (p s : string) : bool :=
  match p with
  | EmptyString => true
  | String a p' =>
      match s with
      | String b s' => Ascii.eqb a b && startswith p' s'
      | EmptyString => false
      end
  end.

(** [s.replace(old, new)] for a non-empty [old]: leftmost, non-overlapping
    occurrences.  [skip] counts the characters of a matched occurrence that
    are still to be dropped. *)
Fixpoint str_replace_from (old new : string) (skip : nat) (s : string) : string :=
  match s with
  | EmptyString => EmptyString
  | String c s' =>
      match skip with
      | S k => str_replace_from old new k s'
      | O =>
          if startswith old s
          then new +:+ str_replace_from old new (String.length old - 1) s'
          else String c (str_replace_from old new O s')
      end
  end.

Definition str_replace (old new s : string) : string :=
  str_replace_from old new O s.

(* ===================================================================== *)
(** ** Calendar dates ([datetime.date], [datetime.datetime]) *)
(* ===================================================================== *)

Record date : Type := mkDate { d_year : Z; d_month : Z; d_day : Z }.

Record datetime : Type := mkDatetime {
  year : Z; month : Z; day : Z;
  hour : Z; minute : Z; second : Z; microsecond : Z
}.

Definition is_leap (y : Z) : bool :=
  (y mod 4 =? 0) && (negb (y mod 100 =? 0) || (y mod 400 =? 0)).

Definition days_in_month (y m : Z) : Z :=
  if m =? 2 then (if is_leap y then 29 else 28)
  else if (m =? 4) || (m =? 6) || (m =? 9) || (m =? 11) then 30
  else 31.

Definition days_before_year (y : Z) : Z :=
  let y1 := y - 1 in
  y1 * 365 + y1 / 4 - y1 / 100 + y1 / 400.

Definition days_before_month (y m : Z) : Z :=
  fold_right Z.add 0
    (map (fun k => days_in_month y (Z.of_nat k)) (seq 1 (Z.to_nat (m - 1)))).

(** [date.toordinal()]. *)
Definition toordinal (d : date) : Z :=
  days_before_year (d_year d) + days_before_month (d_year d) (d_month d) + d_day d.

(** [(a - b).days] for two dates. *)
Definition date_sub_days (a b : date) : Z := toordinal a - toordinal b.

(** [dt.date()]. *)
Definition date_of (dt : datetime) : date :=
  mkDate (year dt) (month dt) (day dt).

(** The range check of the [datetime] constructor. *)
Definition valid_datetime (dt : datetime) : bool :=
  (1 <=? year dt) && (year dt <=? 9999) &&
  (1 <=? month dt) && (month dt <=? 12) &&
  (1 <=? day dt) && (day dt <=? days_in_month (year dt) (month dt)) &&
  (0 <=? hour dt) && (hour dt <=? 23) &&
  (0 <=? minute dt) && (minute dt <=? 59) &&
  (0 <=? second dt) && (second dt <=? 59) &&
  (0 <=? microsecond dt) && (microsecond dt <=? 999999).

(* --------------------------------------------------------------------- *)
(** *** Printing: [isoformat] and [str] *)

Definition digit_char (d : Z) : ascii := ascii_of_nat (48 + Z.to_nat d).

(** ["%0<width>d" % n] for [0 <= n < 10^width]. *)
Fixpoint zpad (width : nat) (n : Z) : string :=
  match width with
  | O => EmptyString
  | S w => String (digit_char (n / 10 ^ Z.of_nat w)) (zpad w (n mod 10 ^ Z.of_nat w))
  end.

(** [dt.isoformat(sep)]. *)
Definition isoformat_sep (sep : ascii) (dt : datetime) : string :=
  zpad 4 (year dt) +:+ "-" +:+ zpad 2 (month dt) +:+ "-" +:+ zpad 2 (day dt)
  +:+ String sep
      (zpad 2 (hour dt) +:+ ":" +:+ zpad 2 (minute dt) +:+ ":" +:+ zpad 2 (second dt)
       +:+ (if microsecond dt =? 0 then "" else "." +:+ zpad 6 (microsecond dt))).

Definition isoformat (dt : datetime) : string := isoformat_sep "T" dt.

(** [str(dt)], which is [dt.isoformat(sep=' ')]. *)
Definition datetime_str (dt : datetime) : string := isoformat_sep " " dt.

(* --------------------------------------------------------------------- *)
(** *** Parsing: [datetime.strptime]

    [strptime] turns the format into a regular expression (matched with
    [re.IGNORECASE], from the start of the input, with backtracking) and
    rejects the input when the match does not consume it entirely.  Each
    numeric directive is an ordered list of alternatives; an alternative is
    a sequence of character classes. *)

Inductive directive : Type := DirY | Dirm | Dird | DirH | DirM | DirS | Dirf.

Inductive fmt_item : Type :=
  | Lit (c : ascii)
  | Dir (d : directive).

(** A character class: an inclusive range of ASCII digits, or a space. *)
Inductive cls : Type :=
  | CDigits (lo hi : Z)
  | CSpace.

Definition digit_of (c : ascii) : option Z :=
  let n := nat_of_ascii c in
  if ((48 <=? n)%nat && (n <=? 57)%nat)%bool then Some (Z.of_nat n - 48) else None.

Definition in_cls (k : cls) (c : ascii) : bool :=
  match k with
  | CDigits lo hi =>
      match digit_of c with
      | Some d => (lo <=? d) && (d <=? hi)
      | None => false
      end
  | CSpace => Ascii.eqb c " "
  end.

Definition any_digit : cls := CDigits 0 9.

(** The alternatives of each directive, in the order of the regular
    expression of [_strptime.TimeRE]. *)
Definition dir_patterns (d : directive) : list (list cls) :=
  match d with
  | DirY => [[any_digit; any_digit; any_digit; any_digit]]
  | Dirm => [[CDigits 1 1; CDigits 0 2]; [CDigits 0 0; CDigits 1 9]; [CDigits 1 9]]
  | Dird => [[CDigits 3 3; CDigits 0 1]; [CDigits 1 2; any_digit];
             [CDigits 0 0; CDigits 1 9]; [CDigits 1 9]; [CSpace; CDigits 1 9]]
  | DirH => [[CDigits 2 2; CDigits 0 3]; [CDigits 0 1; any_digit]; [any_digit]]
  | DirM => [[CDigits 0 5; any_digit]; [any_digit]]
  | DirS => [[CDigits 6 6; CDigits 0 1]; [CDigits 0 5; any_digit]; [any_digit]]
  | Dirf => [repeat any_digit 6; repeat any_digit 5; repeat any_digit 4;
             repeat any_digit 3; repeat any_digit 2; repeat any_digit 1]
  end.

(** Consume one character per class. *)
Fixpoint match_pattern (pat : list cls) (s : string) : option (string * string) :=
  match pat with
  | [] => Some (EmptyString, s)
  | k :: pat' =>
      match s with
      | String c s' =>
          if in_cls k c
          then match match_pattern pat' s' with
               | Some (txt, rest) => Some (String c txt, rest)
               | None => None
               end
          else None
      | EmptyString => None
      end
  end.

(** [int(txt)] on matched text: decimal digits, a leading space skipped. *)
Fixpoint int_of_digits (acc : Z) (txt : string) : Z :=
  match txt with
  | EmptyString => acc
  | String c txt' =>
      match digit_of c with
      | Some d => int_of_digits (acc * 10 + d) txt'
      | None => int_of_digits acc txt'
      end
  end.

(** The value a directive contributes; [%f] pads its text with zeros on the
    right to six digits first. *)
Definition dir_value (d : directive) (txt : string) : Z :=
  match d with
  | Dirf => int_of_digits 0 txt * 10 ^ (6 - Z.of_nat (String.length txt))
  | _ => int_of_digits 0 txt
  end.

Definition set_field (d : directive) (v : Z) (dt : datetime) : datetime :=
  match d with
  | DirY => mkDatetime v (month dt) (day dt) (hour dt) (minute dt) (second dt) (microsecond dt)
  | Dirm => mkDatetime (year dt) v (day dt) (hour dt) (minute dt) (second dt) (microsecond dt)
  | Dird => mkDatetime (year dt) (month dt) v (hour dt) (minute dt) (second dt) (microsecond dt)
  | DirH => mkDatetime (year dt) (month dt) (day dt) v (minute dt) (second dt) (microsecond dt)
  | DirM => mkDatetime (year dt) (month dt) (day dt) (hour dt) v (second dt) (microsecond dt)
  | DirS => mkDatetime (year dt) (month dt) (day dt) (hour dt) (minute dt) v (microsecond dt)
  | Dirf => mkDatetime (year dt) (month dt) (day dt) (hour dt) (minute dt) (second dt) v
  end.

(** First alternative, in order, whose continuation succeeds. *)
Fixpoint first_success {A B : Type} (f : A -> option B) (l : list A) : option B :=
  match l with
  | [] => None
  | a :: l' =>
      match f a with
      | Some b => Some b
      | None => first_success f l'
      end
  end.

Definition lit_matches (c c' : ascii) : bool :=
  Ascii.eqb (ascii_lower c) (ascii_lower c').

(** The backtracking match of a compiled format against a prefix of [s]. *)
Fixpoint match_items (items : list fmt_item) (s : string) (acc : datetime)
  : option (datetime * string) :=
  match items with
  | [] => Some (acc, s)
  | Lit c :: items' =>
      match s with
      | String c' s' => if lit_matches c c' then match_items items' s' acc else None
      | EmptyString => None
      end
  | Dir d :: items' =>
      first_success
        (fun pat =>
           match match_pattern pat s with
           | Some (txt, rest) => match_items items' rest (set_field d (dir_value d txt) acc)
           | None => None
           end)
        (dir_patterns d)
  end.

Definition directive_of (c : ascii) : option directive :=
  if Ascii.eqb c "Y" then Some DirY
  else if Ascii.eqb c "m" then Some Dirm
  else if Ascii.eqb c "d" then Some Dird
  else if Ascii.eqb c "H" then Some DirH
  else if Ascii.eqb c "M" then Some DirM
  else if Ascii.eqb c "S" then Some DirS
  else if Ascii.eqb c "f" then Some Dirf
  else None.

(** Compilation of a format string; [None] for a directive outside the
    seven that the date formats of the program use. *)
Fixpoint compile_format (fmt : string) : option (list fmt_item) :=
  match fmt with
  | EmptyString => Some []
  | String c fmt' =>
      if Ascii.eqb c "%"
      then match fmt' with
           | String x fmt'' =>
               match directive_of x, compile_format fmt'' with
               | Some d, Some items => Some (Dir d :: items)
               | _, _ => None
               end
           | EmptyString => None
           end
      else match compile_format fmt' with
           | Some items => Some (Lit c :: items)
           | None => None
           end
  end.

(** Fields absent from the format default to 1900-01-01 00:00:00. *)
Definition strptime_default : datetime := mkDatetime 1900 1 1 0 0 0 0.

(** [datetime.strptime(s, fmt)]; [None] stands for the [ValueError]. *)
Definition strptime (s fmt : string) : option datetime :=
  match compile_format fmt with
  | Some items =>
      match match_items items s strptime_default with
      | Some (dt, EmptyString) => if valid_datetime dt then Some dt else None
      | _ => None
      end
  | None => None
  end.

Definition date_formats : list string :=
  [ "%Y-%m-%dT%H:%M:%S";
    "%Y-%m-%dT%H:%M:%S.%f";
    "%Y-%m-%dT%H:%M:%SZ";
    "%Y-%m-%dT%H:%M:%S.%fZ";
    "%Y-%m-%d";
    "%d/%m/%Y";
    "%m/%d/%Y" ].

(** The [for fmt in date_formats] loop of [parse_date]. *)
Definition parse_date_str (s : string) : option datetime :=
  first_success
    (fun fmt =>
       strptime (str_replace "Z" "" (str_replace "+00:00" "" s)) (str_replace "Z" "" fmt))
    date_formats.

(** [parse_date]: a JSON value is never a [datetime] object, so the
    [isinstance(date_value, datetime)] branch is the separate
    [parse_date_obj]. *)
Definition parse_date (date_value : pyvalue) : option datetime :=
  match date_value with
  | PStr s => parse_date_str s
  | _ => None
  end.

(** [parse_date] applied to a value that already is a [datetime]. *)
Definition parse_date_obj (dt : datetime) : option datetime := Some dt.

(* ===================================================================== *)
(** ** Field reconciler and order classifier *)
(* ===================================================================== *)

(** [get_field], the helper closed over [order]:
    [order.get(field_name) or order.get(field_name[0].lower() + field_name[1:])].
    The right operand of [or] is evaluated only when the left one is falsy;
    [field_name[0]] raises [IndexError] on the empty name. *)
Definition get_field (order : pydict) (field_name : string) : exc pyvalue :=
  let v := dict_get order field_name in
  if truthy v then Ok v
  else match field_name with
       | EmptyString => Raise IndexError
       | String c rest => Ok (dict_get order (String (ascii_lower c) rest))
       end.

(** One row of the classified table (the dict appended to [processed]). *)
Record order_row : Type := mkRow {
  Id : pyvalue;
  Reference : pyvalue;
  ProjectName : pyvalue;
  Company : pyvalue;
  CreatedDate : option datetime;
  ModifiedDate : option datetime;
  Stage : pyvalue;
  Status : pyvalue;
  BranchId : pyvalue;
  EstimatedDeliveryDate : option datetime;
  DispatchedDate : option datetime;
  LineCount : Z;
  QtyTotal : float;
  SizeBucket : string;
  WorkloadScore : float;
  IsOverdue : bool;
  IsDueSoon : bool;
  IsOnTrack : bool;
  DaysOverdue : option Z;
  HasLineItems : bool
}.

(** A [pandas.DataFrame] of rows: each row keeps the index label it was
    given at construction, through every filter and sort. *)
Definition DataFrame : Type := list (nat * order_row).

Definition DataFrame_of (processed : list order_row) : DataFrame :=
  imap (fun i r => (i, r)) processed.

Definition DUE_SOON_DAYS : Z := 7.

(** [len(v)]. *)
Definition py_len (v : pyvalue) : exc Z :=
  match v with
  | PList l => Ok (Z.of_nat (length l))
  | PStr s => Ok (Z.of_nat (String.length s))
  | PDict d => Ok (Z.of_nat (size d))
  | _ => Raise TypeError
  end.

(** The elements [for item in v] visits. *)
Definition py_iter (v : pyvalue) : exc (list pyvalue) :=
  match v with
  | PList l => Ok l
  | PStr s => Ok (map (fun c => PStr (String c EmptyString)) (String.list_ascii_of_string s))
  | PDict d => Ok (map (fun kv => PStr (fst kv)) (map_to_list d))
  | _ => Raise TypeError
  end.

(** [item.get(...) or item.get(...) or ... or 0] on a line item that is a dict. *)
Definition item_qty (item : pydict) : pyvalue :=
  py_or (dict_get item "Qty")
    (py_or (dict_get item "qty")
       (py_or (dict_get item "UomQtyOrdered")
          (py_or (dict_get item "uomQtyOrdered") (PInt 0)))).

(** The three urgency flags and [days_overdue]. *)
Record urgency_flags : Type := mkFlags {
  is_overdue : bool;
  is_due_soon : bool;
  is_on_track : bool;
  days_overdue : option Z
}.

(** The "Determine status flags" block. *)
Definition status_flags (today : date) (stage : pyvalue)
    (estimated_delivery dispatched_date : option datetime) : urgency_flags :=
  let is_dispatched :=
    py_eq_str stage "Dispatched" || bool_decide (dispatched_date <> None) in
  match estimated_delivery with
  | Some ed =>
      if negb is_dispatched then
        let est_date := date_of ed in
        let days_until_due := date_sub_days est_date today in
        if days_until_due <? 0 then mkFlags true false false (Some (Z.abs days_until_due))
        else if days_until_due <=? DUE_SOON_DAYS then mkFlags false true false None
        else mkFlags false false true None
      else mkFlags false false false None
  | None => mkFlags false false false None
  end.

Definition size_bucket_of (line_count : Z) : string :=
  if line_count <? 10 then "S"
  else if line_count <? 30 then "M"
  else "L".

Section Classifier.

(** [float(s)] on a string: the double denoted, or [None] for the
    [ValueError]. *)
Context (float_of_str : string -> option float).

(** The inclusion rule of the deployment, applied after the void check:
    [Ok false] is the [continue]. *)
Context (included : pydict -> exc bool).

(** [float(v)]: [TypeError] on a value that is neither a number nor a
    string, [ValueError] on a string that denotes no number,
    [OverflowError] on an integer beyond the range of the doubles. *)
Definition py_float (v : pyvalue) : exc float :=
  match v with
  | PInt z => float_of_int z
  | PBool b => Ok (if b then PrimFloat.one else PrimFloat.zero)
  | PFloat x => Ok x
  | PStr s =>
      match float_of_str s with
      | Some x => Ok x
      | None => Raise ValueError
      end
  | _ => Raise TypeError
  end.

(** One iteration of [for item in (line_items or [])]:
    [try: qty_total += float(qty)] with [except (TypeError, ValueError): pass];
    any other exception leaves the loop. *)
Definition add_item_qty (qty_total : float) (item : pyvalue) : exc float :=
  match item with
  | PDict d =>
      let qty := item_qty d in
      match py_float qty with
      | Ok x => Ok (PrimFloat.add qty_total x)
      | Raise TypeError | Raise ValueError => Ok qty_total
      | Raise e => Raise e
      end
  | _ => Raise AttributeError
  end.

Fixpoint sum_item_qty (qty_total : float) (items : list pyvalue) : exc float :=
  match items with
  | [] => Ok qty_total
  | item :: items' =>
      q ← add_item_qty qty_total item;
      sum_item_qty q items'
  end.

(** The body of [for order in orders]: [Ok None] is a [continue]. *)
Definition process_order (today : date) (order : pyvalue) : exc (option order_row) :=
  match order with
  | PDict order =>
      let is_void := py_or (dict_get order "IsVoid")
                       (py_or (dict_get order "isVoid") (PBool false)) in
      if truthy is_void then Ok None
      else
        keep ← included order;
        if negb keep then Ok None
        else
          created_date ← parse_date <$> get_field order "CreatedDate";
          modified_date ← parse_date <$> get_field order "ModifiedDate";
          estimated_delivery ← parse_date <$> get_field order "EstimatedDeliveryDate";
          dispatched_date ← parse_date <$> get_field order "DispatchedDate";
          li ← get_field order "LineItems";
          let line_items := py_or li (PList []) in
          line_count ← (if truthy line_items then py_len line_items else Ok 0);
          items ← py_iter (py_or line_items (PList []));
          qty_total ← sum_item_qty PrimFloat.zero items;
          let size_bucket := size_bucket_of line_count in
          (* [line_count + (qty_total / 10.0)]: a [len] is below
             [sys.maxsize], so its conversion to a double is finite *)
          let workload_score :=
            PrimFloat.add (Z2float line_count) (PrimFloat.div qty_total (Z2float 10)) in
          st ← get_field order "Stage";
          let stage := py_or st (PStr "") in
          let fl := status_flags today stage estimated_delivery dispatched_date in
          id ← get_field order "Id";
          reference ← get_field order "Reference";
          project_name ← get_field order "ProjectName";
          company ← get_field order "Company";
          status ← get_field order "Status";
          branch_id ← get_field order "BranchId";
          Ok (Some {|
            Id := id;
            Reference := py_or reference (PStr "");
            ProjectName := py_or project_name (PStr "");
            Company := py_or company (PStr "");
            CreatedDate := created_date;
            ModifiedDate := modified_date;
            Stage := stage;
            Status := py_or status (PStr "");
            BranchId := branch_id;
            EstimatedDeliveryDate := estimated_delivery;
            DispatchedDate := dispatched_date;
            LineCount := line_count;
            QtyTotal := qty_total;
            SizeBucket := size_bucket;
            WorkloadScore := workload_score;
            IsOverdue := is_overdue fl;
            IsDueSoon := is_due_soon fl;
            IsOnTrack := is_on_track fl;
            DaysOverdue := days_overdue fl;
            HasLineItems := truthy line_items
          |})
  | _ => Raise AttributeError
  end.

(** The loop filling [processed], in input order. *)
Fixpoint process_orders (today : date) (orders : list pyvalue) : exc (list order_row) :=
  match orders with
  | [] => Ok []
  | order :: orders' =>
      r ← process_order today order;
      rest ← process_orders today orders';
      Ok (match r with Some row => row :: rest | None => rest end)
  end.

Definition process_orders_dataframe_with (today : date) (orders : list pyvalue)
  : exc DataFrame :=
  DataFrame_of <$> process_orders today orders.

End Classifier.

(* ===================================================================== *)
(** ** The two deployments *)
(* ===================================================================== *)

(** Table operations shared by the boards. *)

(** A sort key of one row: [None] is NaN / NaT / None. *)
Definition sort_key : Type := order_row -> option Z.

(** Microseconds from the start of the proleptic calendar: the order of
    timestamps. *)
Definition timestamp (dt : datetime) : Z :=
  (((toordinal (date_of dt) * 24 + hour dt) * 60 + minute dt) * 60 + second dt)
  * 1000000 + microsecond dt.

Definition by_IsOverdue : sort_key := fun r => Some (Z.b2z (IsOverdue r)).
Definition by_IsDueSoon : sort_key := fun r => Some (Z.b2z (IsDueSoon r)).
Definition by_DaysOverdue : sort_key := DaysOverdue.
Definition by_EstimatedDeliveryDate : sort_key :=
  fun r => timestamp <$> EstimatedDeliveryDate r.
Definition by_CreatedDate : sort_key := fun r => timestamp <$> CreatedDate r.

(** Comparison under one key: missing values last, whatever the direction. *)
Definition key_compare (ascending : bool) (a b : option Z) : comparison :=
  match a, b with
  | Some x, Some y => if ascending then x ?= y else y ?= x
  | Some _, None => Lt
  | None, Some _ => Gt
  | None, None => Eq
  end.

Fixpoint rows_compare (by_ : list (sort_key * bool)) (a b : order_row) : comparison :=
  match by_ with
  | [] => Eq
  | (k, ascending) :: by' =>
      match key_compare ascending (k a) (k b) with
      | Eq => rows_compare by' a b
      | c => c
      end
  end.

Definition rows_le (by_ : list (sort_key * bool)) (a b : nat * order_row) : Prop :=
  rows_compare by_ (snd a) (snd b) <> Gt.

#[global] Instance rows_le_dec by_ a b : Decision (rows_le by_ a b).
Proof. unfold rows_le. solve_decision. Defined.

(** [df.sort_values(by=..., ascending=...)]; the order among rows with
    equal keys is the implementation's. *)
Definition sort_values (by_ : list (sort_key * bool)) (df : DataFrame) : DataFrame :=
  merge_sort (rows_le by_) df.

(** [df[mask]] for a row-wise mask. *)
Definition df_filter (mask : order_row -> bool) (df : DataFrame) : DataFrame :=
  List.filter (fun ir => mask (snd ir)) df.

(** [df.empty]. *)
Definition df_empty (df : DataFrame) : bool :=
  match df with [] => true | _ => false end.

(** [~IsOverdue & ~IsDueSoon & ~IsOnTrack]. *)
Definition no_flag (r : order_row) : bool :=
  negb (IsOverdue r) && negb (IsDueSoon r) && negb (IsOnTrack r).

(** What a board shows: its titled groups, in rendering order. *)
Definition board : Type := list (string * DataFrame).

(** The index labels of the rows placed in the group titled [title]. *)
Definition group_labels (title : string) (b : board) : list nat :=
  flat_map (fun g => if String.eqb (fst g) title then map fst (snd g) else []) b.

(** The titles of the groups in which the row labelled [i] is placed. *)
Definition groups_of (i : nat) (b : board) : list string :=
  map fst (List.filter (fun g => existsb (Nat.eqb i) (map fst (snd g))) b).

(** [df.dtypes] of a date column.  [pandas] stores a column of dates as
    [datetime64], where a missing date is [NaT]; a column it leaves as
    [object] holds [None] for a missing date. *)
Inductive date_dtype : Type := Datetime64 | ObjectDtype.

(** The dtypes of the two date columns that the cards print. *)
Record date_dtypes : Type := mkDtypes {
  dtype_EstimatedDeliveryDate : date_dtype;
  dtype_CreatedDate : date_dtype
}.

(** A rendering: the groups put on the page so far, in order, and how the
    script went on (an exception ends it; what was shown stays shown). *)
Definition ui (A : Type) : Type := board * exc A.

#[global] Instance ui_ret : MRet ui := fun A a => ([], Ok a).
#[global] Instance ui_bind : MBind ui := fun A B f m =>
  match m with
  | (shown, Ok a) => let '(shown', r) := f a in ((shown ++ shown')%list, r)
  | (shown, Raise e) => (shown, Raise e)
  end.

(** [st.markdown] of a finished group. *)
Definition st_markdown (g : string * DataFrame) : ui unit := ([g], Ok tt).

(** A computation that shows nothing. *)
Definition ui_lift {A : Type} (m : exc A) : ui A := ([], m).

(** *** [app.py]: selection by distribution branch *)
Module App.

Definition DISTRIBUTION_BRANCH_ID : Z := 6877.

(** The "Filter by Distribution Branch ID" block. *)
Definition included (order : pydict) : exc bool :=
  let dist_branch_id :=
    py_or (dict_get order "DistributionBranchId")
          (dict_get order "distributionBranchId") in
  if truthy (PInt DISTRIBUTION_BRANCH_ID)
  then Ok (py_eq_int dist_branch_id DISTRIBUTION_BRANCH_ID)
  else Ok true.

Definition process_orders_dataframe float_of_str :=
  process_orders_dataframe_with float_of_str included.

(** The "Format dates" lines of [render_job_card]:
    [if job[col]: dt = job[col]; if hasattr(dt, 'strftime'): dt.strftime(...)].
    [NaT] is truthy and has a [strftime], which raises [ValueError];
    [None] is falsy. *)
Definition format_date (dtype : date_dtype) (dt : option datetime) : exc unit :=
  match dt, dtype with
  | Some _, _ => Ok tt
  | None, Datetime64 => Raise ValueError
  | None, ObjectDtype => Ok tt
  end.

(** [render_job_card]: of the card only whether it can be built is kept. *)
Definition render_job_card (dtypes : date_dtypes) (job : order_row) : exc unit :=
  format_date (dtype_EstimatedDeliveryDate dtypes) (EstimatedDeliveryDate job);;
  format_date (dtype_CreatedDate dtypes) (CreatedDate job).

(** [for _, job in jobs_df.iterrows(): cards_html += render_job_card(job)]. *)
Fixpoint render_cards (dtypes : date_dtypes) (jobs_df : DataFrame) : exc unit :=
  match jobs_df with
  | [] => Ok tt
  | (_, job) :: jobs_df' =>
      render_job_card dtypes job;;
      render_cards dtypes jobs_df'
  end.

(** [render_board_column]: the cards are built first, then the column is
    shown. *)
Definition render_board_column (dtypes : date_dtypes) (title : string)
    (jobs_df : DataFrame) : ui unit :=
  ui_lift (render_cards dtypes jobs_df);;
  st_markdown (title, jobs_df).

Definition render_currently_working_on (dtypes : date_dtypes) (df : DataFrame) : ui unit :=
  let processing_df := df_filter (fun r => py_eq_str (Stage r) "Processing") df in
  if df_empty processing_df then mret tt
  else
    let processing_df :=
      sort_values [(by_IsOverdue, false); (by_IsDueSoon, false);
                   (by_EstimatedDeliveryDate, true)] processing_df in
    ui_lift (render_cards dtypes processing_df);;
    st_markdown ("Currently Working On", processing_df).

(** [render_board] on a frame whose date columns have the dtypes [dtypes]. *)
Definition render_board (dtypes : date_dtypes) (df : DataFrame) : ui unit :=
  if df_empty df then mret tt
  else
    render_currently_working_on dtypes df;;
    let non_processing_df :=
      df_filter (fun r => negb (py_eq_str (Stage r) "Processing")) df in
    let overdue_df :=
      sort_values [(by_DaysOverdue, false)] (df_filter IsOverdue non_processing_df) in
    let due_soon_df :=
      sort_values [(by_EstimatedDeliveryDate, true)] (df_filter IsDueSoon non_processing_df) in
    let on_track_df :=
      sort_values [(by_EstimatedDeliveryDate, true)] (df_filter IsOnTrack non_processing_df) in
    let no_date_df :=
      sort_values [(by_CreatedDate, false)] (df_filter no_flag non_processing_df) in
    render_board_column dtypes "Overdue" overdue_df;;
    render_board_column dtypes "Due Soon (7d)" due_soon_df;;
    render_board_column dtypes "On Track" on_track_df;;
    render_board_column dtypes "No ETD" no_date_df.

End App.

(** *** [test.py]: selection by stage prefix *)
Module Test.

Definition WORKSHOP_STAGE_PREFIX : string := "Workshop - ".

(** The "Filter by Workshop stage prefix" block; [stage.startswith] exists
    on strings only. *)
Definition included (order : pydict) : exc bool :=
  let stage :=
    py_or (dict_get order "Stage") (py_or (dict_get order "stage") (PStr "")) in
  match stage with
  | PStr s => Ok (startswith WORKSHOP_STAGE_PREFIX s)
  | _ => Raise AttributeError
  end.

Definition process_orders_dataframe float_of_str :=
  process_orders_dataframe_with float_of_str included.

Definition is_processing (r : order_row) : bool :=
  py_eq_str (Stage r) "Workshop - Processing".
Definition is_to_collect (r : order_row) : bool :=
  py_eq_str (Stage r) "Workshop - To Collect".

Definition render_currently_working_on (df : DataFrame) : board :=
  let processing_df := df_filter is_processing df in
  if df_empty processing_df then []
  else [("Currently in Workshop",
         sort_values [(by_IsOverdue, false); (by_IsDueSoon, false);
                      (by_EstimatedDeliveryDate, true)] processing_df)].

Definition render_overdue (df : DataFrame) : board :=
  let overdue_df := df_filter IsOverdue df in
  if df_empty overdue_df then []
  else [("Overdue", sort_values [(by_DaysOverdue, false)] overdue_df)].

Definition render_needs_etd (df : DataFrame) : board :=
  let no_etd_df := df_filter no_flag df in
  if df_empty no_etd_df then []
  else [("Needs ETD", sort_values [(by_CreatedDate, true)] no_etd_df)].

Definition render_to_collect (df : DataFrame) : board :=
  let to_collect_df := df_filter is_to_collect df in
  if df_empty to_collect_df then []
  else [("To Collect",
         sort_values [(by_EstimatedDeliveryDate, true); (by_CreatedDate, true)]
           to_collect_df)].

(** The rows of the "Jobs in Queue" column (and of the TV board's
    "COMING UP" column). *)
Definition queue_df (df : DataFrame) : DataFrame :=
  let non_processing_df :=
    df_filter (fun r => negb (is_processing r) && negb (is_to_collect r)) df in
  let non_processing_df := df_filter (fun r => negb (IsOverdue r)) non_processing_df in
  sort_values [(by_EstimatedDeliveryDate, true)] (df_filter IsDueSoon non_processing_df).

Definition render_board (df : DataFrame) : board :=
  if df_empty df then []
  else
    (render_currently_working_on df ++
     render_to_collect df ++
     render_overdue df ++
     render_needs_etd df ++
     [("Jobs in Queue", queue_df df)])%list.

(** The four columns of the TV board (each column prints the first six
    cards of its group and counts the rest). *)
Definition render_tv_board (df : DataFrame) : board :=
  let overdue_df :=
    if negb (df_empty df)
    then sort_values [(by_DaysOverdue, false)] (df_filter IsOverdue df) else [] in
  let processing_df :=
    if negb (df_empty df)
    then sort_values [(by_EstimatedDeliveryDate, true)] (df_filter is_processing df)
    else [] in
  let to_collect_df :=
    if negb (df_empty df)
    then sort_values [(by_EstimatedDeliveryDate, true)] (df_filter is_to_collect df)
    else [] in
  let queue := if negb (df_empty df) then queue_df df else [] in
  [("OVERDUE", overdue_df); ("IN WORKSHOP", processing_df);
   ("TO COLLECT", to_collect_df); ("COMING UP", queue)].

End Test.

(* ===================================================================== *)
(** ** Paginated fetcher *)
(* ===================================================================== *)

(** What one [requests.get] does.  The body of a response is carried both
    as text and parsed ([response.json()]); a 200 response is taken to hold
    valid JSON. *)
Inductive net_outcome : Type :=
  | Response (status_code : Z) (text : string) (json : pyvalue)
  | RaisesTimeout
  | RaisesConnectionError
  | RaisesRequestException (msg : string).

(** The value of [last_error]. *)
Inductive api_error : Type :=
  | HTTPError (status_code : Z) (text : string)
  | TimedOut
  | CouldNotConnect
  | RequestFailed (msg : string).

(** The messages shown with [st.error]. *)
Inductive st_message : Type :=
  | AuthenticationFailed
  | AccessDenied
  | APIError (attempts : Z) (last_error : option api_error).

(** Observable actions, in program order. *)
Inductive event : Type :=
  | EvGet (page rows : Z)
  | EvSleep (seconds : Q)
  | EvError (msg : st_message)
  | EvWarning (msg : string).

(** How a computation ends: with a value, or halted by [st.stop()]. *)
Inductive outcome (A : Type) : Type :=
  | Done (a : A)
  | Stopped.
Arguments Done {A} a.
Arguments Stopped {A}.

(** A computation: the events it performed and how it ended. *)
Definition io (A : Type) : Type := list event * outcome A.

#[global] Instance io_ret : MRet io := fun A a => ([], Done a).
#[global] Instance io_bind : MBind io := fun A B f m =>
  match m with
  | (log, Done a) => let '(log', r) := f a in ((log ++ log')%list, r)
  | (log, Stopped) => (log, Stopped)
  end.

Definition emit (e : event) : io unit := ([e], Done tt).
Definition st_stop {A : Type} : io A := ([], Stopped).

Definition API_TIMEOUT : Z := 30.
Definition API_MAX_RETRIES : Z := 3.
Definition API_RETRY_DELAY : Q := 1.

(** [build_where_clause]: the per-stage conditions joined with [" AND "]. *)
Definition build_where_clause (excluded_stages : list string) : string :=
  String.concat " AND " (map (fun stage => "Stage<>'" +:+ stage +:+ "'") excluded_stages).

(** The GET requests issued, as page numbers in order. *)
Definition requested_pages (log : list event) : list Z :=
  omap (fun e => match e with EvGet page _ => Some page | _ => None end) log.

Section Fetcher.

(** The remote source: what the [attempt]-th try (from 0) of the request
    for page [page] gets.  Within one run every page is requested by one
    call of [request_json], so this determines the run. *)
Context (net : Z -> Z -> net_outcome).

(** The deployment's classifier, with the current date fixed. *)
Context (process_orders_dataframe : list pyvalue -> exc DataFrame).

(** "Wait before retry" at the end of the loop body. *)
Definition wait_before_retry (attempt : Z) : io unit :=
  if attempt <? API_MAX_RETRIES - 1
  then emit (EvSleep (API_RETRY_DELAY * inject_Z (attempt + 1))%Q)
  else mret tt.

(** [for attempt in range(API_MAX_RETRIES)] from [attempt] on, with
    [remaining] iterations left, followed by the code after the loop. *)
Fixpoint request_attempts (page rows : Z) (suppress_error : bool)
    (remaining : nat) (attempt : Z) (last_error : option api_error) : io pyvalue :=
  match remaining with
  | O =>
      (if negb suppress_error
       then emit (EvError (APIError API_MAX_RETRIES last_error))
       else mret tt);;
      mret PNone
  | S remaining' =>
      emit (EvGet page rows);;
      match net page attempt with
      | Response status_code text json =>
          if status_code =? 200 then mret json
          else if status_code =? 401 then emit (EvError AuthenticationFailed);; st_stop
          else if status_code =? 403 then emit (EvError AccessDenied);; st_stop
          else if status_code =? 429 then
            emit (EvSleep (API_RETRY_DELAY * inject_Z (attempt + 1) * 2)%Q);;
            request_attempts page rows suppress_error remaining' (attempt + 1) last_error
          else
            let last_error := Some (HTTPError status_code (String.substring 0 500 text)) in
            wait_before_retry attempt;;
            request_attempts page rows suppress_error remaining' (attempt + 1) last_error
      | RaisesTimeout =>
          wait_before_retry attempt;;
          request_attempts page rows suppress_error remaining' (attempt + 1) (Some TimedOut)
      | RaisesConnectionError =>
          wait_before_retry attempt;;
          request_attempts page rows suppress_error remaining' (attempt + 1)
            (Some CouldNotConnect)
      | RaisesRequestException msg =>
          wait_before_retry attempt;;
          request_attempts page rows suppress_error remaining' (attempt + 1)
            (Some (RequestFailed msg))
      end
  end.

(** [request_json("/SalesOrders", params)] for the page of [params]. *)
Definition request_json (page rows : Z) (suppress_error : bool) : io pyvalue :=
  request_attempts page rows suppress_error (Z.to_nat API_MAX_RETRIES) 0 None.

(** "Handle different response formats": [None] is the [break] of the
    final [else]. *)
Definition response_orders (response : pyvalue) : option (list pyvalue) :=
  match response with
  | PList l => Some l
  | PDict d =>
      let orders := dict_get_default d "data" (dict_get_default d "Data" (PList [])) in
      match orders with
      | PList l => Some l
      | _ => Some (if truthy (dict_get d "Id") then [response] else [])
      end
  | _ => None
  end.

Definition rows_per_page : Z := 250.

(** The [while True] loop; [fuel] bounds the iterations, and 100 is
    enough because of the page limit (see [fetch_pages_fuel]). *)
Fixpoint fetch_pages (fuel : nat) (page : Z) (all_orders : list pyvalue)
  : io (list pyvalue) :=
  match fuel with
  | O => mret all_orders
  | S fuel' =>
      response ← request_json page rows_per_page false;
      match response with
      | PNone => mret all_orders
      | _ =>
          match response_orders response with
          | None => mret all_orders
          | Some orders =>
              if bool_decide (orders = []) then mret all_orders
              else
                let all_orders := (all_orders ++ orders)%list in
                if Z.of_nat (length orders) <? rows_per_page then mret all_orders
                else
                  let page := page + 1 in
                  if page >? 100
                  then emit (EvWarning
                         "Reached maximum page limit (100). Some orders may not be shown.");;
                       mret all_orders
                  else fetch_pages fuel' page all_orders
          end
      end
  end.

(** The records accumulated by the loop of [fetch_sales_orders]. *)
Definition fetch_all_orders : io (list pyvalue) := fetch_pages 100 1 [].

(** [fetch_sales_orders]: the loop, then the classifier on what was
    accumulated. *)
Definition fetch_sales_orders : io (exc DataFrame) :=
  all_orders ← fetch_all_orders;
  if bool_decide (all_orders = []) then mret (Ok [])
  else mret (process_orders_dataframe all_orders).

End Fetcher.

(* ===================================================================== *)
(** ** Vocabulary of the properties *)
(* ===================================================================== *)

(** The camelCase spelling of a PascalCase name. *)
Definition camel_case (field_name : string) : string :=
  match field_name with
  | EmptyString => EmptyString
  | String c rest => String (ascii_lower c) rest
  end.

Definition is_null (v : pyvalue) : bool :=
  match v with PNone => true | _ => false end.

(** The reconciler as the specification words it: the first non-null value
    under the PascalCase key, else the value under the camelCase key. *)
Definition first_non_null (order : pydict) (field_name : string) : pyvalue :=
  if negb (is_null (dict_get order field_name))
  then dict_get order field_name
  else dict_get order (camel_case field_name).

(** The four urgency values. *)
Inductive urgency : Type := Overdue | DueSoon | OnTrack | NoDate.

(** On a row the urgency is read off the three flags, [NoDate] being the
    absence of all three (the mask of the "no ETD" groups). *)
Definition has_urgency (u : urgency) (r : order_row) : bool :=
  match u with
  | Overdue => IsOverdue r
  | DueSoon => IsDueSoon r
  | OnTrack => IsOnTrack r
  | NoDate => no_flag r
  end.

(** The flags of a row, as the classifier sets them together. *)
Definition row_flags (r : order_row) : urgency_flags :=
  mkFlags (IsOverdue r) (IsDueSoon r) (IsOnTrack r) (DaysOverdue r).

(** The value of a logical field of a raw record: what [get_field] returns
    for a non-empty name. *)
Definition raw_field (order : pydict) (field_name : string) : pyvalue :=
  py_or (dict_get order field_name) (dict_get order (camel_case field_name)).

(** "Dispatched": the stage is the literal label, or a dispatch timestamp
    is present. *)
Definition dispatched (stage : pyvalue) (dispatched_date : option datetime) : bool :=
  py_eq_str stage "Dispatched" || bool_decide (dispatched_date <> None).

(** The void flag of a raw record, under either spelling. *)
Definition void_flag (order : pyvalue) : bool :=
  match order with
  | PDict d => truthy (dict_get d "IsVoid") || truthy (dict_get d "isVoid")
  | _ => false
  end.

Definition is_dict (v : pyvalue) : bool :=
  match v with PDict _ => true | _ => false end.

(** Line items the aggregation loop can walk: none, or a list of dicts. *)
Definition line_items_ok (order : pydict) : bool :=
  match raw_field order "LineItems" with
  | PList l => forallb is_dict l
  | v => negb (truthy v)
  end.

(** The line items the aggregation loop walks. *)
Definition line_items_of (order : pydict) : list pyvalue :=
  match raw_field order "LineItems" with
  | PList l => l
  | _ => []
  end.

(** The quantity of a line item is an integer beyond the range of the
    doubles: [float] raises [OverflowError] on it. *)
Definition qty_overflows (item : pyvalue) : bool :=
  match item with
  | PDict d =>
      match item_qty d with
      | PInt z => match float_of_int z with Ok _ => false | Raise _ => true end
      | _ => false
      end
  | _ => false
  end.

(** The board of [app.py] when every card can be built: the in-progress
    group, if any, and the four columns. *)
Definition App_complete_board (df : DataFrame) : board :=
  if df_empty df then []
  else
    let processing_df := df_filter (fun r => py_eq_str (Stage r) "Processing") df in
    let non_processing_df :=
      df_filter (fun r => negb (py_eq_str (Stage r) "Processing")) df in
    ((if df_empty processing_df then []
      else [("Currently Working On",
             sort_values [(by_IsOverdue, false); (by_IsDueSoon, false);
                          (by_EstimatedDeliveryDate, true)] processing_df)]) ++
     [("Overdue",
       sort_values [(by_DaysOverdue, false)] (df_filter IsOverdue non_processing_df));
      ("Due Soon (7d)",
       sort_values [(by_EstimatedDeliveryDate, true)]
         (df_filter IsDueSoon non_processing_df));
      ("On Track",
       sort_values [(by_EstimatedDeliveryDate, true)]
         (df_filter IsOnTrack non_processing_df));
      ("No ETD",
       sort_values [(by_CreatedDate, false)] (df_filter no_flag non_processing_df))])%list.

(** A card of [app.py] that cannot be built: a missing date in a
    [datetime64] column. *)
Definition nat_card (dtypes : date_dtypes) (r : order_row) : bool :=
  match App.render_job_card dtypes r with
  | Ok _ => false
  | Raise _ => true
  end.

(** [i] labels a row of the group [g]. *)
Definition in_group (i : nat) (g : DataFrame) : bool :=
  existsb (Nat.eqb i) (map fst g).

(** A transient failure of one attempt, with the error it records: a
    timeout, a connection failure, another request exception, or a status
    other than 200, 401, 403 and 429. *)
Definition transient_error (o : net_outcome) : option api_error :=
  match o with
  | Response status_code text _ =>
      if (status_code =? 200) || (status_code =? 401) || (status_code =? 403)
         || (status_code =? 429)
      then None
      else Some (HTTPError status_code (String.substring 0 500 text))
  | RaisesTimeout => Some TimedOut
  | RaisesConnectionError => Some CouldNotConnect
  | RaisesRequestException msg => Some (RequestFailed msg)
  end.

(** An attempt after which the loop tries again: rate-limited or transient. *)
Definition retried (o : net_outcome) : bool :=
  match o with
  | Response status_code _ _ => (status_code =? 429) || bool_decide (is_Some (transient_error o))
  | _ => true
  end.

(** A 401 or 403 response, with the message it is reported with. *)
Definition auth_failure (o : net_outcome) : option st_message :=
  match o with
  | Response status_code _ _ =>
      if status_code =? 401 then Some AuthenticationFailed
      else if status_code =? 403 then Some AccessDenied
      else None
  | _ => None
  end.

(** The request for [page] succeeds, after the events [log], with a body
    that holds [orders], a full page or more. *)
Definition full_page (net : Z -> Z -> net_outcome) (page : Z)
    (log : list event) (orders : list pyvalue) : Prop :=
  exists response,
    request_json net page rows_per_page false = (log, Done response) /\
    response_orders response = Some orders /\
    rows_per_page <= Z.of_nat (length orders).

(** Every character of [s] satisfies [P]. *)
Fixpoint string_forall (P : ascii -> bool) (s : string) : bool :=
  match s with
  | EmptyString => true
  | String c s' => P c && string_forall P s'
  end.

Definition is_digit (c : ascii) : bool :=
  match digit_of c with Some _ => true | None => false end.

(** The characters [isoformat] can print. *)
Definition iso_char (c : ascii) : bool :=
  is_digit c || Ascii.eqb c "-" || Ascii.eqb c "T" || Ascii.eqb c ":" || Ascii.eqb c ".".

(** The values a two-digit directive accepts and the [datetime]
    constructor allows. *)
Definition two_digit_range (d : directive) (v : Z) : Prop :=
  match d with
  | Dirm => 1 <= v <= 12
  | Dird => 1 <= v <= 31
  | DirH => 0 <= v <= 23
  | DirM => 0 <= v <= 59
  | DirS => 0 <= v <= 59
  | _ => False
  end.

(** The part of the format and of the output down to the seconds. *)
Definition seconds_items : list fmt_item :=
  [Dir DirY; Lit "-"; Dir Dirm; Lit "-"; Dir Dird; Lit "T";
   Dir DirH; Lit ":"; Dir DirM; Lit ":"; Dir DirS].

(** The output of [isoformat] down to the seconds, followed by [rest]. *)
Definition isoformat_seconds (dt : datetime) (rest : string) : string :=
  zpad 4 (year dt) +:+ "-" +:+ zpad 2 (month dt) +:+ "-" +:+ zpad 2 (day dt)
  +:+ String "T"
        (zpad 2 (hour dt) +:+ ":" +:+ zpad 2 (minute dt) +:+ ":" +:+ zpad 2 (second dt)
         +:+ rest).

(** The time of day as [isoformat] prints it. *)
Definition isoformat_time (dt : datetime) : string :=
  zpad 2 (hour dt) +:+ ":" +:+ zpad 2 (minute dt) +:+ ":" +:+ zpad 2 (second dt)
  +:+ (if microsecond dt =? 0 then "" else "." +:+ zpad 6 (microsecond dt)).

(* ===================================================================== *)
(** ** Further functions of the two programs *)
(* ===================================================================== *)

(** *** Counts, cards and escaping *)

(** [df[col].sum()] on a boolean column, and [(df["Stage"] == label).sum()]. *)
Definition column_sum (col : order_row -> bool) (df : DataFrame) : Z :=
  fold_right (fun ir acc => Z.b2z (col (snd ir)) + acc) 0 df.

(** [df.head(n)]: the first [n] rows, or all but the last [-n] for a
    negative [n]. *)
Definition df_head (n : Z) (df : DataFrame) : DataFrame :=
  if 0 <=? n then take (Z.to_nat n) df
  else take (length df - Z.to_nat (- n)) df.

(** The double quote character. *)
Definition dquote : ascii := ascii_of_nat 34.

(** [html.escape(s)] of the standard library, with [quote=True]. *)
Definition html_escape (s : string) : string :=
  str_replace "'" "&#x27;"
    (str_replace (String dquote "") "&quot;"
       (str_replace ">" "&gt;" (str_replace "<" "&lt;" (str_replace "&" "&amp;" s)))).

(** [s.rstrip(c)] for one character [c]. *)
Fixpoint rstrip (c : ascii) (s : string) : string :=
  match s with
  | EmptyString => EmptyString
  | String a s' =>
      match rstrip c s' with
      | EmptyString => if Ascii.eqb a c then EmptyString else String a EmptyString
      | r => String a r
      end
  end.

(** The URL normalisation at the head of [request_json]: no trailing slash
    on the base, one leading slash on the path. *)
Definition request_url (base_url path : string) : string :=
  let base_url := rstrip "/" base_url in
  let path := if startswith "/" path then path else "/" +:+ path in
  base_url +:+ path.

(** [[s for s in all_stages if s not in selected_stages]] of [main]. *)
Definition excluded_stages (all_stages selected_stages : list string) : list string :=
  List.filter (fun s => negb (bool_decide (s ∈ selected_stages))) all_stages.

(** What [render_tv_column_cards] puts in a column: the "No jobs" notice,
    or the cards of the rows shown followed, when rows are left out, by the
    "+ n more" line. *)
Record tv_column : Type := mkTvColumn {
  tv_no_jobs : bool;
  tv_cards : DataFrame;
  tv_more : option Z
}.

Definition render_tv_column_cards (jobs_df : DataFrame) (max_cards : Z) : tv_column :=
  if df_empty jobs_df then mkTvColumn true [] None
  else
    let total_jobs := Z.of_nat (length jobs_df) in
    let display_jobs := df_head max_cards jobs_df in
    mkTvColumn false display_jobs
      (if total_jobs >? max_cards then Some (total_jobs - max_cards) else None).

(** *** [app.py] *)
Module AppUI.

(** The numbers of [render_kpi_cards]. *)
Record kpi_cards : Type := mkKpi {
  total_jobs : Z;
  overdue_count : Z;
  due_soon_count : Z;
  on_track_count : Z
}.

Definition render_kpi_cards (df : DataFrame) : kpi_cards :=
  if df_empty df then mkKpi 0 0 0 0
  else mkKpi (Z.of_nat (length df)) (column_sum IsOverdue df)
             (column_sum IsDueSoon df) (column_sum IsOnTrack df).

(** The "Escape text content" chain of [render_job_card]. *)
Definition escape_text (s : string) : string :=
  str_replace ">" "&gt;" (str_replace "<" "&lt;" s).

End AppUI.

(** *** [test.py] *)
Module TestUI.

Definition ACTIVE_STAGES : list string :=
  ["Workshop - New"; "Workshop - Processing"; "Workshop - Job Complete";
   "Workshop - To Collect"].

Definition all_stages : list string :=
  ["Workshop - New"; "Workshop - Processing"; "Workshop - Job Complete";
   "Workshop - To Collect";
   "New"; "Processing"; "Job Complete";
   "To Call"; "To Collect"; "Awaiting PO"; "Awaiting Payment";
   "Release To Pick"; "Partially Picked"; "Fully Picked";
   "Fully Picked - Hold"; "On Hold"; "Ready to Invoice";
   "Fully Dispatched"; "Dispatched"; "Cancelled"].

(** The numbers of [render_kpi_cards]. *)
Record kpi_cards : Type := mkKpi {
  total_jobs : Z;
  overdue_count : Z;
  due_soon_count : Z
}.

Definition render_kpi_cards (df : DataFrame) : kpi_cards :=
  if df_empty df then mkKpi 0 0 0
  else mkKpi (Z.of_nat (length df)) (column_sum IsOverdue df) (column_sum IsDueSoon df).

(** The numbers of [render_tv_kpi_cards]. *)
Record tv_kpi_cards : Type := mkTvKpi {
  tv_overdue_count : Z;
  tv_queue_count : Z;
  tv_workshop_count : Z;
  tv_to_collect_count : Z
}.

Definition render_tv_kpi_cards (df : DataFrame) : tv_kpi_cards :=
  if df_empty df then mkTvKpi 0 0 0 0
  else mkTvKpi (column_sum IsOverdue df) (column_sum IsDueSoon df)
               (column_sum Test.is_processing df) (column_sum Test.is_to_collect df).

(** The "Escape text content for HTML" chain of [render_job_card]. *)
Definition escape_text (s : string) : string :=
  str_replace (String dquote "") "&quot;"
    (str_replace ">" "&gt;" (str_replace "<" "&lt;" (str_replace "&" "&amp;" s))).

(** The stage shown on a card: ["Unknown"] for a falsy stage, else the
    stage without the workshop prefix; [startswith] and [replace] exist on
    strings only. *)
Definition display_stage (stage : pyvalue) : exc string :=
  match py_or stage (PStr "Unknown") with
  | PStr stage =>
      Ok (if startswith Test.WORKSHOP_STAGE_PREFIX stage
          then str_replace Test.WORKSHOP_STAGE_PREFIX "" stage
          else stage)
  | _ => Raise AttributeError
  end.

End TestUI.

(** *** Vocabulary of the further properties *)

(** The markup characters of HTML text and attribute values. *)
Definition is_markup (c : ascii) : bool :=
  Ascii.eqb c "<" || Ascii.eqb c ">" || Ascii.eqb c dquote.

(** The rows of the group titled [title]. *)
Definition group_rows (title : string) (b : board) : DataFrame :=
  flat_map (fun g => if String.eqb (fst g) title then snd g else []) b.

(** Two rows in the order of one key: in the given direction, a missing
    value after every present one. *)
Definition key_ordered (k : sort_key) (ascending : bool) (a b : nat * order_row) : Prop :=
  match k (snd a), k (snd b) with
  | Some x, Some y => if ascending then x <= y else y <= x
  | None, Some _ => False
  | _, _ => True
  end.

(** What [process_order] keeps of a record, a [continue] and a raise
    alike giving nothing. *)
Definition kept_row (float_of_str : string -> option float) (included : pydict -> exc bool)
    (today : date) (order : pyvalue) : option order_row :=
  match process_order float_of_str included today order with
  | Ok (Some row) => Some row
  | _ => None
  end.

(** The field names the classifier reads, the stage apart. *)
Definition plain_fields : list string :=
  ["CreatedDate"; "ModifiedDate"; "EstimatedDeliveryDate"; "DispatchedDate";
   "LineItems"; "Id"; "Reference"; "ProjectName"; "Company"; "Status"; "BranchId"].

(** A date in the [dd/mm/yyyy] notation, and in the [mm/dd/yyyy] one. *)
Definition day_first (y m d : Z) : string :=
  zpad 2 d +:+ "/" +:+ zpad 2 m +:+ "/" +:+ zpad 4 y.

Definition month_first (y m d : Z) : string :=
  zpad 2 m +:+ "/" +:+ zpad 2 d +:+ "/" +:+ zpad 4 y.

(** [date.isoformat()]: a date in the [yyyy-mm-dd] notation. *)
Definition date_isoformat (y m d : Z) : string :=
  zpad 4 y +:+ "-" +:+ zpad 2 m +:+ "-" +:+ zpad 2 d.

(** The warning of the safety limit. *)
Definition page_limit_warning : string :=
  "Reached maximum page limit (100). Some orders may not be shown.".

(** A GET is for a page between [lo] and [hi], with [rows] rows. *)
Definition get_for (lo hi rows : Z) (e : event) : bool :=
  match e with
  | EvGet page r => (lo <=? page) && (page <=? hi) && (r =? rows)
  | _ => true
  end.

(** The report "API Error after 3 attempts". *)
Definition is_api_error (e : event) : bool :=
  match e with
  | EvError (APIError _ _) => true
  | _ => false
  end.

(** Nothing is shown to the user. *)
Definition silent (e : event) : bool :=
  match e with
  | EvGet _ _ | EvSleep _ => true
  | _ => false
  end.

(** A 429 response. *)
Definition rate_limited (o : net_outcome) : bool :=
  match o with
  | Response status_code _ _ => status_code =? 429
  | _ => false
  end.

(** A 200 body that holds no records: null, a scalar, an empty list, or
    an object with neither a [data] nor a [Data] entry. *)
Definition no_records (json : pyvalue) : bool :=
  match json with
  | PList l => bool_decide (l = [])
  | PDict d => bool_decide (d !! "data" = None) && bool_decide (d !! "Data" = None)
  | _ => true
  end.

(** The date string as [parse_date] hands it to [strptime]. *)
Definition strip_markers (s : string) : string :=
  str_replace "Z" "" (str_replace "+00:00" "" s).

(** The formats of [parse_date] as [strptime] compiles them, the [Z]
    removed. *)
Definition fraction_items : list fmt_item :=
  (seconds_items ++ [Lit "."; Dir Dirf])%list.
Definition date_items : list fmt_item :=
  [Dir DirY; Lit "-"; Dir Dirm; Lit "-"; Dir Dird].
Definition day_first_items : list fmt_item :=
  [Dir Dird; Lit "/"; Dir Dirm; Lit "/"; Dir DirY].
Definition month_first_items : list fmt_item :=
  [Dir Dirm; Lit "/"; Dir Dird; Lit "/"; Dir DirY].

Definition compiled_formats : list (list fmt_item) :=
  [seconds_items; fraction_items; seconds_items; fraction_items;
   date_items; day_first_items; month_first_items].

(** [strptime] on a compiled format. *)
Definition run_format (s : string) (items : list fmt_item) : option datetime :=
  match match_items items s strptime_default with
  | Some (dt, EmptyString) => if valid_datetime dt then Some dt else None
  | _ => None
  end.

(** Midnight of a date. *)
Definition midnight (y m d : Z) : datetime := mkDatetime y m d 0 0 0 0.

(** The characters of the date notations. *)
Definition date_char (c : ascii) : bool := iso_char c || Ascii.eqb c "/".

(** A row with the given stage and flags, every other field at its default. *)
Definition row_with (stage : string) (fl : urgency_flags) : order_row :=
  {| Id := PNone; Reference := PStr ""; ProjectName := PStr ""; Company := PStr "";
     CreatedDate := None; ModifiedDate := None; Stage := PStr stage;
     Status := PStr ""; BranchId := PNone;
     EstimatedDeliveryDate := None; DispatchedDate := None;
     LineCount := 0; QtyTotal := PrimFloat.zero; SizeBucket := "S";
     WorkloadScore := PrimFloat.zero;
     IsOverdue := is_overdue fl; IsDueSoon := is_due_soon fl;
     IsOnTrack := is_on_track fl; DaysOverdue := days_overdue fl;
     HasLineItems := false |}.

(** The apostrophe, which [html.escape] replaces too. *)
Definition is_quote (c : ascii) : bool := Ascii.eqb c "'".

(** [old in s]: [old] occurs somewhere in [s]. *)
Fixpoint occurs (old s : string) : bool :=
  startswith old s ||
  match s with
  | String _ s' => occurs old s'
  | EmptyString => false
  end.

(* ===================================================================== *)
(** * Properties *)
(* ===================================================================== *)

(** ** The model on the documented examples *)

Example size_bucket_boundaries :
  size_bucket_of 9 = "S" /\ size_bucket_of 10 = "M" /\
  size_bucket_of 29 = "M" /\ size_bucket_of 30 = "L".
Proof. repeat split; reflexivity. Qed.

Example due_soon_boundary_inclusive :
  let today := mkDate 2024 1 5 in
  status_flags today (PStr "New") (Some (mkDatetime 2024 1 12 0 0 0 0)) None
  = mkFlags false true false None /\
  status_flags today (PStr "New") (Some (mkDatetime 2024 1 13 0 0 0 0)) None
  = mkFlags false false true None /\
  status_flags today (PStr "New") (Some (mkDatetime 2024 1 2 0 0 0 0)) None
  = mkFlags true false false (Some 3) /\
  status_flags today (PStr "Dispatched") (Some (mkDatetime 2024 1 2 0 0 0 0)) None
  = mkFlags false false false None.
Proof. repeat split; reflexivity. Qed.

Example day_first_wins :
  parse_date (PStr "03/04/2024") = Some (mkDatetime 2024 4 3 0 0 0 0) /\
  parse_date (PStr "04/13/2024") = Some (mkDatetime 2024 4 13 0 0 0 0) /\
  parse_date (PStr "2024-02-30") = None /\
  parse_date (PStr "2024-01-02T03:04:05.5Z") = Some (mkDatetime 2024 1 2 3 4 5 500000) /\
  parse_date (PInt 20240102) = None.
Proof. vm_compute. repeat split; reflexivity. Qed.

Example rate_limited_then_ok :
  let net : Z -> Z -> net_outcome :=
    fun _ attempt =>
      if attempt =? 0 then Response 429 "" PNone else Response 200 "" (PList [PDict ∅]) in
  request_json net 1 250 false
  = ([EvGet 1 250; EvSleep 2; EvGet 1 250], Done (PList [PDict ∅])).
Proof. reflexivity. Qed.

Example where_clause_joined :
  build_where_clause ["Dispatched"; "Cancelled"] = "Stage<>'Dispatched' AND Stage<>'Cancelled'"
  /\ build_where_clause [] = "".
Proof. split; reflexivity. Qed.

Example toordinal_examples :
  toordinal (mkDate 1 1 1) = 1 /\ toordinal (mkDate 2024 3 1) = 738946.
Proof. split; reflexivity. Qed.

(** ** Field reconciler *)

Lemma get_field_nonempty (order : pydict) (c : ascii) (rest : string) :
  get_field order (String c rest)
  = Ok (py_or (dict_get order (String c rest))
              (dict_get order (String (ascii_lower c) rest))).
Proof.
  unfold get_field, py_or.
  destruct (truthy (dict_get order (String c rest))); reflexivity.
Qed.

Lemma get_field_empty_name_raises :
  get_field ∅ "" = Raise IndexError.
Proof. reflexivity. Qed.

(** C3, as stated, fails: a non-null but falsy value under the PascalCase
    key (here the empty string) is passed over for the camelCase value. *)
Lemma get_field_skips_falsy_pascal :
  let order : pydict := <["Reference" := PStr ""]> (<["reference" := PStr "SO-1"]> ∅) in
  is_null (dict_get order "Reference") = false /\
  first_non_null order "Reference" = PStr "" /\
  get_field order "Reference" = Ok (PStr "SO-1").
Proof. vm_compute. repeat split; reflexivity. Qed.

(** C3 (amended): for a non-empty field name the reconciler never raises
    and returns the value under the PascalCase key when that value is
    truthy, and otherwise whatever is under the camelCase key ([None] when
    that key is absent); a truthy PascalCase value wins over any camelCase
    value, and a field absent under both keys gives [None]. *)
Theorem get_field_truthy_first (order : pydict) (field_name : string) :
  field_name <> "" ->
  get_field order field_name
  = Ok (if truthy (dict_get order field_name)
        then dict_get order field_name
        else dict_get order (camel_case field_name))
  /\ (truthy (dict_get order field_name) = true ->
      get_field order field_name = Ok (dict_get order field_name))
  /\ (order !! field_name = None -> order !! camel_case field_name = None ->
      get_field order field_name = Ok PNone).
Proof.
  intros Hne. destruct field_name as [|c rest]; [congruence|].
  rewrite get_field_nonempty. unfold py_or. simpl camel_case.
  split; [reflexivity|]. split.
  - intros ->. reflexivity.
  - intros H1 H2. unfold dict_get. rewrite H1, H2. reflexivity.
Qed.

Lemma get_field_truthy_first_witness :
  let order : pydict := <["Reference" := PStr "SO-7"]> (<["reference" := PStr "SO-1"]> ∅) in
  get_field order "Reference" = Ok (PStr "SO-7") /\
  get_field order "Company" = Ok PNone.
Proof.
  intros order.
  assert (Hr : "Reference" <> "") by discriminate.
  assert (Hc : "Company" <> "") by discriminate.
  destruct (get_field_truthy_first order "Reference" Hr) as (_ & H2 & _).
  destruct (get_field_truthy_first order "Company" Hc) as (_ & _ & H3).
  split.
  - apply H2. vm_compute. reflexivity.
  - apply H3; vm_compute; reflexivity.
Defined.

(** ** Line-item quantities *)

Lemma item_qty_first_truthy (item : pydict) :
  let a := dict_get item "Qty" in
  let b := dict_get item "qty" in
  let c := dict_get item "UomQtyOrdered" in
  let d := dict_get item "uomQtyOrdered" in
  item_qty item
  = if truthy a then a
    else if truthy b then b
    else if truthy c then c
    else if truthy d then d
    else PInt 0.
Proof. reflexivity. Qed.

(** C10, as stated, fails: with [Qty = 0] and [UomQtyOrdered = 7] a truthy
    [qty] is taken first (the item adds 5, not 7); and an item whose
    selected quantity cannot be coerced adds nothing although a variant is
    present and truthy, be it a list ([float] raises [TypeError]) or the
    string ["n/a"] ([float] raises [ValueError] on it, which is all the
    string coercion used here has to say). *)
Lemma item_qty_claim_fails :
  let item1 : pydict :=
    <["Qty" := PInt 0]> (<["qty" := PInt 5]> (<["UomQtyOrdered" := PInt 7]> ∅)) in
  let item2 : pydict := <["Qty" := PList [PInt 1]]> ∅ in
  let item3 : pydict := <["Qty" := PStr "n/a"]> ∅ in
  (dict_get item1 "Qty" = PInt 0 /\ dict_get item1 "UomQtyOrdered" = PInt 7 /\
   add_item_qty (fun _ => None) PrimFloat.zero (PDict item1)
   = Ok (PrimFloat.add PrimFloat.zero (Z2float 5)) /\
   PrimFloat.add PrimFloat.zero (Z2float 5) <> PrimFloat.add PrimFloat.zero (Z2float 7))
  /\
  (truthy (dict_get item2 "Qty") = true /\
   add_item_qty (fun _ => None) PrimFloat.zero (PDict item2) = Ok PrimFloat.zero)
  /\
  (truthy (dict_get item3 "Qty") = true /\
   add_item_qty (fun _ => None) PrimFloat.zero (PDict item3) = Ok PrimFloat.zero).
Proof.
  intros item1 item2 item3. split; [|split].
  - split; [reflexivity|]. split; [reflexivity|]. split; [reflexivity|].
    intros H.
    apply (f_equal (fun x => PrimFloat.eqb x (PrimFloat.add PrimFloat.zero (Z2float 5)))) in H.
    vm_compute in H. discriminate H.
  - split; reflexivity.
  - split; reflexivity.
Qed.

(** C10 (amended): the quantity is the first truthy value among [Qty],
    [qty], [UomQtyOrdered], [uomQtyOrdered], in that order, and the integer
    0 when none is truthy.  An item with [Qty = 0], no truthy [qty] and
    [UomQtyOrdered = 7] adds 7; an item all of whose variants are absent or
    falsy adds 0; an item whose selected value cannot be coerced to a
    number leaves the total unchanged. *)
Theorem item_qty_priority (float_of_str : string -> option float) (item : pydict)
    (total : float) :
  (truthy (dict_get item "Qty") = false ->
   truthy (dict_get item "qty") = false ->
   dict_get item "UomQtyOrdered" = PInt 7 ->
   item_qty item = PInt 7 /\
   add_item_qty float_of_str total (PDict item) = Ok (PrimFloat.add total (Z2float 7)))
  /\
  (truthy (dict_get item "Qty") = false ->
   truthy (dict_get item "qty") = false ->
   truthy (dict_get item "UomQtyOrdered") = false ->
   truthy (dict_get item "uomQtyOrdered") = false ->
   item_qty item = PInt 0 /\
   add_item_qty float_of_str total (PDict item) = Ok (PrimFloat.add total (Z2float 0)))
  /\
  (py_float float_of_str (item_qty item) = Raise TypeError \/
   py_float float_of_str (item_qty item) = Raise ValueError ->
   add_item_qty float_of_str total (PDict item) = Ok total)
  /\
  (forall v, truthy v = true ->
     (dict_get item "Qty" = v -> item_qty item = v) /\
     (truthy (dict_get item "Qty") = false -> dict_get item "qty" = v ->
      item_qty item = v) /\
     (truthy (dict_get item "Qty") = false -> truthy (dict_get item "qty") = false ->
      dict_get item "UomQtyOrdered" = v -> item_qty item = v) /\
     (truthy (dict_get item "Qty") = false -> truthy (dict_get item "qty") = false ->
      truthy (dict_get item "UomQtyOrdered") = false ->
      dict_get item "uomQtyOrdered" = v -> item_qty item = v)).
Proof.
  pose proof (item_qty_first_truthy item) as E. cbv zeta in E.
  repeat split.
  - rewrite E, H, H0, H1. reflexivity.
  - unfold add_item_qty. rewrite E, H, H0, H1. reflexivity.
  - rewrite E, H, H0, H1, H2. reflexivity.
  - unfold add_item_qty. rewrite E, H, H0, H1, H2. reflexivity.
  - intros [Hf | Hf]; unfold add_item_qty; rewrite Hf; reflexivity.
  - intros Hq. rewrite E, Hq, H. reflexivity.
  - intros H1 Hq. rewrite E, H1, Hq, H. reflexivity.
  - intros H1 H2 Hq. rewrite E, H1, H2, Hq, H. reflexivity.
  - intros H1 H2 H3 Hq. rewrite E, H1, H2, H3, Hq, H. reflexivity.
Qed.

Lemma item_qty_priority_witness :
  let item : pydict := <["Qty" := PInt 0]> (<["UomQtyOrdered" := PInt 7]> ∅) in
  item_qty item = PInt 7 /\
  add_item_qty (fun _ => None) PrimFloat.zero (PDict item)
  = Ok (PrimFloat.add PrimFloat.zero (Z2float 7)) /\
  add_item_qty (fun _ => None) PrimFloat.zero (PDict ∅)
  = Ok (PrimFloat.add PrimFloat.zero (Z2float 0)).
Proof.
  intros item.
  destruct (item_qty_priority (fun _ => None) item PrimFloat.zero) as (H1 & _).
  destruct (item_qty_priority (fun _ => None) ∅ PrimFloat.zero) as (_ & H2 & _).
  destruct H1 as [Ha Hb]; [reflexivity | reflexivity | reflexivity |].
  destruct H2 as [_ Hc]; [reflexivity | reflexivity | reflexivity | reflexivity |].
  repeat split; assumption.
Defined.

(** ** Order classifier *)

Lemma truthy_py_or (a b : pyvalue) : truthy (py_or a b) = truthy a || truthy b.
Proof. unfold py_or. destruct (truthy a) eqn:E; simpl; [exact E | reflexivity]. Qed.

Lemma py_or_falsy (a b : pyvalue) : truthy a = false -> py_or a b = b.
Proof. unfold py_or. intros ->. reflexivity. Qed.

Lemma py_or_truthy (a b : pyvalue) : truthy a = true -> py_or a b = a.
Proof. unfold py_or. intros ->. reflexivity. Qed.

(** The state machine of [status_flags], case by case. *)
Lemma status_flags_spec (today : date) (stage : pyvalue)
    (eta dispatched_date : option datetime) :
  match eta with
  | Some ed =>
      if dispatched stage dispatched_date
      then status_flags today stage eta dispatched_date = mkFlags false false false None
      else
        let days_until_due := date_sub_days (date_of ed) today in
        (days_until_due < 0 ->
         status_flags today stage eta dispatched_date
         = mkFlags true false false (Some (- days_until_due))) /\
        (0 <= days_until_due <= 7 ->
         status_flags today stage eta dispatched_date = mkFlags false true false None) /\
        (7 < days_until_due ->
         status_flags today stage eta dispatched_date = mkFlags false false true None)
  | None => status_flags today stage eta dispatched_date = mkFlags false false false None
  end.
Proof.
  unfold status_flags, dispatched, DUE_SOON_DAYS.
  destruct eta as [ed|]; [|reflexivity].
  destruct (py_eq_str stage "Dispatched" || bool_decide (dispatched_date <> None));
    simpl; [reflexivity|].
  repeat split; intros Hd.
  - destruct (Z.ltb_spec (date_sub_days (date_of ed) today) 0); [|lia].
    rewrite Z.abs_neq by lia. reflexivity.
  - destruct (Z.ltb_spec (date_sub_days (date_of ed) today) 0); [lia|].
    destruct (Z.leb_spec (date_sub_days (date_of ed) today) 7); [reflexivity|lia].
  - destruct (Z.ltb_spec (date_sub_days (date_of ed) today) 0); [lia|].
    destruct (Z.leb_spec (date_sub_days (date_of ed) today) 7); [lia|reflexivity].
Qed.

(** The flag combinations [status_flags] can produce. *)
Lemma status_flags_shape (today : date) (stage : pyvalue)
    (eta dispatched_date : option datetime) :
  let fl := status_flags today stage eta dispatched_date in
  (exists n, fl = mkFlags true false false (Some n)) \/
  fl = mkFlags false true false None \/
  fl = mkFlags false false true None \/
  fl = mkFlags false false false None.
Proof.
  unfold status_flags. destruct eta as [ed|]; [|auto].
  destruct (negb _); [|auto].
  destruct (_ <? 0); [eauto|]. destruct (_ <=? DUE_SOON_DAYS); auto.
Qed.

Section ClassifierFacts.

Context (float_of_str : string -> option float).
Context (included : pydict -> exc bool).

Lemma process_order_void (today : date) (order : pyvalue) :
  void_flag order = true -> process_order float_of_str included today order = Ok None.
Proof.
  destruct order as [| | | | | |d]; simpl; try discriminate.
  intros Hv. rewrite !truthy_py_or. simpl. rewrite orb_false_r, Hv. reflexivity.
Qed.

(** What a kept row records: its stage and dates are those of the raw
    record, and its flags are those of [status_flags] on them. *)
Lemma process_order_kept (today : date) (order : pyvalue) (row : order_row) :
  process_order float_of_str included today order = Ok (Some row) ->
  void_flag order = false /\
  exists d, order = PDict d /\ included d = Ok true /\
    Stage row = py_or (raw_field d "Stage") (PStr "") /\
    EstimatedDeliveryDate row = parse_date (raw_field d "EstimatedDeliveryDate") /\
    DispatchedDate row = parse_date (raw_field d "DispatchedDate") /\
    row_flags row
    = status_flags today (Stage row) (EstimatedDeliveryDate row) (DispatchedDate row).
Proof.
  destruct order as [| | | | | |d]; simpl; try discriminate.
  rewrite !truthy_py_or. simpl. rewrite orb_false_r.
  destruct (truthy (dict_get d "IsVoid") || truthy (dict_get d "isVoid")) eqn:Ev;
    [discriminate|].
  destruct (included d) as [keep|e] eqn:Ei; [destruct keep|]; simpl; try discriminate.
  rewrite !get_field_nonempty. simpl.
  match goal with |- context [if ?b then py_len ?x else Ok 0] =>
    destruct (if b then py_len x else Ok 0) as [line_count|] end;
    simpl; [|discriminate].
  match goal with |- context [py_iter ?x] =>
    destruct (py_iter x) as [items|] end; simpl; [|discriminate].
  destruct (sum_item_qty float_of_str PrimFloat.zero items) as [qty_total|]; simpl;
    [|discriminate].
  intros [= <-]. split; [reflexivity|]. exists d. unfold row_flags. simpl.
  split; [reflexivity|]. split; [exact Ei|]. repeat split; try reflexivity.
  match goal with |- _ = ?f => destruct f end. reflexivity.
Qed.

Lemma float_of_int_raises (z : Z) (e : pyexc) :
  float_of_int z = Raise e -> e = OverflowError.
Proof.
  unfold float_of_int.
  destruct (SpecFloat.binary_normalize FloatOps.prec FloatOps.emax z 0 false);
    try discriminate. intros [= <-]. reflexivity.
Qed.

Lemma add_item_qty_no_overflow (d : pydict) (total : float) :
  qty_overflows (PDict d) = false ->
  exists total', add_item_qty float_of_str total (PDict d) = Ok total'.
Proof.
  unfold qty_overflows, add_item_qty.
  destruct (item_qty d) as [|b|z|x|s|l|d0]; cbn [py_float]; intros H;
    try (eexists; reflexivity).
  - destruct (float_of_int z) as [x|e]; [eexists; reflexivity | discriminate H].
  - destruct (float_of_str s); eexists; reflexivity.
Qed.

Lemma add_item_qty_overflow (d : pydict) (total : float) :
  qty_overflows (PDict d) = true ->
  add_item_qty float_of_str total (PDict d) = Raise OverflowError.
Proof.
  unfold qty_overflows, add_item_qty.
  destruct (item_qty d) as [|b|z|x|s|l|d0]; cbn [py_float]; try discriminate.
  destruct (float_of_int z) as [x|e] eqn:E; [discriminate|].
  rewrite (float_of_int_raises z e E). reflexivity.
Qed.

(** The loop over line items that are all objects ends normally when no
    quantity overflows, and with [OverflowError] otherwise. *)
Lemma sum_item_qty_dicts (items : list pyvalue) (total : float) :
  forallb is_dict items = true ->
  if existsb qty_overflows items
  then sum_item_qty float_of_str total items = Raise OverflowError
  else exists total', sum_item_qty float_of_str total items = Ok total'.
Proof.
  revert total. induction items as [|item items IH]; intros total; [simpl; eauto|].
  cbn [forallb existsb sum_item_qty]. intros [Hd Hl]%andb_prop.
  destruct item as [|b|z|x|s|l|d]; try discriminate Hd.
  destruct (qty_overflows (PDict d)) eqn:Eo; cbn [orb].
  - rewrite (add_item_qty_overflow d total Eo). reflexivity.
  - destruct (add_item_qty_no_overflow d total Eo) as [total' ->]. cbn [mbind exc_bind].
    apply IH, Hl.
Qed.

(** The classifier returns a row for every record that is not void, is
    included, and whose line items can be walked without a quantity beyond
    the range of the doubles. *)
Lemma process_order_returns (today : date) (d : pydict) :
  void_flag (PDict d) = false -> included d = Ok true -> line_items_ok d = true ->
  if existsb qty_overflows (line_items_of d)
  then process_order float_of_str included today (PDict d) = Raise OverflowError
  else exists row, process_order float_of_str included today (PDict d) = Ok (Some row).
Proof.
  simpl. intros Hv Hi Hl. rewrite !truthy_py_or. simpl. rewrite orb_false_r, Hv, Hi.
  cbn [mbind exc_bind negb]. rewrite !get_field_nonempty.
  unfold line_items_ok, line_items_of, raw_field in *.
  change (camel_case "LineItems") with "lineItems" in *.
  change (String (ascii_lower "L") "ineItems") with "lineItems".
  set (li := py_or (dict_get d "LineItems") (dict_get d "lineItems")) in *.
  clearbody li.
  assert (Hcases : (truthy li = false /\ match li with PList l => l | _ => [] end = []) \/
                   (exists l, li = PList l /\ forallb is_dict l = true)).
  { destruct li as [|b|z|q|s|l|d0];
      try (left; split; [apply negb_true_iff; exact Hl | reflexivity]).
    right. exists l. split; [reflexivity | exact Hl]. }
  cbn [mbind exc_bind fmap exc_fmap].
  destruct Hcases as [[Hf ->] | (l & -> & Hall)].
  - rewrite (py_or_falsy li) by exact Hf. simpl. eauto.
  - destruct l as [|x l'].
    + simpl. eauto.
    + rewrite !(py_or_truthy (PList (x :: l'))) by reflexivity.
      simpl truthy. cbv iota. simpl py_len. simpl py_iter.
      pose proof (sum_item_qty_dicts (x :: l') PrimFloat.zero Hall) as Hsum.
      cbn [mbind exc_bind fmap exc_fmap].
      destruct (existsb qty_overflows (x :: l')).
      * rewrite Hsum. reflexivity.
      * destruct Hsum as [t ->]. simpl. eauto.
Qed.

End ClassifierFacts.

(** C1: a classified record carries the stage and dates of the raw record,
    and its flags follow the urgency state machine: with a parsed delivery
    date and no dispatch, [days_until_due = date(eta) - today] gives
    Overdue with [DaysOverdue = - days_until_due] when negative, DueSoon
    from 0 to 7, OnTrack above 7; without a delivery date, or when
    dispatched, no flag is set. *)
Theorem urgency_state_machine (float_of_str : string -> option float)
    (included : pydict -> exc bool) (today : date) (order : pydict) (row : order_row) :
  process_order float_of_str included today (PDict order) = Ok (Some row) ->
  let stage := py_or (raw_field order "Stage") (PStr "") in
  let eta := parse_date (raw_field order "EstimatedDeliveryDate") in
  let dispatched_date := parse_date (raw_field order "DispatchedDate") in
  Stage row = stage /\ EstimatedDeliveryDate row = eta /\
  DispatchedDate row = dispatched_date /\
  match eta with
  | Some ed =>
      if dispatched stage dispatched_date
      then row_flags row = mkFlags false false false None
      else
        let days_until_due := date_sub_days (date_of ed) today in
        (days_until_due < 0 ->
         row_flags row = mkFlags true false false (Some (- days_until_due))) /\
        (0 <= days_until_due <= 7 -> row_flags row = mkFlags false true false None) /\
        (7 < days_until_due -> row_flags row = mkFlags false false true None)
  | None => row_flags row = mkFlags false false false None
  end.
Proof.
  intros H. apply process_order_kept in H.
  destruct H as (_ & d & [= <-] & _ & Hs & He & Hd & Hf).
  cbv zeta. rewrite <- Hs, <- He, <- Hd, Hf.
  repeat split. apply status_flags_spec.
Qed.

Lemma urgency_state_machine_witness :
  let order : pydict :=
    <["DistributionBranchId" := PInt 6877]>
      (<["EstimatedDeliveryDate" := PStr "2024-01-02T00:00:00"]>
         (<["Stage" := PStr "New"]> ∅)) in
  exists row,
    process_order (fun _ => None) App.included (mkDate 2024 1 5) (PDict order)
    = Ok (Some row) /\
    row_flags row = mkFlags true false false (Some 3).
Proof.
  intros order.
  destruct (process_order (fun _ => None) App.included (mkDate 2024 1 5) (PDict order))
    as [[row|]|] eqn:E; try (vm_compute in E; discriminate E).
  exists row. split; [reflexivity|].
  pose proof (urgency_state_machine _ _ _ _ _ E) as (_ & _ & _ & H).
  vm_compute in H. destruct H as (H & _ & _). apply H. reflexivity.
Defined.

(** C8: a classified order has exactly one urgency value, and
    [DaysOverdue] is set exactly when that value is Overdue. *)
Theorem exactly_one_urgency (float_of_str : string -> option float)
    (included : pydict -> exc bool) (today : date) (order : pyvalue) (row : order_row) :
  process_order float_of_str included today order = Ok (Some row) ->
  (exists u, has_urgency u row = true /\
             forall u', has_urgency u' row = true -> u' = u) /\
  (DaysOverdue row <> None <-> has_urgency Overdue row = true).
Proof.
  intros H. apply process_order_kept in H.
  destruct H as (_ & d & _ & _ & _ & _ & _ & Hf).
  pose proof (status_flags_shape today (Stage row) (EstimatedDeliveryDate row)
                (DispatchedDate row)) as Hshape.
  cbv zeta in Hshape. rewrite <- Hf in Hshape. unfold row_flags in Hshape.
  unfold has_urgency, no_flag.
  destruct Hshape as [[n Hn] | [Hn | [Hn | Hn]]]; injection Hn as -> -> -> ->.
  - split; [exists Overdue; split; [reflexivity|]; intros []; simpl; congruence|].
    split; [reflexivity | discriminate].
  - split; [exists DueSoon; split; [reflexivity|]; intros []; simpl; congruence|].
    split; [congruence | discriminate].
  - split; [exists OnTrack; split; [reflexivity|]; intros []; simpl; congruence|].
    split; [congruence | discriminate].
  - split; [exists NoDate; split; [reflexivity|]; intros []; simpl; congruence|].
    split; [congruence | discriminate].
Qed.

Lemma exactly_one_urgency_witness :
  let order : pydict :=
    <["Stage" := PStr "Workshop - New"]>
      (<["estimatedDeliveryDate" := PStr "10/01/2024"]> ∅) in
  exists row,
    process_order (fun _ => None) Test.included (mkDate 2024 1 5) (PDict order)
    = Ok (Some row) /\
    has_urgency DueSoon row = true /\ DaysOverdue row = None.
Proof.
  intros order.
  destruct (process_order (fun _ => None) Test.included (mkDate 2024 1 5) (PDict order))
    as [[row|]|] eqn:E; try (vm_compute in E; discriminate E).
  exists row. split; [reflexivity|].
  pose proof (exactly_one_urgency _ _ _ _ _ E) as H.
  vm_compute in E. injection E as <-. split; reflexivity.
Defined.

(** The rows of the table are the rows of [processed], labelled by position. *)
Lemma DataFrame_of_elem (processed : list order_row) (i : nat) (row : order_row) :
  (i, row) ∈ DataFrame_of processed <-> processed !! i = Some row.
Proof.
  unfold DataFrame_of. rewrite elem_of_lookup_imap. split.
  - intros (j & x & [= -> ->] & Hx). exact Hx.
  - intros Hx. eauto.
Qed.

Lemma DataFrame_of_labels (processed : list order_row) :
  (DataFrame_of processed).*1 = seq 0 (length processed).
Proof.
  unfold DataFrame_of. rewrite fmap_imap.
  rewrite (imap_ext _ (fun i _ => i)) by reflexivity.
  rewrite imap_seq_0. apply list_fmap_id.
Qed.

Section ProcessOrdersFacts.

Context (float_of_str : string -> option float).
Context (included : pydict -> exc bool).
Context (today : date).

(** Every row of [processed] is the classification of a kept record. *)
Lemma process_orders_rows (orders : list pyvalue) (rows : list order_row) :
  process_orders float_of_str included today orders = Ok rows ->
  forall row, row ∈ rows ->
    exists order, order ∈ orders /\
      process_order float_of_str included today order = Ok (Some row).
Proof.
  revert rows. induction orders as [|order orders IH]; simpl; intros rows.
  - intros [= <-] row Hin. inversion Hin.
  - destruct (process_order float_of_str included today order) as [r|] eqn:Eo;
      simpl; [|discriminate].
    destruct (process_orders float_of_str included today orders) as [rest|];
      simpl; [|discriminate].
    intros [= <-] row Hin.
    assert (Hrest : row ∈ rest ->
              exists o, o ∈ order :: orders /\
                process_order float_of_str included today o = Ok (Some row)).
    { intros Hr. destruct (IH rest eq_refl row Hr) as (o & Ho & Hp).
      exists o. split; [right; exact Ho | exact Hp]. }
    destruct r as [row0|]; [|auto].
    apply elem_of_cons in Hin as [-> | Hin]; [|auto].
    exists order. split; [left | exact Eo].
Qed.

(** Void records can be dropped from the input without changing the result. *)
Lemma process_orders_drop_void (orders : list pyvalue) :
  process_orders float_of_str included today
    (List.filter (fun o => negb (void_flag o)) orders)
  = process_orders float_of_str included today orders.
Proof.
  induction orders as [|order orders IH]; simpl; [reflexivity|].
  destruct (void_flag order) eqn:Ev; simpl.
  - rewrite (process_order_void _ _ _ _ Ev). simpl. rewrite IH.
    destruct (process_orders float_of_str included today orders); reflexivity.
  - rewrite IH. reflexivity.
Qed.

End ProcessOrdersFacts.

(** C7: a record whose void flag is truthy is skipped whatever else it
    holds; it contributes no row to the classified table, and the table is
    the one obtained from the input without its void records. *)
Theorem void_orders_never_classified (float_of_str : string -> option float)
    (included : pydict -> exc bool) (today : date) (orders : list pyvalue) :
  (forall order, void_flag order = true ->
     process_order float_of_str included today order = Ok None) /\
  process_orders_dataframe_with float_of_str included today
    (List.filter (fun o => negb (void_flag o)) orders)
  = process_orders_dataframe_with float_of_str included today orders /\
  (forall df, process_orders_dataframe_with float_of_str included today orders = Ok df ->
     forall i row, (i, row) ∈ df ->
       exists order, order ∈ orders /\ void_flag order = false /\
         process_order float_of_str included today order = Ok (Some row)).
Proof.
  split; [intros order; apply process_order_void|].
  unfold process_orders_dataframe_with. split.
  - rewrite process_orders_drop_void. reflexivity.
  - intros df Hdf i row Hin.
    destruct (process_orders float_of_str included today orders) as [rows|] eqn:Er;
      simpl in Hdf; [|discriminate].
    injection Hdf as <-. apply DataFrame_of_elem in Hin.
    apply list_elem_of_lookup_2 in Hin.
    destruct (process_orders_rows _ _ _ _ _ Er row Hin) as (order & Ho & Hp).
    exists order. split; [exact Ho|]. split; [|exact Hp].
    apply process_order_kept in Hp. apply Hp.
Qed.

Lemma void_orders_never_classified_witness :
  let void_order : pydict :=
    <["isVoid" := PBool true]> (<["Stage" := PStr "Workshop - New"]> ∅) in
  let live_order : pydict := <["Stage" := PStr "Workshop - New"]> ∅ in
  process_order (fun _ => None) Test.included (mkDate 2024 1 5) (PDict void_order)
  = Ok None /\
  exists df,
    Test.process_orders_dataframe (fun _ => None) (mkDate 2024 1 5)
      [PDict void_order; PDict live_order] = Ok df /\
    forall i row, (i, row) ∈ df ->
      exists order, order ∈ [PDict void_order; PDict live_order] /\
        void_flag order = false /\
        process_order (fun _ => None) Test.included (mkDate 2024 1 5) order
        = Ok (Some row).
Proof.
  intros void_order live_order.
  pose proof (void_orders_never_classified (fun _ => None) Test.included
                (mkDate 2024 1 5) [PDict void_order; PDict live_order])
    as (H1 & _ & H3).
  split; [apply H1; reflexivity|].
  destruct (Test.process_orders_dataframe (fun _ => None) (mkDate 2024 1 5)
              [PDict void_order; PDict live_order]) as [df|] eqn:E;
    [|vm_compute in E; discriminate E].
  exists df. split; [reflexivity|]. apply H3. exact E.
Defined.

(** ** Board partitioners *)

Lemma in_group_elem (i : nat) (g : DataFrame) :
  in_group i g = true <-> i ∈ g.*1.
Proof.
  unfold in_group. rewrite existsb_exists, list_elem_of_In. split.
  - intros (j & Hj & ->%Nat.eqb_eq). exact Hj.
  - intros Hi. exists i. split; [exact Hi | apply Nat.eqb_refl].
Qed.

Lemma sort_values_perm (by_ : list (sort_key * bool)) (df : DataFrame) :
  sort_values by_ df ≡ₚ df.
Proof. apply merge_sort_Permutation. Qed.

Lemma df_filter_elem (mask : order_row -> bool) (df : DataFrame) (ir : nat * order_row) :
  ir ∈ df_filter mask df <-> ir ∈ df /\ mask (snd ir) = true.
Proof. unfold df_filter. rewrite !list_elem_of_In. apply filter_In. Qed.

Lemma df_filter_filter (p q : order_row -> bool) (df : DataFrame) :
  df_filter p (df_filter q df) = df_filter (fun r => q r && p r) df.
Proof.
  unfold df_filter. induction df as [|[i r] df IH]; simpl; [reflexivity|].
  destruct (q r); simpl; [destruct (p r)|]; rewrite IH; reflexivity.
Qed.

Lemma df_empty_false (df : DataFrame) (ir : nat * order_row) :
  ir ∈ df -> df_empty df = false.
Proof. destruct df; [inversion 1 | reflexivity]. Qed.

(** Distinct labels: a label determines its row. *)
Lemma label_unique (df : DataFrame) (i : nat) (r1 r2 : order_row) :
  NoDup df.*1 -> (i, r1) ∈ df -> (i, r2) ∈ df -> r1 = r2.
Proof.
  induction df as [|[j r] df IH]; simpl; intros Hnd H1 H2; [inversion H1|].
  apply NoDup_cons in Hnd as [Hj Hnd].
  apply elem_of_cons in H1 as [E1 | H1];
    apply elem_of_cons in H2 as [E2 | H2]; simplify_eq; auto.
  - exfalso. apply Hj. apply list_elem_of_fmap. exists (j, r2). auto.
  - exfalso. apply Hj. apply list_elem_of_fmap. exists (j, r1). auto.
Qed.

(** In a table with distinct labels, a label belongs to a filtered and
    sorted group exactly when its row passes the mask. *)
Lemma in_group_sorted_filter (by_ : list (sort_key * bool)) (mask : order_row -> bool)
    (df : DataFrame) (i : nat) (r : order_row) :
  NoDup df.*1 -> (i, r) ∈ df ->
  in_group i (sort_values by_ (df_filter mask df)) = mask r.
Proof.
  intros Hnd Hin. apply eq_true_iff_eq. rewrite in_group_elem.
  rewrite (sort_values_perm by_ (df_filter mask df)). rewrite list_elem_of_fmap.
  split.
  - intros ([j r'] & -> & [Hin' Hm]%df_filter_elem). simpl in *.
    assert (r' = r) as ->; [|exact Hm].
    eapply label_unique; eassumption.
  - intros Hm. exists (i, r). split; [reflexivity|].
    apply df_filter_elem. split; assumption.
Qed.

Lemma in_group_filter (mask : order_row -> bool)
    (df : DataFrame) (i : nat) (r : order_row) :
  NoDup df.*1 -> (i, r) ∈ df ->
  in_group i (df_filter mask df) = mask r.
Proof.
  intros Hnd Hin. apply eq_true_iff_eq. rewrite in_group_elem, list_elem_of_fmap.
  split.
  - intros ([j r'] & -> & [Hin' Hm]%df_filter_elem). simpl in *.
    assert (r' = r) as ->; [|exact Hm].
    eapply label_unique; eassumption.
  - intros Hm. exists (i, r). split; [reflexivity|].
    apply df_filter_elem. split; assumption.
Qed.

Lemma groups_of_app (i : nat) (b1 b2 : board) :
  groups_of i (b1 ++ b2)%list = (groups_of i b1 ++ groups_of i b2)%list.
Proof. unfold groups_of. rewrite List.filter_app, map_app. reflexivity. Qed.

Lemma groups_of_cons (i : nat) (title : string) (g : DataFrame) (b : board) :
  groups_of i ((title, g) :: b)
  = ((if in_group i g then [title] else []) ++ groups_of i b)%list.
Proof. unfold groups_of, in_group. simpl. destruct (existsb _ _); reflexivity. Qed.

(** An optional section ([return] when the group is empty) holds the label
    exactly when the mask holds. *)
Lemma groups_of_optional_section (title : string) (by_ : list (sort_key * bool))
    (mask : order_row -> bool) (df : DataFrame) (i : nat) (r : order_row) :
  NoDup df.*1 -> (i, r) ∈ df ->
  groups_of i (if df_empty (df_filter mask df) then []
               else [(title, sort_values by_ (df_filter mask df))])
  = if mask r then [title] else [].
Proof.
  intros Hnd Hin. destruct (mask r) eqn:Hm.
  - rewrite (df_empty_false _ (i, r)) by (apply df_filter_elem; split; assumption).
    rewrite groups_of_cons, (in_group_sorted_filter _ _ _ _ r), Hm by assumption.
    reflexivity.
  - destruct (df_empty _); [reflexivity|].
    rewrite groups_of_cons, (in_group_sorted_filter _ _ _ _ r), Hm by assumption.
    reflexivity.
Qed.

Lemma ui_bind_Ok {A B : Type} (shown : board) (a : A) (f : A -> ui B) :
  ((shown, Ok a) : ui A) ≫= f = ((shown ++ (f a).1)%list, (f a).2).
Proof. unfold mbind, ui_bind. destruct (f a). reflexivity. Qed.

(** A column is shown when all its cards can be built; otherwise nothing
    of it is shown and the script ends with [ValueError]. *)
Lemma App_render_board_column (dtypes : date_dtypes) (title : string) (jobs_df : DataFrame) :
  App.render_board_column dtypes title jobs_df
  = if existsb (fun ir => nat_card dtypes (snd ir)) jobs_df
    then ([], Raise ValueError)
    else ([(title, jobs_df)], Ok tt).
Proof.
  unfold App.render_board_column.
  assert (Hcards : App.render_cards dtypes jobs_df
                   = if existsb (fun ir => nat_card dtypes (snd ir)) jobs_df
                     then Raise ValueError else Ok tt).
  { induction jobs_df as [|[i r] jobs_df IH]; [reflexivity|].
    cbn [App.render_cards existsb snd]. unfold nat_card at 1.
    destruct (App.render_job_card dtypes r) as [[]|e] eqn:Er; cbn [mbind exc_bind orb].
    - exact IH.
    - unfold App.render_job_card, App.format_date in Er.
      destruct (EstimatedDeliveryDate r), (dtype_EstimatedDeliveryDate dtypes),
        (CreatedDate r), (dtype_CreatedDate dtypes);
        cbn [mbind exc_bind] in Er; try discriminate Er; injection Er as <-; reflexivity. }
  rewrite Hcards. destruct (existsb _ jobs_df); reflexivity.
Qed.

(** What [render_board] has shown is an initial part of the complete
    board, and all of it when the script did not raise. *)
Lemma App_render_board_shown (dtypes : date_dtypes) (df : DataFrame) :
  exists rest,
    ((App.render_board dtypes df).1 ++ rest)%list = App_complete_board df /\
    ((App.render_board dtypes df).2 = Ok tt -> rest = []).
Proof.
  unfold App.render_board, App_complete_board, App.render_currently_working_on.
  destruct (df_empty df); [exists []; split; reflexivity|]. cbv zeta.
  rewrite !App_render_board_column.
  change (ui_lift (App.render_cards dtypes ?g) ≫= (fun _ => st_markdown (?t, ?g)))
    with (App.render_board_column dtypes t g).
  rewrite ?App_render_board_column.
  destruct (df_empty (df_filter (fun r => py_eq_str (Stage r) "Processing") df));
    repeat match goal with
           | |- context [existsb ?p ?g] => destruct (existsb p g)
           end;
    cbn; eexists; (split; [reflexivity | intros H; try discriminate H; reflexivity]).
Qed.

(** The groups of a row on the complete board of [app.py]. *)
Lemma App_render_board_groups (df : DataFrame) (i : nat) (r : order_row) :
  NoDup df.*1 -> (i, r) ∈ df ->
  let processing := py_eq_str (Stage r) "Processing" in
  groups_of i (App_complete_board df)
  = ((if processing then ["Currently Working On"] else []) ++
     (if negb processing && IsOverdue r then ["Overdue"] else []) ++
     (if negb processing && IsDueSoon r then ["Due Soon (7d)"] else []) ++
     (if negb processing && IsOnTrack r then ["On Track"] else []) ++
     (if negb processing && no_flag r then ["No ETD"] else []))%list.
Proof.
  intros Hnd Hin. cbv zeta. unfold App_complete_board. cbv zeta.
  rewrite (df_empty_false df (i, r)) by exact Hin.
  rewrite groups_of_app, (groups_of_optional_section _ _ _ df i r) by assumption.
  rewrite !df_filter_filter, !groups_of_cons.
  rewrite !(in_group_sorted_filter _ _ df i r) by assumption.
  change (groups_of i []) with (@nil string).
  rewrite app_nil_r, ?andb_assoc. reflexivity.
Qed.

(** The groups of a row on the board of [test.py]. *)
Lemma Test_render_board_groups (df : DataFrame) (i : nat) (r : order_row) :
  NoDup df.*1 -> (i, r) ∈ df ->
  groups_of i (Test.render_board df)
  = ((if Test.is_processing r then ["Currently in Workshop"] else []) ++
     (if Test.is_to_collect r then ["To Collect"] else []) ++
     (if IsOverdue r then ["Overdue"] else []) ++
     (if no_flag r then ["Needs ETD"] else []) ++
     (if negb (Test.is_processing r) && negb (Test.is_to_collect r)
         && negb (IsOverdue r) && IsDueSoon r
      then ["Jobs in Queue"] else []))%list.
Proof.
  intros Hnd Hin.
  unfold Test.render_board, Test.render_currently_working_on, Test.render_to_collect,
    Test.render_overdue, Test.render_needs_etd, Test.queue_df.
  rewrite (df_empty_false df (i, r)) by exact Hin.
  rewrite !groups_of_app, !(groups_of_optional_section _ _ _ df i r) by assumption.
  rewrite !df_filter_filter, !groups_of_cons.
  rewrite !(in_group_sorted_filter _ _ df i r) by assumption.
  change (groups_of i []) with (@nil string).
  rewrite app_nil_r, ?andb_assoc. reflexivity.
Qed.

(** The groups of a row on the TV board of [test.py]. *)
Lemma Test_render_tv_board_groups (df : DataFrame) (i : nat) (r : order_row) :
  NoDup df.*1 -> (i, r) ∈ df ->
  groups_of i (Test.render_tv_board df)
  = ((if IsOverdue r then ["OVERDUE"] else []) ++
     (if Test.is_processing r then ["IN WORKSHOP"] else []) ++
     (if Test.is_to_collect r then ["TO COLLECT"] else []) ++
     (if negb (Test.is_processing r) && negb (Test.is_to_collect r)
         && negb (IsOverdue r) && IsDueSoon r
      then ["COMING UP"] else []))%list.
Proof.
  intros Hnd Hin. unfold Test.render_tv_board, Test.queue_df.
  rewrite (df_empty_false df (i, r)) by exact Hin. cbn [negb].
  rewrite !df_filter_filter, !groups_of_cons.
  rewrite !(in_group_sorted_filter _ _ df i r) by assumption.
  change (groups_of i []) with (@nil string).
  rewrite app_nil_r, ?andb_assoc. reflexivity.
Qed.

(** A classified table has distinct labels, and each of its rows carries
    one of the four flag combinations of the state machine. *)
Lemma classified_table (float_of_str : string -> option float)
    (included : pydict -> exc bool) (today : date) (orders : list pyvalue)
    (df : DataFrame) :
  process_orders_dataframe_with float_of_str included today orders = Ok df ->
  NoDup df.*1 /\
  forall i r, (i, r) ∈ df ->
    (IsOverdue r, IsDueSoon r, IsOnTrack r) = (true, false, false) \/
    (IsOverdue r, IsDueSoon r, IsOnTrack r) = (false, true, false) \/
    (IsOverdue r, IsDueSoon r, IsOnTrack r) = (false, false, true) \/
    (IsOverdue r, IsDueSoon r, IsOnTrack r) = (false, false, false).
Proof.
  unfold process_orders_dataframe_with. intros Hdf.
  destruct (process_orders float_of_str included today orders) as [rows|] eqn:Er;
    simpl in Hdf; [|discriminate].
  injection Hdf as <-. split.
  - rewrite DataFrame_of_labels. apply NoDup_seq.
  - intros i r Hin%DataFrame_of_elem%list_elem_of_lookup_2.
    destruct (process_orders_rows _ _ _ _ _ Er r Hin) as (order & _ & Hp).
    apply process_order_kept in Hp. destruct Hp as (_ & d & _ & _ & _ & _ & _ & Hf).
    pose proof (status_flags_shape today (Stage r) (EstimatedDeliveryDate r)
                  (DispatchedDate r)) as Hs.
    cbv zeta in Hs. rewrite <- Hf in Hs. unfold row_flags in Hs.
    destruct Hs as [[n Hn] | [Hn | [Hn | Hn]]]; injection Hn as -> -> -> _; auto.
Qed.

Lemma py_eq_str_true (v : pyvalue) (s : string) :
  py_eq_str v s = true -> v = PStr s.
Proof.
  destruct v; simpl; try discriminate. intros ->%String.eqb_eq. reflexivity.
Qed.

(** C2, as stated, fails on the board of [test.py]: an overdue order in
    the "Workshop - Processing" stage is shown both in "Currently in
    Workshop" and in "Overdue". *)
Lemma processing_order_in_two_groups :
  let order : pydict :=
    <["Stage" := PStr "Workshop - Processing"]>
      (<["EstimatedDeliveryDate" := PStr "2024-01-02"]> ∅) in
  exists df,
    Test.process_orders_dataframe (fun _ => None) (mkDate 2024 1 5) [PDict order] = Ok df /\
    groups_of 0 (Test.render_board df) = ["Currently in Workshop"; "Overdue"] /\
    groups_of 0 (Test.render_tv_board df) = ["OVERDUE"; "IN WORKSHOP"].
Proof.
  intros order. eexists. split; [vm_compute; reflexivity|].
  split; vm_compute; reflexivity.
Qed.

Lemma groups_of_prefix (i : nat) (shown rest : board) (titles : list string) :
  groups_of i (shown ++ rest)%list = titles ->
  exists more, (groups_of i shown ++ more)%list = titles.
Proof. rewrite groups_of_app. eauto. Qed.

(** C2 (amended): on the board of [app.py] every classified order is
    placed in at most one of the groups shown, and an order in the
    "Processing" stage in no group but the in-progress one, whether the
    rendering is completed or ended by a card that cannot be built; when
    it is completed every order is in exactly one group.  On the boards of
    [test.py] an order in a dedicated stage ("Workshop - Processing" or
    "Workshop - To Collect") is placed in its dedicated group, never in the
    other dedicated group nor in the queue, and also in the "Overdue" group
    when it is overdue and in the "Needs ETD" group when it has no urgency
    flag; an order in neither dedicated stage is placed in at most one
    group. *)
Theorem board_groups_of_classified_orders (float_of_str : string -> option float)
    (today : date) (orders : list pyvalue) :
  (forall df, App.process_orders_dataframe float_of_str today orders = Ok df ->
     forall dtypes i r, (i, r) ∈ df ->
       let shown := (App.render_board dtypes df).1 in
       (length (groups_of i shown) <= 1)%nat /\
       (py_eq_str (Stage r) "Processing" = true ->
        forall title, title ∈ groups_of i shown -> title = "Currently Working On") /\
       ((App.render_board dtypes df).2 = Ok tt -> exists title, groups_of i shown = [title]))
  /\
  (forall df, Test.process_orders_dataframe float_of_str today orders = Ok df ->
     forall i r, (i, r) ∈ df ->
       (Test.is_processing r = true ->
          groups_of i (Test.render_board df)
          = ("Currently in Workshop" ::
               (if IsOverdue r then ["Overdue"] else []) ++
               (if no_flag r then ["Needs ETD"] else []))%list /\
          groups_of i (Test.render_tv_board df)
          = ((if IsOverdue r then ["OVERDUE"] else []) ++ ["IN WORKSHOP"])%list) /\
       (Test.is_to_collect r = true ->
          groups_of i (Test.render_board df)
          = ("To Collect" ::
               (if IsOverdue r then ["Overdue"] else []) ++
               (if no_flag r then ["Needs ETD"] else []))%list /\
          groups_of i (Test.render_tv_board df)
          = ((if IsOverdue r then ["OVERDUE"] else []) ++ ["TO COLLECT"])%list) /\
       (Test.is_processing r = false -> Test.is_to_collect r = false ->
          (length (groups_of i (Test.render_board df)) <= 1)%nat /\
          (length (groups_of i (Test.render_tv_board df)) <= 1)%nat)).
Proof.
  split.
  - intros df Hdf dtypes i r Hin. cbv zeta.
    destruct (classified_table _ _ _ _ _ Hdf) as [Hnd Hflags].
    destruct (App_render_board_shown dtypes df) as (rest & Hshown & Hdone).
    pose proof (App_render_board_groups df i r Hnd Hin) as Hgroups. cbv zeta in Hgroups.
    rewrite <- Hshown in Hgroups.
    assert (Hone : exists title,
              groups_of i ((App.render_board dtypes df).1 ++ rest)%list = [title] /\
              (py_eq_str (Stage r) "Processing" = true -> title = "Currently Working On")).
    { rewrite Hgroups. unfold no_flag.
      destruct (py_eq_str (Stage r) "Processing"); simpl.
      - eexists; split; [reflexivity | reflexivity].
      - destruct (Hflags i r Hin) as [H | [H | [H | H]]]; injection H as -> -> ->;
          simpl; eexists; (split; [reflexivity | discriminate]). }
    destruct Hone as (title & Htitle & Hproc).
    destruct (groups_of_prefix i _ rest _ Htitle) as [more Hmore].
    split; [|split].
    + apply (f_equal length) in Hmore. rewrite length_app in Hmore. simpl in Hmore. lia.
    + intros Hp title' Hin'.
      assert (Hin'' : title' ∈ [title]) by (rewrite <- Hmore; apply elem_of_app; auto).
      apply list_elem_of_singleton in Hin''. rewrite Hin''. apply Hproc, Hp.
    + intros Hok. rewrite (Hdone Hok), app_nil_r in Htitle. eauto.
  - intros df Hdf i r Hin.
    destruct (classified_table _ _ _ _ _ Hdf) as [Hnd Hflags].
    rewrite (Test_render_board_groups df i r Hnd Hin).
    rewrite (Test_render_tv_board_groups df i r Hnd Hin).
    split; [|split].
    + intros Hp. assert (Hc : Test.is_to_collect r = false).
      { unfold Test.is_processing in Hp. apply py_eq_str_true in Hp.
        unfold Test.is_to_collect. rewrite Hp. reflexivity. }
      rewrite Hp, Hc. simpl. rewrite app_nil_r.
      split; [reflexivity|]. destruct (IsOverdue r); reflexivity.
    + intros Hc. assert (Hp : Test.is_processing r = false).
      { unfold Test.is_to_collect in Hc. apply py_eq_str_true in Hc.
        unfold Test.is_processing. rewrite Hc. reflexivity. }
      rewrite Hp, Hc. simpl. rewrite app_nil_r.
      split; [reflexivity|]. destruct (IsOverdue r); reflexivity.
    + intros -> ->. unfold no_flag.
      destruct (Hflags i r Hin) as [H | [H | [H | H]]]; injection H as -> -> ->;
        simpl; split; lia.
Qed.

Lemma board_groups_of_classified_orders_witness :
  let order : pydict :=
    <["DistributionBranchId" := PInt 6877]>
      (<["Stage" := PStr "Processing"]>
         (<["EstimatedDeliveryDate" := PStr "2024-01-02"]> ∅)) in
  let dtypes := mkDtypes Datetime64 ObjectDtype in
  exists df,
    App.process_orders_dataframe (fun _ => None) (mkDate 2024 1 5) [PDict order] = Ok df /\
    groups_of 0 (App.render_board dtypes df).1 = ["Currently Working On"].
Proof.
  intros order dtypes.
  pose proof (board_groups_of_classified_orders (fun _ => None) (mkDate 2024 1 5)
                [PDict order]) as [HA _].
  destruct (App.process_orders_dataframe (fun _ => None) (mkDate 2024 1 5) [PDict order])
    as [df|] eqn:E; [|vm_compute in E; discriminate E].
  exists df. split; [reflexivity|].
  assert (Hin : exists r, (0%nat, r) ∈ df /\ py_eq_str (Stage r) "Processing" = true /\
                          (App.render_board dtypes df).2 = Ok tt).
  { vm_compute in E. injection E as <-. eexists. split; [left|]. split; reflexivity. }
  destruct Hin as (r & Hin & Hst & Hok).
  destruct (HA df eq_refl dtypes 0%nat r Hin) as (_ & Hproc & Hdone).
  destruct (Hdone Hok) as [title Ht]. rewrite Ht. f_equal.
  apply (Hproc Hst). rewrite Ht. left.
Defined.

(** ** Paginated fetcher *)

Section FetcherFacts.

Context (net : Z -> Z -> net_outcome).

Lemma io_bind_done {A B : Type} (log : list event) (a : A) (f : A -> io B) :
  (log, Done a) ≫= f = ((log ++ (f a).1)%list, (f a).2).
Proof. unfold mbind, io_bind. destruct (f a). reflexivity. Qed.

Lemma io_bind_stopped {A B : Type} (log : list event) (f : A -> io B) :
  ((log, Stopped) : io A) ≫= f = (log, Stopped).
Proof. reflexivity. Qed.

Lemma request_json_first_try (page rows : Z) (text : string) (json : pyvalue) :
  net page 0 = Response 200 text json ->
  request_json net page rows false = ([EvGet page rows], Done json).
Proof. unfold request_json. simpl. intros ->. reflexivity. Qed.

Lemma response_orders_not_None (response : pyvalue) (orders : list pyvalue) :
  response_orders response = Some orders -> response <> PNone.
Proof. intros H ->. discriminate H. Qed.

(** One turn of the loop on a full page. *)
Lemma fetch_pages_full_page (fuel : nat) (page : Z) (all_orders : list pyvalue)
    (log : list event) (orders : list pyvalue) :
  full_page net page log orders -> page < 100 ->
  fetch_pages net (S fuel) page all_orders
  = ((log ++ (fetch_pages net fuel (page + 1) (all_orders ++ orders)).1)%list,
     (fetch_pages net fuel (page + 1) (all_orders ++ orders)).2).
Proof.
  intros (response & Hreq & Hresp & Hlen) Hpage. simpl. rewrite Hreq, io_bind_done.
  assert (Hne : orders <> []).
  { intros ->. unfold rows_per_page in Hlen. simpl in Hlen. lia. }
  destruct response; try discriminate Hresp; rewrite Hresp;
    rewrite bool_decide_false by exact Hne;
    (destruct (Z.ltb_spec (Z.of_nat (length orders)) rows_per_page); [lia|]);
    (destruct (Z.gtb_spec (page + 1) 100); [lia|]); reflexivity.
Qed.


(** The last turn of the loop: the request gave up ([None]). *)
Lemma fetch_pages_failed_page (fuel : nat) (page : Z) (all_orders : list pyvalue)
    (log : list event) :
  request_json net page rows_per_page false = (log, Done PNone) ->
  fetch_pages net (S fuel) page all_orders = (log, Done all_orders).
Proof. intros Hreq. simpl. rewrite Hreq, io_bind_done. simpl. rewrite app_nil_r. reflexivity. Qed.

(** The last turn of the loop: the request halted the script. *)
Lemma fetch_pages_stopped_page (fuel : nat) (page : Z) (all_orders : list pyvalue)
    (log : list event) :
  request_json net page rows_per_page false = (log, Stopped) ->
  fetch_pages net (S fuel) page all_orders = (log, Stopped).
Proof. intros Hreq. simpl. rewrite Hreq. reflexivity. Qed.

(** [n] full pages in a row, from [page] on. *)
Lemma fetch_pages_full_pages (logs : Z -> list event) (bodies : Z -> list pyvalue)
    (n : nat) :
  forall (fuel : nat) (page : Z) (all_orders : list pyvalue),
    page + Z.of_nat n <= 100 ->
    (forall p, page <= p < page + Z.of_nat n -> full_page net p (logs p) (bodies p)) ->
    fetch_pages net (n + fuel) page all_orders
    = ((concat (logs <$> seqZ page (Z.of_nat n)) ++
        (fetch_pages net fuel (page + Z.of_nat n)
           (all_orders ++ concat (bodies <$> seqZ page (Z.of_nat n)))).1)%list,
       (fetch_pages net fuel (page + Z.of_nat n)
          (all_orders ++ concat (bodies <$> seqZ page (Z.of_nat n)))).2).
Proof.
  induction n as [|n IH]; intros fuel page all_orders Hpage Hfull.
  - simpl. rewrite Z.add_0_r, app_nil_r. destruct (fetch_pages _ _ _ _); reflexivity.
  - change (S n + fuel)%nat with (S (n + fuel)).
    rewrite (fetch_pages_full_page _ page _ (logs page) (bodies page))
      by (try apply Hfull; lia).
    rewrite IH by (try (intros p Hp; apply Hfull); lia).
    rewrite (seqZ_cons page (Z.of_nat (S n))) by lia. rewrite !fmap_cons. simpl concat.
    replace (Z.pred (Z.of_nat (S n))) with (Z.of_nat n) by lia.
    replace (Z.succ page) with (page + 1) by lia.
    replace (page + 1 + Z.of_nat n) with (page + Z.of_nat (S n)) by lia.
    rewrite <- !app_assoc. reflexivity.
Qed.

(** The iteration bound of [fetch_pages] is never the reason it stops:
    any bound that covers the pages left up to the limit gives the same
    run. *)
Lemma fetch_pages_fuel (fuel : nat) :
  forall (fuel' : nat) (page : Z) (all_orders : list pyvalue),
    page <= 100 ->
    101 - page <= Z.of_nat fuel -> 101 - page <= Z.of_nat fuel' ->
    fetch_pages net fuel page all_orders = fetch_pages net fuel' page all_orders.
Proof.
  induction fuel as [|fuel IH]; intros fuel' page all_orders Hp Hf Hf'; [lia|].
  destruct fuel' as [|fuel']; [lia|]. simpl.
  destruct (request_json net page rows_per_page false) as [log [response|]];
    [|reflexivity].
  rewrite !io_bind_done.
  destruct response; try reflexivity;
    (destruct (response_orders _); [|reflexivity]);
    (destruct (bool_decide _); [reflexivity|]);
    (destruct (_ <? rows_per_page); [reflexivity|]);
    (destruct (Z.gtb_spec (page + 1) 100); [reflexivity|]);
    rewrite (IH fuel') by lia; reflexivity.
Qed.

End FetcherFacts.

Section RetryFacts.

Context (net : Z -> Z -> net_outcome).

(** After a retried attempt the loop goes on with the next attempt; the
    events in between are waits only. *)
Lemma request_attempts_retried (page rows : Z) (remaining : nat) (attempt : Z)
    (last_error : option api_error) :
  retried (net page attempt) = true ->
  exists (waits : list event) (last_error' : option api_error),
    requested_pages waits = [] /\
    (forall e, transient_error (net page attempt) = Some e -> last_error' = Some e) /\
    request_attempts net page rows false (S remaining) attempt last_error
    = ((EvGet page rows :: waits ++
        (request_attempts net page rows false remaining (attempt + 1) last_error').1)%list,
       (request_attempts net page rows false remaining (attempt + 1) last_error').2).
Proof.
  intros Hr. simpl.
  assert (Hwait : forall last_error',
    wait_before_retry attempt ≫=
      (fun _ => request_attempts net page rows false remaining (attempt + 1) last_error')
    = (((wait_before_retry attempt).1 ++
        (request_attempts net page rows false remaining (attempt + 1) last_error').1)%list,
       (request_attempts net page rows false remaining (attempt + 1) last_error').2)).
  { intros last_error'. unfold wait_before_retry.
    destruct (attempt <? API_MAX_RETRIES - 1); simpl;
      destruct (request_attempts net page rows false remaining (attempt + 1) last_error');
      reflexivity. }
  assert (Hnoget : requested_pages (wait_before_retry attempt).1 = []).
  { unfold wait_before_retry. destruct (attempt <? API_MAX_RETRIES - 1); reflexivity. }
  destruct (net page attempt) as [status_code text json| | |msg]; simpl in *.
  - destruct (status_code =? 200) eqn:E200;
      [rewrite bool_decide_false in Hr by (intros [? ?]; discriminate);
       rewrite orb_false_r in Hr; apply Z.eqb_eq in E200, Hr; lia|].
    destruct (status_code =? 401) eqn:E401;
      [rewrite bool_decide_false in Hr by (intros [? ?]; discriminate);
       rewrite orb_false_r in Hr; apply Z.eqb_eq in E401, Hr; lia|].
    destruct (status_code =? 403) eqn:E403;
      [rewrite bool_decide_false in Hr by (intros [? ?]; discriminate);
       rewrite orb_false_r in Hr; apply Z.eqb_eq in E403, Hr; lia|].
    destruct (status_code =? 429) eqn:E429; simpl.
    + exists [EvSleep (API_RETRY_DELAY * inject_Z (attempt + 1) * 2)%Q], last_error.
      split; [reflexivity|]. split; [discriminate|].
      destruct (request_attempts net page rows false remaining (attempt + 1) last_error).
      reflexivity.
    + exists (wait_before_retry attempt).1, (Some (HTTPError status_code (String.substring 0 500 text))).
      split; [exact Hnoget|]. split; [intros e [= <-]; reflexivity|].
      rewrite Hwait. reflexivity.
  - exists (wait_before_retry attempt).1, (Some TimedOut).
    split; [exact Hnoget|]. split; [intros e [= <-]; reflexivity|].
    rewrite Hwait. reflexivity.
  - exists (wait_before_retry attempt).1, (Some CouldNotConnect).
    split; [exact Hnoget|]. split; [intros e [= <-]; reflexivity|].
    rewrite Hwait. reflexivity.
  - exists (wait_before_retry attempt).1, (Some (RequestFailed msg)).
    split; [exact Hnoget|]. split; [intros e [= <-]; reflexivity|].
    rewrite Hwait. reflexivity.
Qed.

(** A transient failure records its error and waits before the next attempt. *)
Lemma request_attempts_transient (page rows : Z) (remaining : nat) (attempt : Z)
    (last_error : option api_error) (e : api_error) :
  transient_error (net page attempt) = Some e ->
  request_attempts net page rows false (S remaining) attempt last_error
  = ((EvGet page rows :: (wait_before_retry attempt).1 ++
      (request_attempts net page rows false remaining (attempt + 1) (Some e)).1)%list,
     (request_attempts net page rows false remaining (attempt + 1) (Some e)).2).
Proof.
  intros He. simpl.
  assert (Hwait : forall last_error',
    wait_before_retry attempt ≫=
      (fun _ => request_attempts net page rows false remaining (attempt + 1) last_error')
    = (((wait_before_retry attempt).1 ++
        (request_attempts net page rows false remaining (attempt + 1) last_error').1)%list,
       (request_attempts net page rows false remaining (attempt + 1) last_error').2)).
  { intros last_error'. unfold wait_before_retry.
    destruct (attempt <? API_MAX_RETRIES - 1); simpl;
      destruct (request_attempts net page rows false remaining (attempt + 1) last_error');
      reflexivity. }
  destruct (net page attempt) as [status_code text json| | |msg]; simpl in *.
  - destruct (status_code =? 200); [discriminate|].
    destruct (status_code =? 401); [discriminate|].
    destruct (status_code =? 403); [discriminate|].
    destruct (status_code =? 429); [discriminate|].
    simpl in He. injection He as <-. rewrite Hwait. reflexivity.
  - injection He as <-. rewrite Hwait. reflexivity.
  - injection He as <-. rewrite Hwait. reflexivity.
  - injection He as <-. rewrite Hwait. reflexivity.
Qed.

(** A 401 or 403 is reported and halts the script at once. *)
Lemma request_attempts_auth_failure (page rows : Z) (remaining : nat) (attempt : Z)
    (last_error : option api_error) (msg : st_message) :
  auth_failure (net page attempt) = Some msg ->
  request_attempts net page rows false (S remaining) attempt last_error
  = ([EvGet page rows; EvError msg], Stopped).
Proof.
  intros Ha. simpl.
  destruct (net page attempt) as [status_code text json| | |m]; try discriminate.
  simpl in Ha.
  destruct (Z.eqb_spec status_code 401) as [->|H401].
  - injection Ha as <-. reflexivity.
  - destruct (Z.eqb_spec status_code 403) as [->|H403]; [|discriminate].
    injection Ha as <-. reflexivity.
Qed.

(** Three transient failures: the request gives up, reports the last
    error and returns [None]. *)
Lemma request_json_exhausted (page rows : Z) (e0 e1 e2 : api_error) :
  transient_error (net page 0) = Some e0 ->
  transient_error (net page 1) = Some e1 ->
  transient_error (net page 2) = Some e2 ->
  request_json net page rows false
  = ([EvGet page rows; EvSleep (API_RETRY_DELAY * inject_Z 1)%Q;
      EvGet page rows; EvSleep (API_RETRY_DELAY * inject_Z 2)%Q;
      EvGet page rows; EvError (APIError API_MAX_RETRIES (Some e2))],
     Done PNone).
Proof.
  intros H0 H1 H2. unfold request_json.
  change (Z.to_nat API_MAX_RETRIES) with 3%nat.
  rewrite (request_attempts_transient _ _ _ 0 _ e0 H0).
  change (0 + 1) with 1.
  rewrite (request_attempts_transient _ _ _ 1 _ e1 H1).
  change (1 + 1) with 2.
  rewrite (request_attempts_transient _ _ _ 2 _ e2 H2).
  reflexivity.
Qed.

(** A 401 or 403 at attempt [a], after retried attempts only: the request
    halts having issued [a + 1] requests, the last one followed by the
    report alone. *)
Lemma request_attempts_auth_failure_after (page rows : Z) (msg : st_message) (a : nat) :
  forall (remaining : nat) (attempt : Z) (last_error : option api_error),
    (a < remaining)%nat ->
    (forall j, attempt <= j < attempt + Z.of_nat a -> retried (net page j) = true) ->
    auth_failure (net page (attempt + Z.of_nat a)) = Some msg ->
    exists log,
      request_attempts net page rows false remaining attempt last_error = (log, Stopped) /\
      requested_pages log = replicate (S a) page /\
      last log = Some (EvError msg).
Proof.
  induction a as [|a IH]; intros remaining attempt last_error Hlt Hretried Hauth.
  - destruct remaining as [|remaining]; [lia|].
    rewrite Z.add_0_r in Hauth.
    rewrite (request_attempts_auth_failure _ _ _ _ _ msg Hauth).
    eexists. split; [reflexivity|]. split; reflexivity.
  - destruct remaining as [|remaining]; [lia|].
    destruct (request_attempts_retried page rows remaining attempt last_error)
      as (waits & last_error' & Hw & _ & Heq); [apply Hretried; lia|].
    destruct (IH remaining (attempt + 1) last_error') as (log & Hlog & Hreq & Hlast).
    + lia.
    + intros j Hj. apply Hretried. lia.
    + replace (attempt + 1 + Z.of_nat a) with (attempt + Z.of_nat (S a)) by lia.
      exact Hauth.
    + rewrite Heq, Hlog. simpl. eexists. split; [reflexivity|]. split.
      * unfold requested_pages in *. simpl. rewrite omap_app, Hw, Hreq. reflexivity.
      * rewrite last_cons, last_app, Hlast. reflexivity.
Qed.

End RetryFacts.

Lemma full_page_first_try (net : Z -> Z -> net_outcome) (page : Z) (text : string)
    (orders : list pyvalue) :
  net page 0 = Response 200 text (PList orders) ->
  rows_per_page <= Z.of_nat (length orders) ->
  full_page net page [EvGet page rows_per_page] orders.
Proof.
  intros Hnet Hlen. exists (PList orders).
  split; [apply (request_json_first_try net page _ text), Hnet|].
  split; [reflexivity | exact Hlen].
Qed.

Lemma concat_singletons {A B : Type} (g : A -> B) (l : list A) :
  concat ((fun x => [g x]) <$> l) = g <$> l.
Proof.
  induction l as [|x l IH]; [reflexivity|].
  rewrite !fmap_cons. simpl. f_equal. exact IH.
Qed.

Lemma requested_pages_gets (rows : Z) (pages : list Z) :
  requested_pages ((fun p => EvGet p rows) <$> pages) = pages.
Proof.
  induction pages as [|p pages IH]; [reflexivity|].
  rewrite fmap_cons. unfold requested_pages in *. simpl. f_equal. exact IH.
Qed.

(** [n >= 1] full pages hold at least one record. *)
Lemma full_pages_nonempty (net : Z -> Z -> net_outcome) (n : nat)
    (logs : Z -> list event) (bodies : Z -> list pyvalue) :
  (1 <= n)%nat ->
  (forall p, 1 <= p <= Z.of_nat n -> full_page net p (logs p) (bodies p)) ->
  concat (bodies <$> seqZ 1 (Z.of_nat n)) <> [].
Proof.
  intros Hn Hfull. rewrite (seqZ_cons 1 (Z.of_nat n)) by lia. rewrite fmap_cons. simpl.
  destruct (Hfull 1) as (response & _ & _ & Hlen); [lia|].
  unfold rows_per_page in Hlen. destruct (bodies 1); [simpl in Hlen; lia | discriminate].
Qed.

(** The fetch loop over [n] full pages followed by a request that ends the
    loop with [outcome_]. *)
Lemma fetch_all_orders_after_full_pages (net : Z -> Z -> net_outcome) (n : nat)
    (logs : Z -> list event) (bodies : Z -> list pyvalue) :
  (n < 100)%nat ->
  (forall p, 1 <= p <= Z.of_nat n -> full_page net p (logs p) (bodies p)) ->
  fetch_all_orders net
  = ((concat (logs <$> seqZ 1 (Z.of_nat n)) ++
      (fetch_pages net (S (99 - n)) (Z.of_nat n + 1)
         (concat (bodies <$> seqZ 1 (Z.of_nat n)))).1)%list,
     (fetch_pages net (S (99 - n)) (Z.of_nat n + 1)
        (concat (bodies <$> seqZ 1 (Z.of_nat n)))).2).
Proof.
  intros Hn Hfull. unfold fetch_all_orders.
  replace 100%nat with (n + S (99 - n))%nat by lia.
  rewrite (fetch_pages_full_pages net logs bodies n)
    by (try (intros p Hp; apply Hfull); lia).
  replace (1 + Z.of_nat n) with (Z.of_nat n + 1) by lia. reflexivity.
Qed.

Lemma emit_bind {B : Type} (e : event) (m : io B) :
  (emit e ≫= fun _ => m) = (e :: m.1, m.2).
Proof. destruct m. reflexivity. Qed.

Lemma wait_bind {B : Type} (attempt : Z) (m : io B) :
  (wait_before_retry attempt ≫= fun _ => m) = (((wait_before_retry attempt).1 ++ m.1)%list, m.2).
Proof.
  unfold wait_before_retry. destruct (attempt <? API_MAX_RETRIES - 1); destruct m; reflexivity.
Qed.

Lemma wait_before_retry_silent (attempt : Z) :
  forallb silent (wait_before_retry attempt).1 = true /\
  requested_pages (wait_before_retry attempt).1 = [] /\
  (forall lo hi rows, forallb (get_for lo hi rows) (wait_before_retry attempt).1 = true).
Proof.
  unfold wait_before_retry. destruct (attempt <? API_MAX_RETRIES - 1); repeat split.
Qed.

Lemma requested_pages_app (l1 l2 : list event) :
  requested_pages (l1 ++ l2) = (requested_pages l1 ++ requested_pages l2)%list.
Proof. apply omap_app. Qed.


(** One call of [request_json] asks for its own page only, with the rows
    it was given, at most once per attempt. *)
Lemma request_attempts_gets (net : Z -> Z -> net_outcome) (page rows : Z) (suppress_error : bool) (remaining : nat) :
  forall (attempt : Z) (last_error : option api_error),
    forallb (get_for page page rows)
      (request_attempts net page rows suppress_error remaining attempt last_error).1 = true /\
    (length (requested_pages
       (request_attempts net page rows suppress_error remaining attempt last_error).1)
     <= remaining)%nat.
Proof.
  induction remaining as [|remaining IH]; intros attempt last_error.
  - destruct suppress_error; split; simpl; (reflexivity || lia).
  - assert (Hget : get_for page page rows (EvGet page rows) = true).
    { simpl. rewrite !Z.leb_refl, Z.eqb_refl. reflexivity. }
    assert (Hrec : forall (pre : list event) (last_error' : option api_error),
      forallb (get_for page page rows) pre = true -> requested_pages pre = [] ->
      forallb (get_for page page rows)
        (EvGet page rows :: pre ++
         (request_attempts net page rows suppress_error remaining (attempt + 1)
            last_error').1) = true /\
      (length (requested_pages
         (EvGet page rows :: pre ++
          (request_attempts net page rows suppress_error remaining (attempt + 1)
             last_error').1)) <= S remaining)%nat).
    { intros pre last_error' Hpre Hnone.
      destruct (IH (attempt + 1) last_error') as [Hall Hlen].
      change (EvGet page rows :: ?l) with ([EvGet page rows] ++ l)%list.
      rewrite !forallb_app, !requested_pages_app, Hpre, Hall, Hnone.
      split; [cbn [forallb]; rewrite Hget; reflexivity | simpl; lia]. }
    assert (Hfin : forall tail : list event,
      forallb (get_for page page rows) tail = true -> requested_pages tail = [] ->
      forallb (get_for page page rows) (EvGet page rows :: tail) = true /\
      (length (requested_pages (EvGet page rows :: tail)) <= S remaining)%nat).
    { intros tail Htail Hnone.
      change (EvGet page rows :: tail) with ([EvGet page rows] ++ tail)%list.
      rewrite requested_pages_app, Hnone. cbn [forallb app]. rewrite Hget, Htail.
      split; [reflexivity | simpl; lia]. }
    destruct (wait_before_retry_silent attempt) as (_ & Hwnone & Hwget).
    cbn [request_attempts]. rewrite emit_bind.
    destruct (net page attempt) as [status_code text json| | |msg].
    + destruct (status_code =? 200); [apply Hfin; reflexivity|].
      destruct (status_code =? 401); [apply Hfin; reflexivity|].
      destruct (status_code =? 403); [apply Hfin; reflexivity|].
      destruct (status_code =? 429).
      * rewrite emit_bind. cbn [fst snd].
        apply (Hrec [EvSleep _]); reflexivity.
      * rewrite wait_bind. cbn [fst snd]. apply Hrec; [apply Hwget | exact Hwnone].
    + rewrite wait_bind. cbn [fst snd]. apply Hrec; [apply Hwget | exact Hwnone].
    + rewrite wait_bind. cbn [fst snd]. apply Hrec; [apply Hwget | exact Hwnone].
    + rewrite wait_bind. cbn [fst snd]. apply Hrec; [apply Hwget | exact Hwnone].
Qed.

Lemma get_for_weaken (lo hi lo' hi' rows : Z) (log : list event) :
  lo' <= lo -> hi <= hi' ->
  forallb (get_for lo hi rows) log = true -> forallb (get_for lo' hi' rows) log = true.
Proof.
  intros Hlo Hhi. rewrite !forallb_forall. intros H e He. specialize (H e He).
  destruct e as [p r| | |]; try reflexivity. simpl in *.
  apply andb_true_iff in H as [H Hr]. apply andb_true_iff in H as [H1 H2].
  apply Z.leb_le in H1, H2. rewrite Hr, andb_true_r.
  apply andb_true_iff. split; apply Z.leb_le; lia.
Qed.








(** C5: when the request for a page fails three times with transient
    errors after [n >= 1] pages were fetched, the fetcher reports the last
    error, requests nothing more, and returns the records of the [n]
    earlier pages, which are not empty and go on to the classifier. *)
Theorem partial_results_after_exhausted_retries (net : Z -> Z -> net_outcome)
    (process_orders_dataframe : list pyvalue -> exc DataFrame) (n : nat)
    (logs : Z -> list event) (bodies : Z -> list pyvalue) (e0 e1 e2 : api_error) :
  (1 <= n < 100)%nat ->
  (forall p, 1 <= p <= Z.of_nat n -> full_page net p (logs p) (bodies p)) ->
  transient_error (net (Z.of_nat n + 1) 0) = Some e0 ->
  transient_error (net (Z.of_nat n + 1) 1) = Some e1 ->
  transient_error (net (Z.of_nat n + 1) 2) = Some e2 ->
  let accumulated := concat (bodies <$> seqZ 1 (Z.of_nat n)) in
  let log :=
    (concat (logs <$> seqZ 1 (Z.of_nat n)) ++
     [EvGet (Z.of_nat n + 1) 250; EvSleep (API_RETRY_DELAY * inject_Z 1)%Q;
      EvGet (Z.of_nat n + 1) 250; EvSleep (API_RETRY_DELAY * inject_Z 2)%Q;
      EvGet (Z.of_nat n + 1) 250; EvError (APIError 3 (Some e2))])%list in
  fetch_all_orders net = (log, Done accumulated) /\
  accumulated <> [] /\
  fetch_sales_orders net process_orders_dataframe
  = (log, Done (process_orders_dataframe accumulated)).
Proof.
  intros Hn Hfull H0 H1 H2 accumulated log.
  assert (Hne : accumulated <> [])
    by (apply (full_pages_nonempty net n logs); [lia | exact Hfull]).
  assert (Hrun : fetch_all_orders net = (log, Done accumulated)).
  { rewrite (fetch_all_orders_after_full_pages net n logs bodies) by (try exact Hfull; lia).
    rewrite (fetch_pages_failed_page net _ _ _ _
               (request_json_exhausted net _ _ e0 e1 e2 H0 H1 H2)).
    reflexivity. }
  split; [exact Hrun|]. split; [exact Hne|].
  unfold fetch_sales_orders. rewrite Hrun, io_bind_done.
  rewrite bool_decide_false by exact Hne. simpl. rewrite app_nil_r. reflexivity.
Qed.

(** C9: a 401 or 403 at any attempt, after attempts that were retried, is
    reported and halts the request at once, with no further request; the
    whole fetch is halted with it and returns nothing, whatever earlier
    pages had brought. *)
Theorem auth_failure_halts_fetch (net : Z -> Z -> net_outcome)
    (process_orders_dataframe : list pyvalue -> exc DataFrame) (n a : nat)
    (logs : Z -> list event) (bodies : Z -> list pyvalue) (msg : st_message) :
  (n < 100)%nat ->
  (forall p, 1 <= p <= Z.of_nat n -> full_page net p (logs p) (bodies p)) ->
  (a < 3)%nat ->
  (forall j, 0 <= j < Z.of_nat a -> retried (net (Z.of_nat n + 1) j) = true) ->
  auth_failure (net (Z.of_nat n + 1) (Z.of_nat a)) = Some msg ->
  exists log,
    request_json net (Z.of_nat n + 1) 250 false = (log, Stopped) /\
    requested_pages log = replicate (S a) (Z.of_nat n + 1) /\
    last log = Some (EvError msg) /\
    fetch_all_orders net
    = ((concat (logs <$> seqZ 1 (Z.of_nat n)) ++ log)%list, Stopped) /\
    fetch_sales_orders net process_orders_dataframe
    = ((concat (logs <$> seqZ 1 (Z.of_nat n)) ++ log)%list, Stopped).
Proof.
  intros Hn Hfull Ha Hretried Hauth.
  destruct (request_attempts_auth_failure_after net (Z.of_nat n + 1) 250 msg a
              (Z.to_nat API_MAX_RETRIES) 0 None)
    as (log & Hreq & Hpages & Hlast).
  { change (Z.to_nat API_MAX_RETRIES) with 3%nat. exact Ha. }
  { intros j Hj. apply Hretried. lia. }
  { exact Hauth. }
  exists log. split; [exact Hreq|]. split; [exact Hpages|]. split; [exact Hlast|].
  assert (Hrun : fetch_all_orders net
                 = ((concat (logs <$> seqZ 1 (Z.of_nat n)) ++ log)%list, Stopped)).
  { rewrite (fetch_all_orders_after_full_pages net n logs bodies) by (try exact Hfull; lia).
    rewrite (fetch_pages_stopped_page net _ _ _ log Hreq). reflexivity. }
  split; [exact Hrun|]. unfold fetch_sales_orders. rewrite Hrun. reflexivity.
Qed.

Lemma partial_results_after_exhausted_retries_witness :
  let net : Z -> Z -> net_outcome :=
    fun page _ =>
      if page =? 1 then Response 200 "" (PList (replicate 250 (PDict ∅)))
      else RaisesTimeout in
  fetch_all_orders net
  = ([EvGet 1 250;
      EvGet 2 250; EvSleep 1; EvGet 2 250; EvSleep 2; EvGet 2 250;
      EvError (APIError 3 (Some TimedOut))],
     Done (replicate 250 (PDict ∅))).
Proof.
  intros net.
  destruct (partial_results_after_exhausted_retries net (fun _ => Ok []) 1
              (fun p => [EvGet p 250]) (fun _ => replicate 250 (PDict ∅))
              TimedOut TimedOut TimedOut) as (Hrun & _ & _).
  - lia.
  - intros p Hp. assert (p = 1) as -> by lia.
    apply (full_page_first_try net 1 ""); [reflexivity|].
    rewrite length_replicate. unfold rows_per_page. lia.
  - reflexivity.
  - reflexivity.
  - reflexivity.
  - rewrite Hrun. reflexivity.
Defined.

Lemma auth_failure_halts_fetch_witness :
  let net : Z -> Z -> net_outcome :=
    fun page attempt =>
      if page =? 1 then Response 200 "" (PList (replicate 250 (PDict ∅)))
      else if attempt =? 0 then Response 429 "slow down" PNone
      else Response 401 "unauthorized" PNone in
  fetch_sales_orders net (fun _ => Ok [])
  = ([EvGet 1 250; EvGet 2 250; EvSleep 2; EvGet 2 250; EvError AuthenticationFailed],
     Stopped).
Proof.
  intros net.
  destruct (auth_failure_halts_fetch net (fun _ => Ok []) 1 1
              (fun p => [EvGet p 250]) (fun _ => replicate 250 (PDict ∅))
              AuthenticationFailed) as (log & Hreq & _ & _ & _ & Hrun).
  - lia.
  - intros p Hp. assert (p = 1) as -> by lia.
    apply (full_page_first_try net 1 ""); [reflexivity|].
    rewrite length_replicate. unfold rows_per_page. lia.
  - lia.
  - intros j Hj. assert (j = 0) as -> by lia. reflexivity.
  - reflexivity.
  - rewrite Hrun. vm_compute in Hreq. injection Hreq as <-. reflexivity.
Defined.

(** ** Date normaliser *)

Lemma append_cons (c : ascii) (s t : string) : String c s +:+ t = String c (s +:+ t).
Proof. reflexivity. Qed.

Lemma append_nil_r (s : string) : s +:+ "" = s.
Proof.
  induction s as [|c s IH]; [reflexivity|]. rewrite append_cons, IH. reflexivity.
Qed.

Lemma string_forall_app (P : ascii -> bool) (s1 s2 : string) :
  string_forall P (s1 +:+ s2) = string_forall P s1 && string_forall P s2.
Proof.
  induction s1 as [|c s1 IH]; [reflexivity|].
  rewrite append_cons. simpl. rewrite IH, andb_assoc. reflexivity.
Qed.

Lemma string_forall_impl (P Q : ascii -> bool) (s : string) :
  (forall c, P c = true -> Q c = true) ->
  string_forall P s = true -> string_forall Q s = true.
Proof.
  intros HPQ. induction s as [|c s IH]; simpl; [reflexivity|].
  intros [Hc Hs]%andb_prop. rewrite (HPQ c Hc), (IH Hs). reflexivity.
Qed.

(** Replacing a string whose first character does not occur changes nothing. *)
Lemma str_replace_absent (a : ascii) (old' new s : string) :
  string_forall (fun c => negb (Ascii.eqb a c)) s = true ->
  str_replace (String a old') new s = s.
Proof.
  unfold str_replace. induction s as [|c s IH]; simpl; [reflexivity|].
  intros [Hc Hs]%andb_prop. apply negb_true_iff in Hc. rewrite Hc. simpl.
  rewrite (IH Hs). reflexivity.
Qed.

Lemma digit_of_digit_char (d : Z) :
  0 <= d <= 9 -> digit_of (digit_char d) = Some d.
Proof.
  intros Hd.
  assert (d = 0 \/ d = 1 \/ d = 2 \/ d = 3 \/ d = 4 \/ d = 5 \/ d = 6 \/ d = 7
          \/ d = 8 \/ d = 9) as H by lia.
  repeat (destruct H as [-> | H]; [reflexivity|]). subst d. reflexivity.
Qed.

Lemma pow10_pos (w : nat) : 0 < 10 ^ Z.of_nat w.
Proof. apply Z.pow_pos_nonneg; lia. Qed.

(** The leading digit and the remainder of a number below [10^(w+1)]. *)
Lemma zpad_step_bounds (w : nat) (n : Z) :
  0 <= n < 10 ^ Z.of_nat (S w) ->
  0 <= n / 10 ^ Z.of_nat w <= 9 /\ 0 <= n mod 10 ^ Z.of_nat w < 10 ^ Z.of_nat w.
Proof.
  intros Hn. pose proof (pow10_pos w) as Hp.
  rewrite Nat2Z.inj_succ, Z.pow_succ_r in Hn by lia.
  split.
  - split; [apply Z.div_pos; lia|].
    assert (n / 10 ^ Z.of_nat w < 10); [|lia].
    apply Z.div_lt_upper_bound; lia.
  - apply Z.mod_pos_bound. exact Hp.
Qed.

Lemma zpad_length (w : nat) (n : Z) : String.length (zpad w n) = w.
Proof. revert n. induction w as [|w IH]; intros n; simpl; [|rewrite IH]; reflexivity. Qed.

Lemma zpad_digits (w : nat) (n : Z) :
  0 <= n < 10 ^ Z.of_nat w -> string_forall is_digit (zpad w n) = true.
Proof.
  revert n. induction w as [|w IH]; intros n Hn; [reflexivity|].
  destruct (zpad_step_bounds w n Hn) as [Hd Hr].
  cbn [zpad string_forall]. rewrite (IH _ Hr), andb_true_r.
  unfold is_digit. rewrite (digit_of_digit_char _ Hd). reflexivity.
Qed.

Lemma in_cls_any_digit (d : Z) :
  0 <= d <= 9 -> in_cls any_digit (digit_char d) = true.
Proof.
  intros Hd. unfold in_cls, any_digit. rewrite (digit_of_digit_char _ Hd).
  destruct (Z.leb_spec 0 d); [|lia]. destruct (Z.leb_spec d 9); [reflexivity|lia].
Qed.

Lemma match_pattern_zpad (w : nat) (n : Z) (rest : string) :
  0 <= n < 10 ^ Z.of_nat w ->
  match_pattern (repeat any_digit w) (zpad w n +:+ rest) = Some (zpad w n, rest).
Proof.
  revert n. induction w as [|w IH]; intros n Hn; [reflexivity|].
  destruct (zpad_step_bounds w n Hn) as [Hd Hr].
  cbn [zpad repeat]. rewrite append_cons. cbn [match_pattern].
  rewrite (in_cls_any_digit _ Hd), (IH _ Hr). reflexivity.
Qed.

Lemma int_of_digits_zpad (w : nat) (n acc : Z) :
  0 <= n < 10 ^ Z.of_nat w ->
  int_of_digits acc (zpad w n) = acc * 10 ^ Z.of_nat w + n.
Proof.
  revert n acc. induction w as [|w IH]; intros n acc Hn.
  - simpl in *. lia.
  - destruct (zpad_step_bounds w n Hn) as [Hd Hr].
    cbn [zpad int_of_digits]. rewrite (digit_of_digit_char _ Hd), (IH _ _ Hr).
    rewrite Nat2Z.inj_succ, Z.pow_succ_r by lia.
    pose proof (Z.div_mod n (10 ^ Z.of_nat w)) as Hdm.
    pose proof (pow10_pos w). nia.
Qed.

Lemma match_items_lit (c c' : ascii) (items : list fmt_item) (s : string)
    (acc : datetime) (r : datetime * string) :
  lit_matches c c' = true ->
  match_items items s acc = Some r ->
  match_items (Lit c :: items) (String c' s) acc = Some r.
Proof. intros Hc Hr. simpl. rewrite Hc. exact Hr. Qed.

(** [%Y] reads back a zero-padded four-digit year. *)
Lemma match_items_year (y : Z) (items : list fmt_item) (rest : string)
    (acc : datetime) (r : datetime * string) :
  0 <= y <= 9999 ->
  match_items items rest (set_field DirY y acc) = Some r ->
  match_items (Dir DirY :: items) (zpad 4 y +:+ rest) acc = Some r.
Proof.
  intros Hy Hr. cbn [match_items dir_patterns first_success].
  change [any_digit; any_digit; any_digit; any_digit] with (repeat any_digit 4).
  rewrite match_pattern_zpad by (change (10 ^ Z.of_nat 4) with 10000; lia).
  unfold dir_value. rewrite int_of_digits_zpad by (change (10 ^ Z.of_nat 4) with 10000; lia).
  rewrite Z.mul_0_l, Z.add_0_l, Hr. reflexivity.
Qed.

(** [%f] reads back six zero-padded digits of microseconds. *)
Lemma match_items_microsecond (us : Z) (items : list fmt_item) (rest : string)
    (acc : datetime) (r : datetime * string) :
  0 <= us <= 999999 ->
  match_items items rest (set_field Dirf us acc) = Some r ->
  match_items (Dir Dirf :: items) (zpad 6 us +:+ rest) acc = Some r.
Proof.
  intros Hus Hr. cbn [match_items dir_patterns first_success].
  rewrite match_pattern_zpad by (change (10 ^ Z.of_nat 6) with 1000000; lia).
  unfold dir_value. rewrite int_of_digits_zpad by (change (10 ^ Z.of_nat 6) with 1000000; lia).
  rewrite zpad_length. change (10 ^ (6 - Z.of_nat 6)) with 1.
  rewrite Z.mul_0_l, Z.add_0_l, Z.mul_1_r, Hr. reflexivity.
Qed.

(** On a zero-padded value of its range, the first alternative of a
    two-digit directive that matches takes both digits. *)
Lemma two_digit_first_alternative {B : Type} (d : directive) (v : Z)
    (k : Z -> string -> option B) (rest : string) (r : B) :
  two_digit_range d v ->
  k v rest = Some r ->
  first_success
    (fun pat =>
       match match_pattern pat (zpad 2 v +:+ rest) with
       | Some (txt, rest') => k (dir_value d txt) rest'
       | None => None
       end)
    (dir_patterns d) = Some r.
Proof.
  intros Hv Hr.
  assert (Hn : exists n : nat, v = Z.of_nat n /\ (n < 60)%nat).
  { exists (Z.to_nat v). destruct d; simpl in Hv; try contradiction; lia. }
  destruct Hn as (n & -> & Hn).
  destruct d; simpl in Hv; try contradiction;
    (do 60 (destruct n as [|n];
            [first [exfalso; lia
                   | vm_compute in Hr; vm_compute; rewrite Hr; reflexivity]|]));
    lia.
Qed.

Lemma match_items_two_digit (d : directive) (v : Z) (items : list fmt_item)
    (rest : string) (acc : datetime) (r : datetime * string) :
  two_digit_range d v ->
  match_items items rest (set_field d v acc) = Some r ->
  match_items (Dir d :: items) (zpad 2 v +:+ rest) acc = Some r.
Proof.
  intros Hv Hr.
  exact (two_digit_first_alternative d v
           (fun x s => match_items items s (set_field d x acc)) rest r Hv Hr).
Qed.

Lemma days_in_month_le_31 (y m : Z) : days_in_month y m <= 31.
Proof.
  unfold days_in_month.
  destruct (m =? 2); [destruct (is_leap y); lia|].
  destruct ((m =? 4) || (m =? 6) || (m =? 9) || (m =? 11)); lia.
Qed.

(** The field ranges of a valid [datetime]. *)
Lemma valid_datetime_ranges (dt : datetime) :
  valid_datetime dt = true ->
  1 <= year dt <= 9999 /\ 1 <= month dt <= 12 /\ 1 <= day dt <= 31 /\
  0 <= hour dt <= 23 /\ 0 <= minute dt <= 59 /\ 0 <= second dt <= 59 /\
  0 <= microsecond dt <= 999999.
Proof.
  unfold valid_datetime. rewrite !andb_true_iff, !Z.leb_le.
  pose proof (days_in_month_le_31 (year dt) (month dt)). lia.
Qed.

Lemma first_success_Some {A B : Type} (f : A -> option B) (l : list A) (b : B) :
  first_success f l = Some b -> exists a, a ∈ l /\ f a = Some b.
Proof.
  induction l as [|a l IH]; simpl; [discriminate|].
  destruct (f a) as [b'|] eqn:Ea.
  - intros [= <-]. exists a. split; [left | exact Ea].
  - intros H. destruct (IH H) as (a' & Hin & Ha'). exists a'. split; [right|]; assumption.
Qed.

Lemma strptime_valid (s fmt : string) (dt : datetime) :
  strptime s fmt = Some dt -> valid_datetime dt = true.
Proof.
  unfold strptime. destruct (compile_format fmt) as [items|]; [|discriminate].
  destruct (match_items items s strptime_default) as [[dt' [|c rest]]|]; try discriminate.
  destruct (valid_datetime dt') eqn:Ev; [|discriminate]. intros [= <-]. exact Ev.
Qed.

(** Whatever [parse_date] returns is a valid [datetime]. *)
Lemma parse_date_str_valid (s : string) (dt : datetime) :
  parse_date_str s = Some dt -> valid_datetime dt = true.
Proof.
  unfold parse_date_str. intros (fmt & _ & H)%first_success_Some.
  exact (strptime_valid _ _ _ H).
Qed.

(** [isoformat(sep)] prints digits, [-], [:], [.] and the separator only. *)
Lemma isoformat_sep_chars (sep : ascii) (dt : datetime) :
  valid_datetime dt = true ->
  string_forall (fun c => iso_char c || Ascii.eqb c sep) (isoformat_sep sep dt) = true.
Proof.
  intros (Hy & Hm & Hd & HH & HM & HS & Hus)%valid_datetime_ranges.
  assert (Hpad : forall w n, 0 <= n < 10 ^ Z.of_nat w ->
                   string_forall (fun c => iso_char c || Ascii.eqb c sep) (zpad w n) = true).
  { intros w n Hn. apply (string_forall_impl is_digit); [|apply zpad_digits, Hn].
    intros c Hc. unfold iso_char. rewrite Hc. reflexivity. }
  unfold isoformat_sep.
  rewrite !string_forall_app. cbn [string_forall].
  rewrite !string_forall_app.
  rewrite (Hpad 4%nat), !(Hpad 2%nat)
    by (change (10 ^ Z.of_nat 4) with 10000; change (10 ^ Z.of_nat 2) with 100; lia).
  rewrite Ascii.eqb_refl, orb_true_r.
  destruct (microsecond dt =? 0); [reflexivity|].
  rewrite string_forall_app, (Hpad 6%nat) by (change (10 ^ Z.of_nat 6) with 1000000; lia).
  reflexivity.
Qed.

(** The markers that [parse_date] strips occur in neither rendering. *)
Lemma isoformat_sep_no_markers (sep : ascii) (dt : datetime) :
  sep = "T"%char \/ sep = " "%char ->
  valid_datetime dt = true ->
  str_replace "Z" "" (str_replace "+00:00" "" (isoformat_sep sep dt)) = isoformat_sep sep dt.
Proof.
  intros Hsep Hv. pose proof (isoformat_sep_chars sep dt Hv) as Hc.
  assert (Hno : forall a, iso_char a || Ascii.eqb a sep = false ->
            string_forall (fun c => negb (Ascii.eqb a c)) (isoformat_sep sep dt) = true).
  { intros a Ha. apply (string_forall_impl (fun c => iso_char c || Ascii.eqb c sep));
      [|exact Hc].
    intros c Hcc. apply negb_true_iff. destruct (Ascii.eqb_spec a c) as [->|]; [|reflexivity].
    congruence. }
  rewrite (str_replace_absent "+" "00:00") by (apply Hno; destruct Hsep as [-> | ->]; reflexivity).
  rewrite (str_replace_absent "Z" "") by (apply Hno; destruct Hsep as [-> | ->]; reflexivity).
  reflexivity.
Qed.

(** Matching the format down to the seconds against the output of
    [isoformat] recovers the six fields, whatever follows. *)
Lemma match_items_seconds (dt : datetime) (items : list fmt_item) (rest : string)
    (r : datetime * string) :
  valid_datetime dt = true ->
  match_items items rest
    (mkDatetime (year dt) (month dt) (day dt) (hour dt) (minute dt) (second dt) 0)
  = Some r ->
  match_items (seconds_items ++ items)%list (isoformat_seconds dt rest) strptime_default
  = Some r.
Proof.
  intros (Hy & Hm & Hd & HH & HM & HS & Hus)%valid_datetime_ranges Hr.
  unfold seconds_items, isoformat_seconds. cbn [app].
  apply match_items_year; [lia|].
  apply match_items_lit; [reflexivity|].
  apply match_items_two_digit; [exact Hm|].
  apply match_items_lit; [reflexivity|].
  apply match_items_two_digit; [exact Hd|].
  apply match_items_lit; [reflexivity|].
  apply match_items_two_digit; [exact HH|].
  apply match_items_lit; [reflexivity|].
  apply match_items_two_digit; [exact HM|].
  apply match_items_lit; [reflexivity|].
  apply match_items_two_digit; [exact HS|].
  exact Hr.
Qed.

(** Re-parsing the ISO rendering of a valid timestamp gives it back. *)
Lemma parse_date_str_isoformat (dt : datetime) :
  valid_datetime dt = true -> parse_date_str (isoformat dt) = Some dt.
Proof.
  intros Hv. unfold parse_date_str, isoformat.
  rewrite (isoformat_sep_no_markers "T" dt) by auto. fold (isoformat dt).
  pose proof (valid_datetime_ranges dt Hv) as (_ & _ & _ & _ & _ & _ & Hus).
  unfold date_formats. cbn [first_success].
  change (str_replace "Z" "" "%Y-%m-%dT%H:%M:%S") with "%Y-%m-%dT%H:%M:%S".
  change (str_replace "Z" "" "%Y-%m-%dT%H:%M:%S.%f") with "%Y-%m-%dT%H:%M:%S.%f".
  unfold strptime at 1 2.
  change (compile_format "%Y-%m-%dT%H:%M:%S") with (Some (seconds_items ++ [])%list).
  change (compile_format "%Y-%m-%dT%H:%M:%S.%f")
    with (Some (seconds_items ++ [Lit "."; Dir Dirf])%list).
  destruct (Z.eqb_spec (microsecond dt) 0) as [Hz | Hnz].
  - assert (Hiso : isoformat dt = isoformat_seconds dt "").
    { unfold isoformat, isoformat_sep, isoformat_seconds.
      rewrite Hz. reflexivity. }
    rewrite Hiso.
    rewrite (match_items_seconds dt [] "" (dt, "") Hv).
    + rewrite Hv. reflexivity.
    + simpl. destruct dt; simpl in *; subst; reflexivity.
  - assert (Hiso : isoformat dt
                   = isoformat_seconds dt (String "." (zpad 6 (microsecond dt) +:+ ""))).
    { unfold isoformat, isoformat_sep, isoformat_seconds.
      destruct (Z.eqb_spec (microsecond dt) 0); [contradiction|].
      rewrite append_nil_r. reflexivity. }
    rewrite Hiso.
    rewrite (match_items_seconds dt [] _ (_, _) Hv eq_refl).
    rewrite (match_items_seconds dt [Lit "."; Dir Dirf] _ (dt, "") Hv).
    + rewrite Hv. reflexivity.
    + apply match_items_lit; [reflexivity|].
      apply match_items_microsecond; [lia|].
      simpl. destruct dt; reflexivity.
Qed.

(** ** The space-separated rendering is never parsed back *)

(** The separators of the date formats do not match a digit. *)
Lemma lit_not_digit (c : ascii) (d : Z) :
  c = "/"%char \/ c = "T"%char \/ c = "-"%char -> 0 <= d <= 9 ->
  lit_matches c (digit_char d) = false.
Proof.
  intros Hc Hd.
  assert (d = 0 \/ d = 1 \/ d = 2 \/ d = 3 \/ d = 4 \/ d = 5 \/ d = 6 \/ d = 7
          \/ d = 8 \/ d = 9) as H by lia.
  destruct Hc as [-> | [-> | ->]];
    repeat (destruct H as [-> | H]; [reflexivity|]); subst d; reflexivity.
Qed.

Lemma match_items_lit_eq (c : ascii) (items : list fmt_item) (s : string)
    (acc : datetime) (r : option (datetime * string)) :
  match_items items s acc = r ->
  match_items (Lit c :: items) (String c s) acc = r.
Proof.
  intros <-. simpl. unfold lit_matches. rewrite Ascii.eqb_refl. reflexivity.
Qed.

(** [%Y] has one alternative: on a zero-padded year the match goes on, or
    fails, with what follows. *)
Lemma match_items_year_eq (y : Z) (items : list fmt_item) (rest : string)
    (acc : datetime) :
  0 <= y <= 9999 ->
  match_items (Dir DirY :: items) (zpad 4 y +:+ rest) acc
  = match_items items rest (set_field DirY y acc).
Proof.
  intros Hy. cbn [match_items dir_patterns first_success].
  change [any_digit; any_digit; any_digit; any_digit] with (repeat any_digit 4).
  rewrite match_pattern_zpad by (change (10 ^ Z.of_nat 4) with 10000; lia).
  unfold dir_value. rewrite int_of_digits_zpad by (change (10 ^ Z.of_nat 4) with 10000; lia).
  rewrite Z.mul_0_l, Z.add_0_l.
  destruct (match_items items rest (set_field DirY y acc)); reflexivity.
Qed.

(** A two-digit directive in front of two digits: when the continuation
    fails both after the two digits and after the first one alone, every
    alternative fails. *)
Lemma two_digit_all_fail {B : Type} (d : directive) (a b : Z)
    (k : Z -> string -> option B) (rest : string) :
  d <> DirY -> d <> Dirf ->
  0 <= a <= 9 -> 0 <= b <= 9 ->
  (forall v, k v rest = None) ->
  (forall v, k v (String (digit_char b) rest) = None) ->
  first_success
    (fun pat =>
       match match_pattern pat (String (digit_char a) (String (digit_char b) rest)) with
       | Some (txt, rest') => k (dir_value d txt) rest'
       | None => None
       end)
    (dir_patterns d) = None.
Proof.
  intros HY Hf Ha Hb H2 H1.
  assert (Hna : exists n : nat, a = Z.of_nat n /\ (n < 10)%nat)
    by (exists (Z.to_nat a); lia).
  assert (Hnb : exists n : nat, b = Z.of_nat n /\ (n < 10)%nat)
    by (exists (Z.to_nat b); lia).
  destruct Hna as (na & -> & Hna). destruct Hnb as (nb & -> & Hnb).
  destruct d; try contradiction;
    (do 10 (destruct na as [|na];
      [do 10 (destruct nb as [|nb];
         [vm_compute in H1; vm_compute; rewrite ?H2, ?H1; reflexivity|]); lia|]));
    lia.
Qed.

Lemma zpad2_digits (v : Z) :
  0 <= v <= 99 ->
  exists a b, 0 <= a <= 9 /\ 0 <= b <= 9 /\
    zpad 2 v = String (digit_char a) (String (digit_char b) "").
Proof.
  intros Hv.
  destruct (zpad_step_bounds 1 v) as [Ha Hr]; [change (10 ^ Z.of_nat 2) with 100; lia|].
  destruct (zpad_step_bounds 0 (v mod 10 ^ Z.of_nat 1) Hr) as [Hb _].
  eexists _, _. split; [exact Ha|]. split; [exact Hb|]. reflexivity.
Qed.

Lemma zpad4_digits (y : Z) :
  0 <= y <= 9999 ->
  exists a b c s, 0 <= a <= 9 /\ 0 <= b <= 9 /\ 0 <= c <= 9 /\
    zpad 4 y = String (digit_char a) (String (digit_char b) (String (digit_char c) s)).
Proof.
  intros Hy.
  destruct (zpad_step_bounds 3 y) as [Ha Hr3]; [change (10 ^ Z.of_nat 4) with 10000; lia|].
  destruct (zpad_step_bounds 2 _ Hr3) as [Hb Hr2].
  destruct (zpad_step_bounds 1 _ Hr2) as [Hc _].
  exists (y / 10 ^ Z.of_nat 3), (y mod 10 ^ Z.of_nat 3 / 10 ^ Z.of_nat 2),
    ((y mod 10 ^ Z.of_nat 3) mod 10 ^ Z.of_nat 2 / 10 ^ Z.of_nat 1),
    (zpad 1 (((y mod 10 ^ Z.of_nat 3) mod 10 ^ Z.of_nat 2) mod 10 ^ Z.of_nat 1)).
  split; [exact Ha|]. split; [exact Hb|]. split; [exact Hc|].
  reflexivity.
Qed.

Lemma append_nil_l (s : string) : "" +:+ s = s.
Proof. reflexivity. Qed.

(** The same on [match_items]. *)
Lemma match_items_two_digit_fail (d : directive) (a b : Z) (items : list fmt_item)
    (rest : string) (acc : datetime) :
  d <> DirY -> d <> Dirf -> 0 <= a <= 9 -> 0 <= b <= 9 ->
  (forall x, match_items items rest (set_field d x acc) = None) ->
  (forall x, match_items items (String (digit_char b) rest) (set_field d x acc) = None) ->
  match_items (Dir d :: items) (String (digit_char a) (String (digit_char b) rest)) acc
  = None.
Proof.
  intros HY Hf Ha Hb H2 H1.
  exact (two_digit_all_fail d a b
           (fun x s => match_items items s (set_field d x acc)) rest HY Hf Ha Hb H2 H1).
Qed.

Lemma match_items_lit_fail (c c' : ascii) (items : list fmt_item) (s : string)
    (acc : datetime) :
  lit_matches c c' = false -> match_items (Lit c :: items) (String c' s) acc = None.
Proof. intros H. cbn [match_items]. rewrite H. reflexivity. Qed.

(** A two-digit directive followed by a separator fails on two digits that
    are followed by a character the separator does not match. *)
Lemma match_items_two_digit_then_lit_fails (d : directive) (c c' : ascii) (v : Z)
    (items : list fmt_item) (s : string) (acc : datetime) :
  d <> DirY -> d <> Dirf ->
  c = "/"%char \/ c = "T"%char \/ c = "-"%char ->
  0 <= v <= 99 -> lit_matches c c' = false ->
  match_items (Dir d :: Lit c :: items) (zpad 2 v +:+ String c' s) acc = None.
Proof.
  intros HY Hf Hc Hv Hcc.
  destruct (zpad2_digits v Hv) as (a & b & Ha & Hb & ->).
  rewrite !append_cons, append_nil_l.
  apply match_items_two_digit_fail; try assumption; intros x.
  - apply match_items_lit_fail, Hcc.
  - apply match_items_lit_fail, lit_not_digit; assumption.
Qed.

(** Month, day and the [T] of the format against a date followed by a space. *)
Lemma match_items_date_space_fails (m d : Z) (items : list fmt_item) (s : string)
    (acc : datetime) :
  0 <= m <= 99 -> 0 <= d <= 99 ->
  match_items (Dir Dirm :: Lit "-" :: Dir Dird :: Lit "T" :: items)
    (zpad 2 m +:+ String "-" (zpad 2 d +:+ String " " s)) acc = None.
Proof.
  intros Hm Hd.
  destruct (zpad2_digits m Hm) as (a & b & Ha & Hb & ->).
  rewrite !append_cons, append_nil_l.
  apply match_items_two_digit_fail; try assumption; try discriminate; intros x.
  - apply match_items_lit_eq.
    apply match_items_two_digit_then_lit_fails; auto; discriminate.
  - apply match_items_lit_fail, lit_not_digit; auto.
Qed.

(** A day-first or month-first format fails on a string that starts with a
    four-digit year. *)
Lemma match_items_slash_fails (d : directive) (y : Z) (items : list fmt_item)
    (s : string) (acc : datetime) :
  d <> DirY -> d <> Dirf -> 0 <= y <= 9999 ->
  match_items (Dir d :: Lit "/" :: items) (zpad 4 y +:+ s) acc = None.
Proof.
  intros HY Hf Hy.
  destruct (zpad4_digits y Hy) as (a & b & c & s' & Ha & Hb & Hc & ->).
  rewrite !append_cons.
  apply match_items_two_digit_fail; try assumption; intros x.
  - apply match_items_lit_fail, lit_not_digit; auto.
  - apply match_items_lit_fail, lit_not_digit; auto.
Qed.

Section SpaceSeparated.

Context (dt : datetime) (Hvalid : valid_datetime dt = true).

Lemma datetime_str_shape :
  datetime_str dt
  = zpad 4 (year dt)
    +:+ String "-"
          (zpad 2 (month dt)
           +:+ String "-" (zpad 2 (day dt) +:+ String " " (isoformat_time dt))).
Proof. reflexivity. Qed.

(** The formats with a [T] fail at the space. *)
Lemma match_items_T_formats_fail (items : list fmt_item) :
  match_items (seconds_items ++ items)%list (datetime_str dt) strptime_default = None.
Proof.
  destruct (valid_datetime_ranges dt Hvalid) as (Hy & Hm & Hd & _).
  rewrite datetime_str_shape. unfold seconds_items. cbn [app].
  rewrite match_items_year_eq by lia.
  apply match_items_lit_eq, match_items_date_space_fails; lia.
Qed.

(** The plain-date format matches the date and leaves the time unread. *)
Lemma match_items_date_format_stops :
  exists acc,
    match_items [Dir DirY; Lit "-"; Dir Dirm; Lit "-"; Dir Dird] (datetime_str dt)
      strptime_default
    = Some (acc, String " " (isoformat_time dt)).
Proof.
  destruct (valid_datetime_ranges dt Hvalid) as (Hy & Hm & Hd & _).
  rewrite datetime_str_shape. eexists.
  apply match_items_year; [lia|].
  apply match_items_lit; [reflexivity|].
  apply match_items_two_digit; [exact Hm|].
  apply match_items_lit; [reflexivity|].
  apply match_items_two_digit; [exact Hd|].
  reflexivity.
Qed.

(** The day-first and month-first formats fail on the year. *)
Lemma match_items_slash_formats_fail (d : directive) (items : list fmt_item) :
  d <> DirY -> d <> Dirf ->
  match_items (Dir d :: Lit "/" :: items) (datetime_str dt) strptime_default = None.
Proof.
  intros HY Hf. destruct (valid_datetime_ranges dt Hvalid) as (Hy & _).
  rewrite datetime_str_shape. apply match_items_slash_fails; [assumption .. | lia].
Qed.

(** No supported format parses the space-separated rendering. *)
Lemma parse_date_str_datetime_str : parse_date_str (datetime_str dt) = None.
Proof.
  unfold parse_date_str.
  unfold datetime_str at 1.
  rewrite (isoformat_sep_no_markers " " dt) by auto.
  fold (datetime_str dt).
  unfold date_formats. cbn [first_success].
  change (str_replace "Z" "" "%Y-%m-%dT%H:%M:%S") with "%Y-%m-%dT%H:%M:%S".
  change (str_replace "Z" "" "%Y-%m-%dT%H:%M:%S.%f") with "%Y-%m-%dT%H:%M:%S.%f".
  change (str_replace "Z" "" "%Y-%m-%dT%H:%M:%SZ") with "%Y-%m-%dT%H:%M:%S".
  change (str_replace "Z" "" "%Y-%m-%dT%H:%M:%S.%fZ") with "%Y-%m-%dT%H:%M:%S.%f".
  change (str_replace "Z" "" "%Y-%m-%d") with "%Y-%m-%d".
  change (str_replace "Z" "" "%d/%m/%Y") with "%d/%m/%Y".
  change (str_replace "Z" "" "%m/%d/%Y") with "%m/%d/%Y".
  unfold strptime.
  change (compile_format "%Y-%m-%dT%H:%M:%S") with (Some (seconds_items ++ [])%list).
  change (compile_format "%Y-%m-%dT%H:%M:%S.%f")
    with (Some (seconds_items ++ [Lit "."; Dir Dirf])%list).
  change (compile_format "%Y-%m-%d")
    with (Some [Dir DirY; Lit "-"; Dir Dirm; Lit "-"; Dir Dird]).
  change (compile_format "%d/%m/%Y")
    with (Some [Dir Dird; Lit "/"; Dir Dirm; Lit "/"; Dir DirY]).
  change (compile_format "%m/%d/%Y")
    with (Some [Dir Dirm; Lit "/"; Dir Dird; Lit "/"; Dir DirY]).
  cbv beta iota.
  rewrite !match_items_T_formats_fail.
  destruct match_items_date_format_stops as [acc ->].
  rewrite !match_items_slash_formats_fail by discriminate.
  reflexivity.
Qed.

End SpaceSeparated.

(** C6, as stated, fails: the string representation of a parsed timestamp
    separates date and time with a space, which no supported format
    accepts. *)
Lemma str_rendering_not_reparsed :
  let dt := mkDatetime 2024 1 2 3 4 5 0 in
  parse_date (PStr "2024-01-02T03:04:05") = Some dt /\
  datetime_str dt = "2024-01-02 03:04:05" /\
  parse_date (PStr (datetime_str dt)) = None.
Proof. vm_compute. repeat split; reflexivity. Qed.

(** C6 (amended): for every string that one of the supported formats
    parses, re-parsing the ISO 8601 rendering ([isoformat], with the [T]
    separator) of the parsed timestamp yields the same timestamp, and so
    does passing the timestamp object itself back to the parser; the
    string representation [str], with a space for separator, is parsed by
    no format. *)
Theorem parse_date_isoformat_roundtrip (s : string) (dt : datetime) :
  parse_date (PStr s) = Some dt ->
  parse_date (PStr (isoformat dt)) = Some dt /\
  parse_date_obj dt = Some dt /\
  parse_date (PStr (datetime_str dt)) = None.
Proof.
  simpl. intros H. pose proof (parse_date_str_valid s dt H) as Hv.
  split; [apply parse_date_str_isoformat, Hv|].
  split; [reflexivity|]. apply parse_date_str_datetime_str, Hv.
Qed.

Lemma parse_date_isoformat_roundtrip_witness :
  let dt := mkDatetime 2024 4 3 0 0 0 0 in
  parse_date (PStr "03/04/2024") = Some dt /\
  isoformat dt = "2024-04-03T00:00:00" /\
  parse_date (PStr "2024-04-03T00:00:00") = Some dt.
Proof.
  intros dt.
  assert (H : parse_date (PStr "03/04/2024") = Some dt) by (vm_compute; reflexivity).
  split; [exact H|]. split; [reflexivity|].
  exact (proj1 (parse_date_isoformat_roundtrip "03/04/2024" dt H)).
Defined.

(* ===================================================================== *)
(** ** The fetcher: limits, retries and response shapes *)
(* ===================================================================== *)

Section FetchLimits.

Context (net : Z -> Z -> net_outcome).

(** The loop from [page] on asks for pages between [page] and 100 only,
    250 rows each, with at most three requests for each of them. *)
Lemma fetch_pages_gets (fuel : nat) :
  forall (page : Z) (all_orders : list pyvalue),
    page <= 100 ->
    forallb (get_for page 100 rows_per_page) (fetch_pages net fuel page all_orders).1 = true /\
    Z.of_nat (length (requested_pages (fetch_pages net fuel page all_orders).1))
    <= 3 * (101 - page).
Proof.
  induction fuel as [|fuel IH]; intros page all_orders Hpage.
  - split; simpl; [reflexivity | lia].
  - destruct (request_attempts_gets net page rows_per_page false 3 0 None) as [Hall Hlen].
    change (request_attempts net page rows_per_page false 3 0 None)
      with (request_json net page rows_per_page false) in Hall, Hlen.
    apply (get_for_weaken page page page 100) in Hall; [|lia..].
    assert (Hend : forall (log : list event) (r : outcome (list pyvalue)),
      (request_json net page rows_per_page false).1 = log ->
      forallb (get_for page 100 rows_per_page) ((log ++ [])%list, r).1 = true /\
      Z.of_nat (length (requested_pages ((log ++ [])%list, r).1)) <= 3 * (101 - page)).
    { intros log r <-. cbn [fst]. rewrite app_nil_r. split; [exact Hall | lia]. }
    cbn [fetch_pages].
    destruct (request_json net page rows_per_page false) as [log [response|]];
      [|rewrite io_bind_stopped; cbn [fst] in *; split; [exact Hall | lia]].
    rewrite io_bind_done. cbn [fst] in Hall, Hlen.
    destruct response; try (apply Hend; reflexivity);
      (destruct (response_orders _) as [orders|]; [|apply Hend; reflexivity]);
      (destruct (bool_decide _); [apply Hend; reflexivity|]);
      (destruct (_ <? rows_per_page); [apply Hend; reflexivity|]);
      (destruct (Z.gtb_spec (page + 1) 100);
       [cbn [fst]; rewrite forallb_app, requested_pages_app, length_app, Hall;
        split; [reflexivity | simpl; lia]|]);
      (destruct (IH (page + 1) (all_orders ++ orders)%list) as [Hall' Hlen']; [lia|]);
      cbn [fst]; rewrite forallb_app, requested_pages_app, length_app, Hall;
      (split; [apply (get_for_weaken (page + 1) 100); [lia | lia | exact Hall'] | lia]).
Qed.

End FetchLimits.

(** X1: whatever the remote source answers, the fetch asks only for pages
    1 to 100, always with 250 rows, and issues at most 300 requests. *)
Theorem fetch_requests_bounded (net : Z -> Z -> net_outcome) :
  forallb (get_for 1 100 250) (fetch_all_orders net).1 = true /\
  (length (requested_pages (fetch_all_orders net).1) <= 300)%nat.
Proof.
  destruct (fetch_pages_gets net 100 1 []) as [Hall Hlen]; [lia|].
  split; [exact Hall | unfold fetch_all_orders; lia].
Qed.

Lemma concat_fmap_snoc {A B : Type} (f : A -> list B) (l : list A) (x : A) :
  concat (f <$> (l ++ [x])%list) = (concat (f <$> l) ++ f x)%list.
Proof. rewrite fmap_app, concat_app. simpl. rewrite app_nil_r. reflexivity. Qed.

(** The hundredth page, when full, is the last: the loop warns and ends. *)
Lemma fetch_pages_last_full_page (net : Z -> Z -> net_outcome) (fuel : nat)
    (all_orders : list pyvalue) (log : list event) (orders : list pyvalue) :
  full_page net 100 log orders ->
  fetch_pages net (S fuel) 100 all_orders
  = ((log ++ [EvWarning page_limit_warning])%list, Done (all_orders ++ orders)%list).
Proof.
  intros (response & Hreq & Hresp & Hlen). cbn [fetch_pages]. rewrite Hreq, io_bind_done.
  assert (Hne : orders <> []).
  { intros ->. unfold rows_per_page in Hlen. simpl in Hlen. lia. }
  destruct response; try discriminate Hresp; rewrite Hresp;
    rewrite bool_decide_false by exact Hne;
    (destruct (Z.ltb_spec (Z.of_nat (length orders)) rows_per_page); [lia|]);
    reflexivity.
Qed.

(** X2: when the first hundred pages all come back full, the fetch stops
    there: it has asked for pages 1 to 100 and no other, warns once that
    the page limit was reached, and returns the records of the hundred
    pages. *)
Theorem page_limit_ends_fetch (net : Z -> Z -> net_outcome)
    (logs : Z -> list event) (bodies : Z -> list pyvalue) :
  (forall p, 1 <= p <= 100 -> full_page net p (logs p) (bodies p)) ->
  fetch_all_orders net
  = ((concat (logs <$> seqZ 1 100) ++ [EvWarning page_limit_warning])%list,
     Done (concat (bodies <$> seqZ 1 100))).
Proof.
  intros Hfull. unfold fetch_all_orders.
  change 100%nat with (99 + 1)%nat.
  rewrite (fetch_pages_full_pages net logs bodies 99)
    by (try (intros p Hp; apply Hfull); lia).
  change (1 + Z.of_nat 99) with 100.
  rewrite (fetch_pages_last_full_page net 0 _ (logs 100) (bodies 100))
    by (apply Hfull; lia).
  cbn [fst snd app].
  assert (Hs : seqZ 1 100 = (seqZ 1 (Z.of_nat 99) ++ [100])%list) by (vm_compute; reflexivity).
  rewrite Hs, !concat_fmap_snoc, <- app_assoc. reflexivity.
Qed.

Lemma page_limit_ends_fetch_witness :
  let net : Z -> Z -> net_outcome :=
    fun _ _ => Response 200 "" (PList (replicate 250 (PDict ∅))) in
  requested_pages (fetch_all_orders net).1 = seqZ 1 100 /\
  last (fetch_all_orders net).1 = Some (EvWarning page_limit_warning) /\
  (fetch_all_orders net).2
  = Done (concat ((fun _ => replicate 250 (PDict ∅)) <$> seqZ 1 100)).
Proof.
  intros net.
  rewrite (page_limit_ends_fetch net (fun p => [EvGet p rows_per_page])
             (fun _ => replicate 250 (PDict ∅))).
  - cbn [fst snd]. rewrite requested_pages_app, concat_singletons, requested_pages_gets.
    split; [apply app_nil_r|]. split; [apply last_snoc | reflexivity].
  - intros p _. apply (full_page_first_try net p ""); [reflexivity|].
    rewrite length_replicate. unfold rows_per_page. lia.
Defined.

Section Retries.

Context (net : Z -> Z -> net_outcome).

(** A rate-limited attempt sleeps twice the delay of a failed one, leaves
    [last_error] as it was, and goes to the next attempt. *)
Lemma request_attempts_rate_limited (page rows : Z) (suppress_error : bool)
    (remaining : nat) (attempt : Z) (last_error : option api_error) :
  rate_limited (net page attempt) = true ->
  request_attempts net page rows suppress_error (S remaining) attempt last_error
  = ((EvGet page rows :: EvSleep (API_RETRY_DELAY * inject_Z (attempt + 1) * 2)%Q ::
      (request_attempts net page rows suppress_error remaining (attempt + 1) last_error).1),
     (request_attempts net page rows suppress_error remaining (attempt + 1) last_error).2).
Proof.
  intros Hr. cbn [request_attempts]. rewrite emit_bind.
  destruct (net page attempt) as [status_code text json| | |msg]; try discriminate Hr.
  simpl in Hr. apply Z.eqb_eq in Hr as ->. cbn [Z.eqb Pos.eqb]. rewrite emit_bind.
  reflexivity.
Qed.

End Retries.

(** X3: when the source answers 429 to all three attempts, [request_json]
    sleeps 2, 4 and 6 seconds (also after the last attempt), then reports
    the failure with no error recorded and returns [None]. *)
Theorem rate_limited_three_times (net : Z -> Z -> net_outcome) (page rows : Z) :
  (forall attempt, 0 <= attempt < API_MAX_RETRIES -> rate_limited (net page attempt) = true) ->
  request_json net page rows false
  = ([EvGet page rows; EvSleep 2; EvGet page rows; EvSleep 4; EvGet page rows; EvSleep 6;
      EvError (APIError 3 None)],
     Done PNone).
Proof.
  intros H. unfold request_json. change (Z.to_nat API_MAX_RETRIES) with 3%nat.
  rewrite (request_attempts_rate_limited net page rows false 2 0 None)
    by (apply H; unfold API_MAX_RETRIES; lia).
  rewrite (request_attempts_rate_limited net page rows false 1 (0 + 1) None)
    by (apply H; unfold API_MAX_RETRIES; lia).
  rewrite (request_attempts_rate_limited net page rows false 0 (0 + 1 + 1) None)
    by (apply H; unfold API_MAX_RETRIES; lia).
  reflexivity.
Qed.

Lemma rate_limited_three_times_witness :
  request_json (fun _ _ => Response 429 "Too Many Requests" PNone) 7 250 false
  = ([EvGet 7 250; EvSleep 2; EvGet 7 250; EvSleep 4; EvGet 7 250; EvSleep 6;
      EvError (APIError 3 None)],
     Done PNone).
Proof. apply rate_limited_three_times. intros attempt _. reflexivity. Defined.

Section Suppression.

Context (net : Z -> Z -> net_outcome).

Lemma wait_before_retry_not_api_error (attempt : Z) :
  List.filter (fun e => negb (is_api_error e)) (wait_before_retry attempt).1
  = (wait_before_retry attempt).1.
Proof. unfold wait_before_retry. destruct (attempt <? API_MAX_RETRIES - 1); reflexivity. Qed.

Lemma request_attempts_suppress (page rows : Z) (remaining : nat) :
  forall (attempt : Z) (last_error : option api_error),
    request_attempts net page rows true remaining attempt last_error
    = (List.filter (fun e => negb (is_api_error e))
         (request_attempts net page rows false remaining attempt last_error).1,
       (request_attempts net page rows false remaining attempt last_error).2).
Proof.
  induction remaining as [|remaining IH]; intros attempt last_error; [reflexivity|].
  cbn [request_attempts]. rewrite !emit_bind.
  destruct (net page attempt) as [status_code text json| | |msg].
  - destruct (status_code =? 200); [reflexivity|].
    destruct (status_code =? 401); [reflexivity|].
    destruct (status_code =? 403); [reflexivity|].
    destruct (status_code =? 429).
    + rewrite IH. reflexivity.
    + rewrite !wait_bind, IH. cbn [fst snd List.filter is_api_error negb].
      rewrite List.filter_app, wait_before_retry_not_api_error. reflexivity.
  - rewrite !wait_bind, IH. cbn [fst snd List.filter is_api_error negb].
    rewrite List.filter_app, wait_before_retry_not_api_error. reflexivity.
  - rewrite !wait_bind, IH. cbn [fst snd List.filter is_api_error negb].
    rewrite List.filter_app, wait_before_retry_not_api_error. reflexivity.
  - rewrite !wait_bind, IH. cbn [fst snd List.filter is_api_error negb].
    rewrite List.filter_app, wait_before_retry_not_api_error. reflexivity.
Qed.

(** After a retried attempt the loop goes on with the next attempt,
    having shown nothing. *)
Lemma request_attempts_retried_silent (page rows : Z) (suppress_error : bool)
    (remaining : nat) (attempt : Z) (last_error : option api_error) :
  retried (net page attempt) = true ->
  exists (waits : list event) (last_error' : option api_error),
    forallb silent waits = true /\ requested_pages waits = [] /\
    request_attempts net page rows suppress_error (S remaining) attempt last_error
    = ((EvGet page rows :: waits ++
        (request_attempts net page rows suppress_error remaining (attempt + 1)
           last_error').1)%list,
       (request_attempts net page rows suppress_error remaining (attempt + 1)
          last_error').2).
Proof.
  intros Hr. destruct (wait_before_retry_silent attempt) as (Hws & Hwn & _).
  assert (Hwait : forall last_error',
    exists (waits : list event) (last_error'' : option api_error),
      forallb silent waits = true /\ requested_pages waits = [] /\
      (EvGet page rows ::
       (wait_before_retry attempt ≫= fun _ =>
          request_attempts net page rows suppress_error remaining (attempt + 1)
            last_error').1,
       (wait_before_retry attempt ≫= fun _ =>
          request_attempts net page rows suppress_error remaining (attempt + 1)
            last_error').2)
      = ((EvGet page rows :: waits ++
          (request_attempts net page rows suppress_error remaining (attempt + 1)
             last_error'').1)%list,
         (request_attempts net page rows suppress_error remaining (attempt + 1)
            last_error'').2)).
  { intros last_error'. exists (wait_before_retry attempt).1, last_error'.
    rewrite wait_bind. repeat split; assumption. }
  cbn [request_attempts]. rewrite emit_bind.
  destruct (net page attempt) as [status_code text json| | |msg]; try apply Hwait.
  unfold retried, transient_error in Hr.
  destruct (Z.eqb_spec status_code 200) as [->|_]; [vm_compute in Hr; discriminate Hr|].
  destruct (Z.eqb_spec status_code 401) as [->|_]; [vm_compute in Hr; discriminate Hr|].
  destruct (Z.eqb_spec status_code 403) as [->|_]; [vm_compute in Hr; discriminate Hr|].
  destruct (status_code =? 429); [|apply Hwait].
  exists [EvSleep (API_RETRY_DELAY * inject_Z (attempt + 1) * 2)%Q], last_error.
  rewrite emit_bind. repeat split.
Qed.

(** A 200 at attempt [a], after retried attempts only. *)
Lemma request_attempts_success_after (page rows : Z) (suppress_error : bool)
    (text : string) (json : pyvalue) (a : nat) :
  forall (remaining : nat) (attempt : Z) (last_error : option api_error),
    (a < remaining)%nat ->
    (forall j, attempt <= j < attempt + Z.of_nat a -> retried (net page j) = true) ->
    net page (attempt + Z.of_nat a) = Response 200 text json ->
    exists log,
      request_attempts net page rows suppress_error remaining attempt last_error
      = (log, Done json) /\
      requested_pages log = replicate (S a) page /\
      forallb silent log = true.
Proof.
  induction a as [|a IH]; intros remaining attempt last_error Hlt Hretried Hok.
  - destruct remaining as [|remaining]; [lia|].
    rewrite Z.add_0_r in Hok. cbn [request_attempts]. rewrite emit_bind, Hok.
    eexists. split; [reflexivity|]. split; reflexivity.
  - destruct remaining as [|remaining]; [lia|].
    destruct (request_attempts_retried_silent page rows suppress_error remaining attempt last_error)
      as (waits & last_error' & Hs & Hn & Heq); [apply Hretried; lia|].
    destruct (IH remaining (attempt + 1) last_error') as (log & Hlog & Hreq & Hsil).
    + lia.
    + intros j Hj. apply Hretried. lia.
    + replace (attempt + 1 + Z.of_nat a) with (attempt + Z.of_nat (S a)) by lia. exact Hok.
    + rewrite Heq, Hlog. cbn [fst snd]. eexists. split; [reflexivity|]. split.
      * change (EvGet page rows :: ?l) with ([EvGet page rows] ++ l)%list.
        rewrite !requested_pages_app, Hn, Hreq. reflexivity.
      * cbn [forallb silent]. rewrite forallb_app, Hs, Hsil. reflexivity.
Qed.

(** Attempts that are all retried: the request gives up after the last
    one and returns [None], having reported at most the failure. *)
Lemma request_attempts_all_retried (page rows : Z) (suppress_error : bool)
    (remaining : nat) :
  forall (attempt : Z) (last_error : option api_error),
    (forall j, attempt <= j < attempt + Z.of_nat remaining -> retried (net page j) = true) ->
    exists (log : list event) (last_error' : option api_error),
      request_attempts net page rows suppress_error remaining attempt last_error
      = ((log ++ if suppress_error then []
                 else [EvError (APIError API_MAX_RETRIES last_error')])%list,
         Done PNone) /\
      requested_pages log = replicate remaining page /\
      forallb silent log = true.
Proof.
  induction remaining as [|remaining IH]; intros attempt last_error Hretried.
  - exists [], last_error. destruct suppress_error; repeat split.
  - destruct (request_attempts_retried_silent page rows suppress_error remaining attempt last_error)
      as (waits & last_error' & Hs & Hn & Heq); [apply Hretried; lia|].
    destruct (IH (attempt + 1) last_error') as (log & last_error'' & Hlog & Hreq & Hsil).
    { intros j Hj. apply Hretried. lia. }
    exists (EvGet page rows :: waits ++ log)%list, last_error''.
    rewrite Heq, Hlog. cbn [fst snd]. split; [|split].
    + cbn [app]. rewrite app_assoc. reflexivity.
    + change (EvGet page rows :: ?l) with ([EvGet page rows] ++ l)%list.
      rewrite !requested_pages_app, Hn, Hreq. reflexivity.
    + cbn [forallb silent]. rewrite forallb_app, Hs, Hsil. reflexivity.
Qed.

End Suppression.

(** X4: with [suppress_error] the request does what it does without it,
    with the same requests, waits and result, except that the final
    "API Error" report is not shown; authentication failures are still
    reported and still halt the script. *)
Theorem suppress_error_hides_only_the_report (net : Z -> Z -> net_outcome)
    (page rows : Z) :
  request_json net page rows true
  = (List.filter (fun e => negb (is_api_error e)) (request_json net page rows false).1,
     (request_json net page rows false).2).
Proof. apply request_attempts_suppress. Qed.

(** X5: when an attempt is answered with 200 after retried attempts only
    (rate limits or transient failures), [request_json] returns the body of
    that response; it has sent one request per attempt and has shown
    nothing to the user. *)
Theorem success_after_retries (net : Z -> Z -> net_outcome) (page rows : Z)
    (suppress_error : bool) (a : nat) (text : string) (json : pyvalue) :
  Z.of_nat a < API_MAX_RETRIES ->
  (forall j, 0 <= j < Z.of_nat a -> retried (net page j) = true) ->
  net page (Z.of_nat a) = Response 200 text json ->
  exists log,
    request_json net page rows suppress_error = (log, Done json) /\
    requested_pages log = replicate (S a) page /\
    forallb silent log = true.
Proof.
  intros Ha Hretried Hok.
  apply (request_attempts_success_after net page rows suppress_error text json a);
    [unfold API_MAX_RETRIES in *; simpl; lia | exact Hretried | exact Hok].
Qed.

Lemma success_after_retries_witness :
  let net : Z -> Z -> net_outcome :=
    fun _ attempt =>
      if attempt =? 0 then RaisesTimeout
      else if attempt =? 1 then Response 429 "" PNone
      else Response 200 "[]" (PList []) in
  exists log,
    request_json net 4 250 false = (log, Done (PList [])) /\
    requested_pages log = [4; 4; 4] /\
    forallb silent log = true.
Proof.
  intros net. apply (success_after_retries net 4 250 false 2 "[]" (PList [])).
  - reflexivity.
  - intros j Hj. assert (j = 0 \/ j = 1) as [-> | ->] by lia; reflexivity.
  - reflexivity.
Defined.

(** One turn of the loop on a body without records. *)
Lemma fetch_pages_no_records (net : Z -> Z -> net_outcome) (fuel : nat) (page : Z)
    (all_orders : list pyvalue) (log : list event) (json : pyvalue) :
  request_json net page rows_per_page false = (log, Done json) ->
  no_records json = true ->
  fetch_pages net (S fuel) page all_orders = (log, Done all_orders).
Proof.
  intros Hreq Hno. cbn [fetch_pages]. rewrite Hreq, io_bind_done.
  destruct json as [|b|z|q|s|l|d]; try (simpl; rewrite app_nil_r; reflexivity).
  - simpl in Hno. apply bool_decide_eq_true in Hno as ->.
    simpl. rewrite app_nil_r. reflexivity.
  - simpl in Hno. apply andb_true_iff in Hno as [H1 H2].
    apply bool_decide_eq_true in H1, H2.
    unfold response_orders, dict_get_default. rewrite H1, H2.
    simpl. rewrite app_nil_r. reflexivity.
Qed.

(** X6: a 200 body that is null, a scalar, an empty list, or an object
    with neither a [data] nor a [Data] entry (a bare record, whatever its
    [Id]) adds no record and ends the fetch without any message: the
    records of the full pages before it are returned. *)
Theorem body_without_records_ends_fetch (net : Z -> Z -> net_outcome) (n : nat)
    (logs : Z -> list event) (bodies : Z -> list pyvalue) (text : string) (json : pyvalue) :
  (n < 100)%nat ->
  (forall p, 1 <= p <= Z.of_nat n -> full_page net p (logs p) (bodies p)) ->
  net (Z.of_nat n + 1) 0 = Response 200 text json ->
  no_records json = true ->
  fetch_all_orders net
  = ((concat (logs <$> seqZ 1 (Z.of_nat n)) ++ [EvGet (Z.of_nat n + 1) 250])%list,
     Done (concat (bodies <$> seqZ 1 (Z.of_nat n)))).
Proof.
  intros Hn Hfull Hnet Hno.
  rewrite (fetch_all_orders_after_full_pages net n logs bodies Hn Hfull).
  rewrite (fetch_pages_no_records net _ _ _ [EvGet (Z.of_nat n + 1) rows_per_page] json);
    [reflexivity | | exact Hno].
  apply (request_json_first_try net _ _ text). exact Hnet.
Qed.

Lemma body_without_records_ends_fetch_witness :
  let record : pyvalue := PDict (<["Id" := PInt 12]> (<["Reference" := PStr "SO-12"]> ∅)) in
  fetch_all_orders (fun _ _ => Response 200 "" record) = ([EvGet 1 250], Done []).
Proof.
  intros record.
  apply (body_without_records_ends_fetch (fun _ _ => Response 200 "" record) 0
           (fun _ => []) (fun _ => []) "" record).
  - lia.
  - intros p Hp. simpl in Hp. lia.
  - reflexivity.
  - vm_compute. reflexivity.
Defined.

(** X7: when every attempt for the first page is rate-limited or fails
    transiently, the three requests are followed by the failure report and
    [fetch_sales_orders] returns the empty table; the classifier is not
    run. *)
Theorem first_page_exhausted_gives_empty_table (net : Z -> Z -> net_outcome)
    (process_orders_dataframe : list pyvalue -> exc DataFrame) :
  (forall attempt, 0 <= attempt < API_MAX_RETRIES -> retried (net 1 attempt) = true) ->
  exists (log : list event) (last_error : option api_error),
    fetch_sales_orders net process_orders_dataframe
    = ((log ++ [EvError (APIError 3 last_error)])%list, Done (Ok [])) /\
    requested_pages log = [1; 1; 1] /\
    forallb silent log = true.
Proof.
  intros Hretried.
  destruct (request_attempts_all_retried net 1 rows_per_page false 3 0 None)
    as (log & last_error & Hreq & Hpages & Hsil).
  { intros j Hj. apply Hretried. unfold API_MAX_RETRIES. simpl in Hj. lia. }
  exists log, last_error. split; [|split; assumption].
  unfold fetch_sales_orders, fetch_all_orders.
  rewrite (fetch_pages_failed_page net 99 1 [] _ Hreq), io_bind_done.
  rewrite bool_decide_true by reflexivity. unfold mret, io_ret. cbn [fst snd].
  rewrite app_nil_r. reflexivity.
Qed.

Lemma first_page_exhausted_gives_empty_table_witness :
  exists (log : list event) (last_error : option api_error),
    fetch_sales_orders (fun _ _ => RaisesConnectionError) (fun _ => Raise TypeError)
    = ((log ++ [EvError (APIError 3 last_error)])%list, Done (Ok [])) /\
    requested_pages log = [1; 1; 1] /\
    forallb silent log = true.
Proof.
  apply (first_page_exhausted_gives_empty_table (fun _ _ => RaisesConnectionError)).
  intros attempt _. reflexivity.
Defined.

(* ===================================================================== *)
(** ** The classifier: outcomes, defaults and the shape of the table *)
(* ===================================================================== *)

Lemma get_field_raw (order : pydict) (field_name : string) :
  field_name <> "" -> get_field order field_name = Ok (raw_field order field_name).
Proof.
  destruct field_name as [|c rest]; [congruence|]. intros _. apply get_field_nonempty.
Qed.

Lemma py_or_assoc (a b c : pyvalue) : py_or a (py_or b c) = py_or (py_or a b) c.
Proof.
  unfold py_or. destruct (truthy a) eqn:Ea; cbv beta iota; [rewrite Ea; reflexivity|].
  reflexivity.
Qed.

Section ClassifierOutcomes.

Context (float_of_str : string -> option float).
Context (included : pydict -> exc bool).

Lemma sum_item_qty_Ok_dicts (items : list pyvalue) :
  forall (total total' : float),
    sum_item_qty float_of_str total items = Ok total' -> forallb is_dict items = true.
Proof.
  induction items as [|item items IH]; intros total total'; [reflexivity|].
  simpl. destruct item as [|b|z|q|s|l|d]; try discriminate. simpl.
  destruct (py_float float_of_str (item_qty d)) as [x|e]; [|destruct e]; simpl;
    try discriminate; apply IH.
Qed.

Lemma sum_item_qty_non_dict (items : list pyvalue) (total : float) :
  forallb is_dict items = false ->
  exists e, sum_item_qty float_of_str total items = Raise e.
Proof.
  intros H. destruct (sum_item_qty float_of_str total items) as [total'|e] eqn:E;
    [|exists e; reflexivity].
  rewrite (sum_item_qty_Ok_dicts _ _ _ E) in H. discriminate H.
Qed.

Lemma sum_item_qty_app (before after : list pyvalue) (total : float) :
  sum_item_qty float_of_str total (before ++ after)
  = (t ← sum_item_qty float_of_str total before; sum_item_qty float_of_str t after).
Proof.
  revert total. induction before as [|item before IH]; intros total; [reflexivity|].
  cbn [app sum_item_qty].
  destruct (add_item_qty float_of_str total item) as [t|e]; cbn [mbind exc_bind];
    [apply IH | reflexivity].
Qed.

(** The loop stops at the first line item that is not an object, unless a
    quantity before it is beyond the range of the doubles. *)
Lemma sum_item_qty_first_non_dict (before after : list pyvalue) (item : pyvalue)
    (total : float) :
  forallb is_dict before = true -> is_dict item = false ->
  sum_item_qty float_of_str total (before ++ item :: after)
  = Raise (if existsb qty_overflows before then OverflowError else AttributeError).
Proof.
  intros Hb Hi. rewrite sum_item_qty_app.
  pose proof (sum_item_qty_dicts float_of_str before total Hb) as H.
  destruct (existsb qty_overflows before).
  - rewrite H. reflexivity.
  - destruct H as [t ->]. cbn [mbind exc_bind sum_item_qty].
    destruct item; try discriminate Hi; reflexivity.
Qed.

(** What the loop over the line items needs, and what a row records of
    it.  [li] is the value of the [LineItems] field. *)
Lemma line_items_outcome (li : pyvalue) :
  let line_items := py_or li (PList []) in
  match li with
  | PList items =>
      (if truthy line_items then py_len line_items else Ok 0)
      = Ok (Z.of_nat (length items)) /\
      py_iter (py_or line_items (PList [])) = Ok items /\
      truthy line_items = negb (bool_decide (items = []))
  | PStr _ | PDict _ =>
      if truthy li
      then exists line_count,
             (if truthy line_items then py_len line_items else Ok 0) = Ok line_count /\
             exists item items, py_iter (py_or line_items (PList [])) = Ok (item :: items) /\
               is_dict item = false
      else (if truthy line_items then py_len line_items else Ok 0) = Ok 0 /\
           py_iter (py_or line_items (PList [])) = Ok [] /\
           truthy line_items = false
  | _ =>
      if truthy li
      then (if truthy line_items then py_len line_items else Ok 0) = Raise TypeError
      else (if truthy line_items then py_len line_items else Ok 0) = Ok 0 /\
           py_iter (py_or line_items (PList [])) = Ok [] /\
           truthy line_items = false
  end.
Proof.
  cbv zeta. destruct li as [|b|z|q|s|l|d].
  - repeat split.
  - destruct b; [reflexivity | repeat split].
  - unfold py_or. destruct (truthy (PInt z)) eqn:E; [rewrite E; reflexivity|].
    repeat split.
  - unfold py_or. destruct (truthy (PFloat q)) eqn:E; [rewrite E; reflexivity|].
    repeat split.
  - destruct s as [|c s]; [repeat split|].
    eexists. split; [reflexivity|]. eexists _, _. split; reflexivity.
  - destruct l as [|x l]; repeat split.
  - unfold py_or. destruct (truthy (PDict d)) eqn:E; [|repeat split]. rewrite !E.
    eexists. split; [reflexivity|]. simpl in E |- *.
    destruct (map_to_list d) as [|kv kvs]; [discriminate|].
    eexists _, _. split; reflexivity.
Qed.

(** A record that is kept fails where its line items fail. *)
Lemma process_order_raises_len (today : date) (d : pydict) (e : pyexc) :
  void_flag (PDict d) = false -> included d = Ok true ->
  (let line_items := py_or (raw_field d "LineItems") (PList []) in
   (if truthy line_items then py_len line_items else Ok 0) = Raise e) ->
  process_order float_of_str included today (PDict d) = Raise e.
Proof.
  intros Hv Hi Hlen. cbv zeta in Hlen.
  cbn [process_order]. simpl in Hv. rewrite !truthy_py_or.
  change (truthy (PBool false)) with false.
  rewrite orb_false_r, Hv, Hi. cbn [mbind exc_bind negb].
  rewrite !get_field_raw by discriminate. cbn [mbind exc_bind fmap exc_fmap].
  rewrite Hlen. reflexivity.
Qed.

Lemma process_order_raises_sum (today : date) (d : pydict) (e : pyexc)
    (line_count : Z) (items : list pyvalue) :
  void_flag (PDict d) = false -> included d = Ok true ->
  (let line_items := py_or (raw_field d "LineItems") (PList []) in
   (if truthy line_items then py_len line_items else Ok 0) = Ok line_count /\
   py_iter (py_or line_items (PList [])) = Ok items) ->
  sum_item_qty float_of_str PrimFloat.zero items = Raise e ->
  process_order float_of_str included today (PDict d) = Raise e.
Proof.
  intros Hv Hi [Hlen Hiter] Hsum.
  cbn [process_order]. simpl in Hv. rewrite !truthy_py_or.
  change (truthy (PBool false)) with false.
  rewrite orb_false_r, Hv, Hi. cbn [mbind exc_bind negb].
  rewrite !get_field_raw by discriminate. cbn [mbind exc_bind fmap exc_fmap].
  rewrite Hlen. cbn [mbind exc_bind]. rewrite Hiter. cbn [mbind exc_bind].
  rewrite Hsum. reflexivity.
Qed.

(** The row of a kept record, field by field. *)
Lemma process_order_row (today : date) (d : pydict) (row : order_row) :
  process_order float_of_str included today (PDict d) = Ok (Some row) ->
  exists items : list pyvalue,
    (raw_field d "LineItems" = PList items \/
     (truthy (raw_field d "LineItems") = false /\ items = [])) /\
    forallb is_dict items = true /\
    sum_item_qty float_of_str PrimFloat.zero items = Ok (QtyTotal row) /\
    LineCount row = Z.of_nat (length items) /\
    HasLineItems row = negb (bool_decide (items = [])) /\
    SizeBucket row = size_bucket_of (LineCount row) /\
    WorkloadScore row
    = PrimFloat.add (Z2float (LineCount row))
        (PrimFloat.div (QtyTotal row) (Z2float 10)) /\
    Id row = raw_field d "Id" /\
    BranchId row = raw_field d "BranchId" /\
    Reference row = py_or (raw_field d "Reference") (PStr "") /\
    ProjectName row = py_or (raw_field d "ProjectName") (PStr "") /\
    Company row = py_or (raw_field d "Company") (PStr "") /\
    Status row = py_or (raw_field d "Status") (PStr "") /\
    CreatedDate row = parse_date (raw_field d "CreatedDate") /\
    ModifiedDate row = parse_date (raw_field d "ModifiedDate").
Proof.
  cbn [process_order]. rewrite !truthy_py_or.
  destruct (truthy (dict_get d "IsVoid") || (truthy (dict_get d "isVoid") || truthy (PBool false)));
    [discriminate|].
  destruct (included d) as [keep|e]; [destruct keep|]; cbn [mbind exc_bind negb];
    try discriminate.
  rewrite !get_field_raw by discriminate. cbn [mbind exc_bind fmap exc_fmap].
  pose proof (line_items_outcome (raw_field d "LineItems")) as Hli. cbv zeta in Hli.
  destruct (raw_field d "LineItems") as [|b|z|q|s|l|d0] eqn:Eli.
  1-5, 7:
    (match type of Hli with
     | if ?t then _ else _ => destruct t eqn:Et
     | _ => idtac
     end;
     [first
        [ destruct Hli as (line_count & -> & item & items & -> & Hitem);
          cbn [mbind exc_bind];
          destruct (sum_item_qty_non_dict (item :: items) PrimFloat.zero) as [e ->];
          [simpl; rewrite Hitem; reflexivity | discriminate]
        | rewrite Hli; discriminate ]
     |destruct Hli as (-> & -> & Htr); cbn [mbind exc_bind sum_item_qty];
      rewrite Htr; intros [= <-]; exists []; cbn;
      repeat split; try reflexivity; right; split; reflexivity]).
  destruct Hli as (-> & -> & Htr). cbn [mbind exc_bind].
  destruct (sum_item_qty float_of_str PrimFloat.zero l) as [qty_total|] eqn:Es; [|discriminate].
  cbn [mbind exc_bind]. rewrite Htr. intros [= <-]. exists l. cbn.
  split; [left; reflexivity|]. split; [exact (sum_item_qty_Ok_dicts _ _ _ Es)|].
  repeat split; try reflexivity. exact Es.
Qed.

End ClassifierOutcomes.

(** X8: what the classifier does with a record that is not void and is
    selected depends on its line items alone.  When they are absent or
    falsy a row is produced.  When they are a list of objects a row is
    produced unless the quantity of one of them is an integer beyond the
    range of the doubles: then the classifier raises [OverflowError].
    When they are a list with an element that is not an object, the
    classifier raises [AttributeError] at the first such element, or
    [OverflowError] at a quantity before it.  A non-empty string or
    object in their place raises [AttributeError], and any other truthy
    value, which has no length, [TypeError]. *)
Theorem classification_needs_walkable_line_items (float_of_str : string -> option float)
    (included : pydict -> exc bool) (today : date) (d : pydict) :
  void_flag (PDict d) = false -> included d = Ok true ->
  let result := process_order float_of_str included today (PDict d) in
  match raw_field d "LineItems" with
  | PList items =>
      (forallb is_dict items = true ->
       if existsb qty_overflows items
       then result = Raise OverflowError
       else exists row, result = Ok (Some row)) /\
      (forall (before : list pyvalue) (item : pyvalue) (after : list pyvalue),
         items = (before ++ item :: after)%list ->
         forallb is_dict before = true -> is_dict item = false ->
         result
         = Raise (if existsb qty_overflows before then OverflowError else AttributeError))
  | (PStr _ | PDict _) as v =>
      if truthy v then result = Raise AttributeError
      else exists row, result = Ok (Some row)
  | v =>
      if truthy v then result = Raise TypeError
      else exists row, result = Ok (Some row)
  end.
Proof.
  intros Hv Hi. cbv zeta.
  pose proof (process_order_returns float_of_str included today d Hv Hi) as Hret.
  unfold line_items_ok, line_items_of in Hret.
  pose proof (process_order_raises_len float_of_str included today d TypeError Hv Hi)
    as Hlen.
  pose proof (fun line_count items =>
                process_order_raises_sum float_of_str included today d AttributeError
                  line_count items Hv Hi) as Hsum.
  pose proof (fun e line_count items =>
                process_order_raises_sum float_of_str included today d e
                  line_count items Hv Hi) as Hsum'.
  pose proof (line_items_outcome (raw_field d "LineItems")) as Hli.
  cbv zeta in Hlen, Hsum, Hsum', Hli.
  destruct (raw_field d "LineItems") as [|b|z|q|s|l|d0] eqn:Eli.
  1-5, 7:
    (match type of Hli with
     | if ?t then _ else _ => destruct t eqn:Et
     | _ => idtac
     end;
     [first
        [ destruct Hli as (line_count & Hl1 & item & items & Hl2 & Hitem);
          apply (Hsum line_count (item :: items)); [split; assumption|];
          apply (sum_item_qty_first_non_dict float_of_str [] items item PrimFloat.zero);
          [reflexivity | exact Hitem]
        | apply Hlen, Hli ]
     | apply Hret; reflexivity ]).
  destruct Hli as (Hl1 & Hl2 & _). split.
  - exact Hret.
  - intros before item after -> Hb Hitem.
    apply (Hsum' _ _ (before ++ item :: after)%list (conj Hl1 Hl2)).
    apply sum_item_qty_first_non_dict; assumption.
Qed.

Lemma classification_needs_walkable_line_items_witness :
  let overflow : pydict := <["LineItems" := PList [PDict (<["Qty" := PInt (10 ^ 400)]> ∅)] ]> ∅ in
  let scalar : pydict := <["LineItems" := PInt 3]> ∅ in
  let process_order_ :=
    process_order (fun _ => None) (fun _ => Ok true) (mkDate 2024 5 1) in
  process_order_ (PDict overflow) = Raise OverflowError /\
  process_order_ (PDict scalar) = Raise TypeError.
Proof.
  intros overflow scalar process_order_. split.
  - exact (proj1 (classification_needs_walkable_line_items (fun _ => None)
             (fun _ => Ok true) (mkDate 2024 5 1) overflow eq_refl eq_refl) eq_refl).
  - exact (classification_needs_walkable_line_items (fun _ => None) (fun _ => Ok true)
             (mkDate 2024 5 1) scalar eq_refl eq_refl).
Defined.

(** X9: on every row the classifier produces, [LineCount] is the number
    of line items of the record (0 when the field is absent or falsy),
    [HasLineItems] holds exactly when that number is positive, the size
    bucket is ["S"] below 10 line items, ["M"] from 10 to 29 and ["L"]
    from 30 on, and the workload score is the double obtained by adding
    the line count and a tenth of the quantity total. *)
Theorem row_line_item_metrics (float_of_str : string -> option float)
    (included : pydict -> exc bool) (today : date) (d : pydict) (row : order_row) :
  process_order float_of_str included today (PDict d) = Ok (Some row) ->
  let n := match raw_field d "LineItems" with
           | PList items => Z.of_nat (length items)
           | _ => 0
           end in
  LineCount row = n /\
  HasLineItems row = (0 <? n) /\
  (SizeBucket row = "S" <-> n < 10) /\
  (SizeBucket row = "M" <-> 10 <= n < 30) /\
  (SizeBucket row = "L" <-> 30 <= n) /\
  WorkloadScore row
  = PrimFloat.add (Z2float n) (PrimFloat.div (QtyTotal row) (Z2float 10)).
Proof.
  intros H n. apply process_order_row in H.
  destruct H as (items & Hli & _ & _ & Hlc & Hhas & Hsb & Hws & _).
  assert (Hn : LineCount row = n).
  { rewrite Hlc. subst n. destruct Hli as [-> | [Hf ->]]; [reflexivity|].
    destruct (raw_field d "LineItems") as [|b|z|q|s|l|d0]; try reflexivity.
    destruct l; [reflexivity | discriminate Hf]. }
  rewrite Hn in Hsb, Hws. clearbody n.
  split; [exact Hn|]. split.
  { rewrite Hhas. rewrite Hlc in Hn. subst n. destruct items; reflexivity. }
  rewrite Hsb. unfold size_bucket_of.
  destruct (Z.ltb_spec n 10); [|destruct (Z.ltb_spec n 30)];
    (repeat split; try exact Hws; intros; try discriminate; lia).
Qed.

Lemma row_line_item_metrics_witness :
  let d : pydict :=
    <["lineItems" := PList [PDict (<["Qty" := PInt 4]> ∅); PDict ∅] ]>
      (<["Stage" := PStr "New"]> ∅) in
  exists row,
    process_order (fun _ => None) (fun _ => Ok true) (mkDate 2024 5 1) (PDict d)
    = Ok (Some row) /\
    LineCount row = 2 /\ HasLineItems row = true /\ SizeBucket row = "S".
Proof.
  intros d.
  destruct (process_order (fun _ => None) (fun _ => Ok true) (mkDate 2024 5 1) (PDict d))
    as [[row|]|] eqn:E; try (vm_compute in E; discriminate E).
  exists row. split; [reflexivity|].
  destruct (row_line_item_metrics _ _ _ _ _ E) as (Hlc & Hhas & Hsb & _).
  change (raw_field d "LineItems") with (PList [PDict (<["Qty" := PInt 4]> ∅); PDict ∅])
    in Hlc, Hhas, Hsb.
  split; [exact Hlc|]. split; [exact Hhas|]. apply (proj2 Hsb). reflexivity.
Defined.

(** X10: a kept record that has none of the fields the classifier reads
    (the stage apart) gets the defaults: empty strings for the reference,
    project, company and status, null for the identifiers and the four
    dates, no line items, quantity 0, bucket ["S"], and no urgency flag. *)
Theorem missing_fields_get_defaults (float_of_str : string -> option float)
    (included : pydict -> exc bool) (today : date) (d : pydict) :
  void_flag (PDict d) = false -> included d = Ok true ->
  Forall (fun field_name => raw_field d field_name = PNone) plain_fields ->
  process_order float_of_str included today (PDict d)
  = Ok (Some {|
      Id := PNone; Reference := PStr ""; ProjectName := PStr ""; Company := PStr "";
      CreatedDate := None; ModifiedDate := None;
      Stage := py_or (raw_field d "Stage") (PStr "");
      Status := PStr ""; BranchId := PNone;
      EstimatedDeliveryDate := None; DispatchedDate := None;
      LineCount := 0; QtyTotal := PrimFloat.zero; SizeBucket := "S";
      WorkloadScore := PrimFloat.zero;
      IsOverdue := false; IsDueSoon := false; IsOnTrack := false;
      DaysOverdue := None; HasLineItems := false |}).
Proof.
  intros Hv Hi Hnone. unfold plain_fields in Hnone.
  repeat match type of Hnone with
         | Forall _ (_ :: _) => apply Forall_cons in Hnone as [? Hnone]
         end.
  cbn [process_order]. simpl in Hv. rewrite !truthy_py_or. change (truthy (PBool false)) with false.
  rewrite orb_false_r, Hv, Hi. cbn [mbind exc_bind negb].
  rewrite !get_field_raw by discriminate.
  repeat match goal with H : raw_field d _ = PNone |- _ => rewrite H; clear H end.
  reflexivity.
Qed.

Lemma missing_fields_get_defaults_witness :
  exists row,
    process_order (fun _ => None) (fun _ => Ok true) (mkDate 2024 5 1)
      (PDict (<["Stage" := PStr "New"]> ∅)) = Ok (Some row) /\
    Stage row = PStr "New" /\ Reference row = PStr "" /\ SizeBucket row = "S".
Proof.
  eexists. split.
  - apply (missing_fields_get_defaults (fun _ => None) (fun _ => Ok true) (mkDate 2024 5 1)
             (<["Stage" := PStr "New"]> ∅)); [reflexivity | reflexivity |].
    repeat constructor.
  - repeat split.
Defined.

Section TableShape.

Context (float_of_str : string -> option float).
Context (included : pydict -> exc bool).
Context (today : date).

Lemma process_orders_omap (orders : list pyvalue) (rows : list order_row) :
  process_orders float_of_str included today orders = Ok rows ->
  rows = omap (kept_row float_of_str included today) orders.
Proof.
  revert rows. induction orders as [|order orders IH]; intros rows.
  - intros [= <-]. reflexivity.
  - cbn [process_orders omap list_omap]. unfold kept_row at 1.
    destruct (process_order float_of_str included today order) as [r|];
      cbn [mbind exc_bind]; [|discriminate].
    destruct (process_orders float_of_str included today orders) as [rest|];
      cbn [mbind exc_bind]; [|discriminate].
    intros [= <-]. rewrite <- (IH rest eq_refl). destruct r; reflexivity.
Qed.

Lemma omap_length_le {A B : Type} (f : A -> option B) (l : list A) :
  (length (omap f l) <= length l)%nat.
Proof.
  induction l as [|x l IH]; [reflexivity|]. cbn [omap list_omap].
  destruct (f x); simpl; lia.
Qed.


End TableShape.

(** X11: the classified table holds the rows of the kept records in the
    order of the input, labelled 0, 1, 2, ... without gaps; it never has
    more rows than there were records. *)
Theorem table_rows_in_input_order (float_of_str : string -> option float)
    (included : pydict -> exc bool) (today : date) (orders : list pyvalue)
    (df : DataFrame) :
  process_orders_dataframe_with float_of_str included today orders = Ok df ->
  df.*2 = omap (kept_row float_of_str included today) orders /\
  df.*1 = seq 0 (length df) /\
  (length df <= length orders)%nat.
Proof.
  unfold process_orders_dataframe_with. intros Hdf.
  destruct (process_orders float_of_str included today orders) as [rows|] eqn:Er;
    simpl in Hdf; [|discriminate].
  injection Hdf as <-. apply process_orders_omap in Er.
  assert (Hlen : length (DataFrame_of rows) = length rows).
  { unfold DataFrame_of. apply length_imap. }
  split; [|split].
  - rewrite <- Er. unfold DataFrame_of. rewrite fmap_imap.
    rewrite (imap_ext _ (const id)) by reflexivity.
    rewrite imap_const. apply list_fmap_id.
  - rewrite DataFrame_of_labels, Hlen. reflexivity.
  - rewrite Hlen, Er. apply omap_length_le.
Qed.

Lemma table_rows_in_input_order_witness :
  let orders : list pyvalue :=
    [PDict (<["Reference" := PStr "A"]> ∅);
     PDict (<["IsVoid" := PBool true]> ∅);
     PDict (<["Reference" := PStr "B"]> ∅)] in
  exists df,
    process_orders_dataframe_with (fun _ => None) (fun _ => Ok true) (mkDate 2024 5 1) orders
    = Ok df /\
    Reference <$> df.*2 = [PStr "A"; PStr "B"] /\ df.*1 = [0; 1]%nat.
Proof.
  intros orders.
  destruct (process_orders_dataframe_with (fun _ => None) (fun _ => Ok true)
              (mkDate 2024 5 1) orders) as [df|] eqn:E;
    [|vm_compute in E; discriminate E].
  exists df. split; [reflexivity|].
  destruct (table_rows_in_input_order _ _ _ _ _ E) as (Hrows & Hlabels & _).
  rewrite Hlabels, Hrows. vm_compute in E. injection E as <-. split; reflexivity.
Defined.



Lemma startswith_workshop_not_dispatched (s : string) :
  startswith Test.WORKSHOP_STAGE_PREFIX s = true -> String.eqb s "Dispatched" = false.
Proof.
  destruct s as [|c s]; [discriminate|].
  unfold Test.WORKSHOP_STAGE_PREFIX. cbn [startswith].
  intros [H _]%andb_true_iff. apply Ascii.eqb_eq in H. subst c. reflexivity.
Qed.

(** X13: in the table of [test.py] every row's stage is a string that
    starts with ["Workshop - "], so no row is dispatched by its stage: a
    row has no urgency flag exactly when it has no estimated delivery date
    or has a dispatch date. *)
Theorem workshop_rows_keep_prefix (float_of_str : string -> option float) (today : date)
    (orders : list pyvalue) (df : DataFrame) (i : nat) (r : order_row) :
  Test.process_orders_dataframe float_of_str today orders = Ok df ->
  (i, r) ∈ df ->
  (exists s, Stage r = PStr s /\ startswith Test.WORKSHOP_STAGE_PREFIX s = true) /\
  (no_flag r = true <-> EstimatedDeliveryDate r = None \/ DispatchedDate r <> None).
Proof.
  unfold Test.process_orders_dataframe, process_orders_dataframe_with. intros Hdf Hin.
  destruct (process_orders float_of_str Test.included today orders) as [rows|] eqn:Er;
    simpl in Hdf; [|discriminate].
  injection Hdf as <-. apply DataFrame_of_elem, list_elem_of_lookup_2 in Hin.
  destruct (process_orders_rows _ _ _ _ _ Er r Hin) as (order & _ & Hp).
  apply process_order_kept in Hp.
  destruct Hp as (_ & d & _ & Hinc & Hstage & _ & _ & Hflags).
  assert (Hs : exists s, Stage r = PStr s /\ startswith Test.WORKSHOP_STAGE_PREFIX s = true).
  { unfold Test.included in Hinc. rewrite py_or_assoc in Hinc.
    change (py_or (dict_get d "Stage") (dict_get d "stage")) with (raw_field d "Stage") in Hinc.
    rewrite <- Hstage in Hinc. destruct (Stage r) as [|b|z|q|s|l|d0]; try discriminate.
    exists s. split; [reflexivity|]. injection Hinc as Hinc. exact Hinc. }
  split; [exact Hs|]. destruct Hs as (s & Hst & Hpre).
  unfold row_flags in Hflags. unfold no_flag.
  rewrite Hst in Hflags. unfold status_flags in Hflags. cbn [py_eq_str] in Hflags.
  rewrite (startswith_workshop_not_dispatched s Hpre) in Hflags. cbn [orb] in Hflags.
  destruct (EstimatedDeliveryDate r) as [ed|].
  - destruct (DispatchedDate r) as [dd|].
    + rewrite bool_decide_true in Hflags by discriminate. cbn [negb] in Hflags.
      injection Hflags as -> -> -> _. split; [intros _; right; discriminate | reflexivity].
    + rewrite bool_decide_false in Hflags by (intros H; apply H; reflexivity).
      cbn [negb] in Hflags.
      destruct (_ <? 0) in Hflags;
        [|destruct (_ <=? DUE_SOON_DAYS) in Hflags]; injection Hflags as -> -> -> _;
        (split; [discriminate | intros [H | H]; [discriminate H | exfalso; apply H; reflexivity]]).
  - injection Hflags as -> -> -> _. split; [intros _; left; reflexivity | reflexivity].
Qed.

Lemma workshop_rows_keep_prefix_witness :
  let orders : list pyvalue :=
    [PDict (<["stage" := PStr "Workshop - New"]>
              (<["EstimatedDeliveryDate" := PStr "2024-05-03"]> ∅));
     PDict (<["Stage" := PStr "Processing"]> ∅)] in
  exists df r,
    Test.process_orders_dataframe (fun _ => None) (mkDate 2024 5 1) orders = Ok df /\
    df = [(0%nat, r)] /\ Stage r = PStr "Workshop - New" /\ no_flag r = false.
Proof.
  intros orders.
  destruct (Test.process_orders_dataframe (fun _ => None) (mkDate 2024 5 1) orders)
    as [df|] eqn:E; [|vm_compute in E; discriminate E].
  assert (Hdf : exists r, df = [(0%nat, r)] /\ Stage r = PStr "Workshop - New" /\
                          EstimatedDeliveryDate r <> None /\ DispatchedDate r = None).
  { vm_compute in E. injection E as <-. eexists. repeat split. discriminate. }
  destruct Hdf as (r & Hdf & Hstage & Heta & Hdd).
  exists df, r. split; [reflexivity|]. split; [exact Hdf|]. split; [exact Hstage|].
  assert (Hin : (0%nat, r) ∈ df) by (rewrite Hdf; left).
  destruct (workshop_rows_keep_prefix _ _ _ _ _ _ E Hin) as [_ Hno].
  destruct (no_flag r); [|reflexivity].
  destruct (proj1 Hno eq_refl) as [H | H]; [contradiction | rewrite Hdd in H; contradiction].
Defined.

(* ===================================================================== *)
(** ** Dates: the notations [parse_date] accepts *)
(* ===================================================================== *)

Lemma parse_date_str_compiled (s : string) :
  parse_date_str s = first_success (run_format (strip_markers s)) compiled_formats.
Proof.
  unfold parse_date_str, date_formats, compiled_formats, strip_markers.
  cbn [first_success]. unfold strptime, run_format.
  change (compile_format (str_replace "Z" "" "%Y-%m-%dT%H:%M:%S")) with (Some seconds_items).
  change (compile_format (str_replace "Z" "" "%Y-%m-%dT%H:%M:%S.%f"))
    with (Some fraction_items).
  change (compile_format (str_replace "Z" "" "%Y-%m-%dT%H:%M:%SZ")) with (Some seconds_items).
  change (compile_format (str_replace "Z" "" "%Y-%m-%dT%H:%M:%S.%fZ"))
    with (Some fraction_items).
  change (compile_format (str_replace "Z" "" "%Y-%m-%d")) with (Some date_items).
  change (compile_format (str_replace "Z" "" "%d/%m/%Y")) with (Some day_first_items).
  change (compile_format (str_replace "Z" "" "%m/%d/%Y")) with (Some month_first_items).
  reflexivity.
Qed.

Lemma strip_markers_date_chars (s : string) :
  string_forall date_char s = true -> strip_markers s = s.
Proof.
  intros Hc. unfold strip_markers.
  assert (Hno : forall a, date_char a = false ->
            string_forall (fun c => negb (Ascii.eqb a c)) s = true).
  { intros a Ha. apply (string_forall_impl date_char); [|exact Hc].
    intros c Hcc. apply negb_true_iff. destruct (Ascii.eqb_spec a c) as [->|]; [|reflexivity].
    congruence. }
  rewrite (str_replace_absent "+" "00:00") by (apply Hno; reflexivity).
  rewrite (str_replace_absent "Z" "") by (apply Hno; reflexivity).
  reflexivity.
Qed.

Lemma zpad_date_chars (w : nat) (n : Z) :
  0 <= n < 10 ^ Z.of_nat w -> string_forall date_char (zpad w n) = true.
Proof.
  intros Hn. apply (string_forall_impl is_digit); [|apply zpad_digits, Hn].
  intros c Hc. unfold date_char, iso_char. rewrite Hc. reflexivity.
Qed.

Lemma str_replace_from_skip (old new t : string) :
  str_replace_from old new (String.length t) t = "".
Proof. induction t as [|c t IH]; [reflexivity | exact IH]. Qed.

Lemma startswith_refl (s t : string) : startswith s (s +:+ t) = true.
Proof.
  induction s as [|c s IH]; [reflexivity|].
  rewrite append_cons. cbn [startswith]. rewrite Ascii.eqb_refl, IH. reflexivity.
Qed.

(** Replacing a string that occurs once, at the end. *)
Lemma str_replace_suffix (a : ascii) (old' new s : string) :
  string_forall (fun c => negb (Ascii.eqb a c)) s = true ->
  str_replace (String a old') new (s +:+ String a old') = s +:+ new.
Proof.
  unfold str_replace. induction s as [|c s IH]; intros Hs.
  - rewrite !append_nil_l. cbn [str_replace_from].
    rewrite <- (append_nil_r (String a old')) at 2. rewrite startswith_refl.
    cbn [String.length]. rewrite Nat.sub_1_r. cbn [Nat.pred].
    rewrite str_replace_from_skip. apply append_nil_r.
  - cbn [string_forall] in Hs. apply andb_prop in Hs as [Hc Hs].
    apply negb_true_iff in Hc. rewrite !append_cons. cbn [str_replace_from startswith].
    rewrite Hc. cbn [andb]. rewrite (IH Hs). reflexivity.
Qed.

Lemma isoformat_date_chars (dt : datetime) :
  valid_datetime dt = true -> string_forall date_char (isoformat dt) = true.
Proof.
  intros Hv. apply (string_forall_impl (fun c => iso_char c || Ascii.eqb c "T")).
  - intros c Hc. unfold date_char. unfold iso_char in *.
    destruct (Ascii.eqb c "T"); [|rewrite orb_false_r in Hc; rewrite Hc; reflexivity].
    rewrite !orb_true_r. reflexivity.
  - apply isoformat_sep_chars, Hv.
Qed.

Lemma date_chars_without (a : ascii) (s : string) :
  date_char a = false -> string_forall date_char s = true ->
  string_forall (fun c => negb (Ascii.eqb a c)) s = true.
Proof.
  intros Ha. apply string_forall_impl. intros c Hc. apply negb_true_iff.
  destruct (Ascii.eqb_spec a c) as [->|]; [congruence | reflexivity].
Qed.

(** X14: a [Z] or a [+00:00] after an ISO timestamp is dropped before
    parsing: the timestamp is read as if the marker were not there. *)
Theorem utc_markers_are_ignored (dt : datetime) :
  valid_datetime dt = true ->
  parse_date (PStr (isoformat dt +:+ "Z")) = Some dt /\
  parse_date (PStr (isoformat dt +:+ "+00:00")) = Some dt.
Proof.
  intros Hv. pose proof (isoformat_date_chars dt Hv) as Hc.
  assert (Hstrip : strip_markers (isoformat dt) = isoformat dt)
    by (apply strip_markers_date_chars, Hc).
  pose proof (parse_date_str_isoformat dt Hv) as Hiso.
  rewrite parse_date_str_compiled, Hstrip in Hiso.
  cbn [parse_date]. rewrite !parse_date_str_compiled. split.
  - replace (strip_markers (isoformat dt +:+ "Z")) with (isoformat dt); [exact Hiso|].
    unfold strip_markers.
    rewrite (str_replace_absent "+" "00:00")
      by (rewrite string_forall_app, (date_chars_without "+" _ eq_refl Hc); reflexivity).
    rewrite (str_replace_suffix "Z" "" "") by (apply (date_chars_without "Z" _ eq_refl Hc)).
    rewrite append_nil_r. reflexivity.
  - replace (strip_markers (isoformat dt +:+ "+00:00")) with (isoformat dt); [exact Hiso|].
    unfold strip_markers.
    rewrite (str_replace_suffix "+" "00:00" "")
      by (apply (date_chars_without "+" _ eq_refl Hc)).
    rewrite append_nil_r.
    rewrite (str_replace_absent "Z" "") by (apply (date_chars_without "Z" _ eq_refl Hc)).
    reflexivity.
Qed.

Lemma utc_markers_are_ignored_witness :
  parse_date (PStr "2024-03-09T14:05:00Z") = Some (mkDatetime 2024 3 9 14 5 0 0) /\
  parse_date (PStr "2024-03-09T14:05:00+00:00") = Some (mkDatetime 2024 3 9 14 5 0 0).
Proof. exact (utc_markers_are_ignored (mkDatetime 2024 3 9 14 5 0 0) eq_refl). Defined.

(** [%Y] wants four digits: it fails on two digits followed by a slash. *)
Lemma match_items_year_rejects_slash (v : Z) (items : list fmt_item) (s : string)
    (acc : datetime) :
  0 <= v <= 99 ->
  match_items (Dir DirY :: items) (zpad 2 v +:+ String "/" s) acc = None.
Proof.
  intros Hv. destruct (zpad2_digits v Hv) as (a & b & Ha & Hb & ->).
  rewrite !append_cons, append_nil_l.
  cbn [match_items dir_patterns first_success match_pattern].
  rewrite !in_cls_any_digit by assumption.
  change (in_cls any_digit "/") with false. reflexivity.
Qed.

(** [%m] rejects two digits above 12 when a separator follows in the
    format. *)
Lemma month_rejects {B : Type} (v : Z) (k : Z -> string -> option B) (rest : string) :
  12 < v <= 99 ->
  (forall x, k x (String (digit_char (v mod 10)) rest) = None) ->
  first_success
    (fun pat =>
       match match_pattern pat (zpad 2 v +:+ rest) with
       | Some (txt, rest') => k (dir_value Dirm txt) rest'
       | None => None
       end)
    (dir_patterns Dirm) = None.
Proof.
  intros Hv H1.
  assert (Hn : exists n : nat, v = Z.of_nat n /\ (12 < n < 100)%nat)
    by (exists (Z.to_nat v); lia).
  destruct Hn as (n & -> & Hn).
  do 100 (destruct n as [|n];
    [first [exfalso; lia | vm_compute in H1; vm_compute; rewrite ?H1; reflexivity]|]).
  lia.
Qed.

Lemma match_items_month_rejects (v : Z) (c : ascii) (items : list fmt_item) (s : string)
    (acc : datetime) :
  12 < v <= 99 -> c = "/"%char \/ c = "T"%char \/ c = "-"%char ->
  match_items (Dir Dirm :: Lit c :: items) (zpad 2 v +:+ s) acc = None.
Proof.
  intros Hv Hc.
  apply (month_rejects v (fun x s' => match_items (Lit c :: items) s' (set_field Dirm x acc)) s Hv).
  intros x. apply match_items_lit_fail, lit_not_digit; [exact Hc|].
  pose proof (Z.mod_pos_bound v 10). lia.
Qed.

Section SlashDates.

Context (y m d : Z).
Context (Hvalid : valid_datetime (midnight y m d) = true).

Lemma slash_date_ranges : 1 <= y <= 9999 /\ 1 <= m <= 12 /\ 1 <= d <= 31.
Proof.
  destruct (valid_datetime_ranges _ Hvalid) as (Hy & Hm & Hd & _). auto.
Qed.

Lemma day_first_date_chars : string_forall date_char (day_first y m d) = true.
Proof.
  destruct slash_date_ranges as (Hy & Hm & Hd). unfold day_first.
  rewrite !string_forall_app, !(zpad_date_chars 2), (zpad_date_chars 4)
    by (change (10 ^ Z.of_nat 4) with 10000; change (10 ^ Z.of_nat 2) with 100; lia).
  reflexivity.
Qed.

Lemma day_first_matches :
  match_items day_first_items (day_first y m d) strptime_default
  = Some (midnight y m d, "").
Proof.
  destruct slash_date_ranges as (Hy & Hm & Hd). unfold day_first_items, day_first.
  apply match_items_two_digit; [exact Hd|].
  apply match_items_lit; [reflexivity|].
  apply match_items_two_digit; [exact Hm|].
  apply match_items_lit; [reflexivity|].
  rewrite <- (append_nil_r (zpad 4 y)).
  apply match_items_year; [lia|]. reflexivity.
Qed.

(** The formats that start with the year fail on the day. *)
Lemma year_formats_reject_day_first (items : list fmt_item) :
  run_format (day_first y m d) (Dir DirY :: items) = None.
Proof.
  destruct slash_date_ranges as (Hy & Hm & Hd). unfold run_format, day_first.
  change (zpad 2 d +:+ "/" +:+ zpad 2 m +:+ "/" +:+ zpad 4 y)
    with (zpad 2 d +:+ String "/" (zpad 2 m +:+ "/" +:+ zpad 4 y)).
  rewrite match_items_year_rejects_slash by lia. reflexivity.
Qed.

Lemma parse_date_str_day_first :
  parse_date_str (day_first y m d) = Some (midnight y m d).
Proof.
  rewrite parse_date_str_compiled, (strip_markers_date_chars _ day_first_date_chars).
  unfold compiled_formats. cbn [first_success].
  change seconds_items with (Dir DirY :: tl seconds_items).
  change fraction_items with (Dir DirY :: tl fraction_items).
  change date_items with (Dir DirY :: tl date_items).
  rewrite !year_formats_reject_day_first.
  unfold run_format at 1. rewrite day_first_matches, Hvalid. reflexivity.
Qed.

End SlashDates.

(** X15: a date in the [dd/mm/yyyy] notation is read day first: for every
    calendar date the parser returns midnight of that date. *)
Theorem day_first_dates_parse (y m d : Z) :
  valid_datetime (midnight y m d) = true ->
  parse_date (PStr (day_first y m d)) = Some (midnight y m d).
Proof. intros Hv. apply parse_date_str_day_first, Hv. Qed.

Lemma day_first_dates_parse_witness :
  parse_date (PStr "29/02/2024") = Some (mkDatetime 2024 2 29 0 0 0 0).
Proof. exact (day_first_dates_parse 2024 2 29 eq_refl). Defined.

Lemma valid_midnight_swap (y m d : Z) :
  valid_datetime (midnight y m d) = true -> d <= 12 ->
  valid_datetime (midnight y d m) = true.
Proof.
  intros Hv Hd. destruct (valid_datetime_ranges _ Hv) as (Hy & Hm & Hd' & _).
  unfold midnight in *. cbn [year month day] in *. unfold valid_datetime.
  cbn [year month day hour minute second microsecond].
  assert (Hdim : m <= days_in_month y d).
  { unfold days_in_month. destruct (d =? 2); [destruct (is_leap y); lia|].
    destruct ((d =? 4) || (d =? 6) || (d =? 9) || (d =? 11)); lia. }
  repeat (apply andb_true_iff; split); try apply Z.leb_le; try lia.
Qed.

Lemma parse_date_str_month_first (y m d : Z) :
  valid_datetime (midnight y m d) = true -> 12 < d ->
  parse_date_str (month_first y m d) = Some (midnight y m d).
Proof.
  intros Hv Hd12. destruct (valid_datetime_ranges _ Hv) as (Hy & Hm & Hd & _).
  cbn [midnight year month day] in Hy, Hm, Hd.
  assert (Hchars : string_forall date_char (month_first y m d) = true).
  { unfold month_first.
    rewrite !string_forall_app, !(zpad_date_chars 2), (zpad_date_chars 4)
      by (change (10 ^ Z.of_nat 4) with 10000; change (10 ^ Z.of_nat 2) with 100; lia).
    reflexivity. }
  rewrite parse_date_str_compiled, (strip_markers_date_chars _ Hchars).
  unfold compiled_formats. cbn [first_success].
  assert (Hyear : forall items, run_format (month_first y m d) (Dir DirY :: items) = None).
  { intros items. unfold run_format, month_first.
    change (zpad 2 m +:+ "/" +:+ zpad 2 d +:+ "/" +:+ zpad 4 y)
      with (zpad 2 m +:+ String "/" (zpad 2 d +:+ "/" +:+ zpad 4 y)).
    rewrite match_items_year_rejects_slash by lia. reflexivity. }
  change seconds_items with (Dir DirY :: tl seconds_items).
  change fraction_items with (Dir DirY :: tl fraction_items).
  change date_items with (Dir DirY :: tl date_items).
  rewrite !Hyear.
  assert (Hday : run_format (month_first y m d) day_first_items = None).
  { unfold run_format, month_first, day_first_items.
    change (zpad 2 m +:+ "/" +:+ zpad 2 d +:+ "/" +:+ zpad 4 y)
      with (zpad 2 m +:+ String "/" (zpad 2 d +:+ String "/" (zpad 4 y))).
    destruct (zpad2_digits m ltac:(lia)) as (a & b & Ha & Hb & ->).
    rewrite !append_cons, append_nil_l.
    rewrite match_items_two_digit_fail; try assumption; try discriminate;
      [reflexivity | |]; intros x.
    - apply match_items_lit_eq. apply match_items_month_rejects; [lia | auto].
    - apply match_items_lit_fail, lit_not_digit; auto. }
  rewrite Hday.
  assert (Hmonth : match_items month_first_items (month_first y m d) strptime_default
                   = Some (midnight y m d, "")).
  { unfold month_first_items, month_first.
    apply match_items_two_digit; [exact Hm|].
    apply match_items_lit; [reflexivity|].
    apply match_items_two_digit; [exact Hd|].
    apply match_items_lit; [reflexivity|].
    rewrite <- (append_nil_r (zpad 4 y)).
    apply match_items_year; [lia|]. reflexivity. }
  unfold run_format. rewrite Hmonth, Hv. reflexivity.
Qed.

(** X16: a date in the [mm/dd/yyyy] notation is read month first only
    when its day is above 12; with a day up to 12 the day-first format
    wins and day and month are exchanged. *)
Theorem month_first_only_above_12 (y m d : Z) :
  valid_datetime (midnight y m d) = true ->
  parse_date (PStr (month_first y m d))
  = Some (if 12 <? d then midnight y m d else midnight y d m).
Proof.
  intros Hv. cbn [parse_date]. destruct (Z.ltb_spec 12 d) as [Hd | Hd].
  - apply parse_date_str_month_first; assumption.
  - change (month_first y m d) with (day_first y d m).
    apply parse_date_str_day_first, valid_midnight_swap; assumption.
Qed.

Lemma month_first_only_above_12_witness :
  parse_date (PStr "03/25/2024") = Some (mkDatetime 2024 3 25 0 0 0 0) /\
  parse_date (PStr "03/04/2024") = Some (mkDatetime 2024 4 3 0 0 0 0).
Proof.
  split.
  - exact (month_first_only_above_12 2024 3 25 eq_refl).
  - exact (month_first_only_above_12 2024 3 4 eq_refl).
Defined.

(** Month, day and the [T] of the format against a date at the end of the
    input. *)
Lemma match_items_date_end_fails (m d : Z) (items : list fmt_item) (acc : datetime) :
  0 <= m <= 99 -> 0 <= d <= 99 ->
  match_items (Dir Dirm :: Lit "-" :: Dir Dird :: Lit "T" :: items)
    (zpad 2 m +:+ String "-" (zpad 2 d)) acc = None.
Proof.
  intros Hm Hd.
  destruct (zpad2_digits m Hm) as (a & b & Ha & Hb & ->).
  destruct (zpad2_digits d Hd) as (a' & b' & Ha' & Hb' & ->).
  rewrite !append_cons, append_nil_l.
  apply match_items_two_digit_fail; try assumption; try discriminate; intros x.
  - apply match_items_lit_eq.
    apply match_items_two_digit_fail; try assumption; try discriminate; intros x'.
    + reflexivity.
    + apply match_items_lit_fail, lit_not_digit; auto.
  - apply match_items_lit_fail, lit_not_digit; auto.
Qed.

(** X17: a plain date in the [yyyy-mm-dd] notation is read as midnight of
    that date. *)
Theorem plain_dates_parse_to_midnight (y m d : Z) :
  valid_datetime (midnight y m d) = true ->
  parse_date (PStr (date_isoformat y m d)) = Some (midnight y m d).
Proof.
  intros Hv. destruct (valid_datetime_ranges _ Hv) as (Hy & Hm & Hd & _).
  cbn [midnight year month day] in Hy, Hm, Hd. cbn [parse_date].
  assert (Hchars : string_forall date_char (date_isoformat y m d) = true).
  { unfold date_isoformat.
    rewrite !string_forall_app, !(zpad_date_chars 2), (zpad_date_chars 4)
      by (change (10 ^ Z.of_nat 4) with 10000; change (10 ^ Z.of_nat 2) with 100; lia).
    reflexivity. }
  rewrite parse_date_str_compiled, (strip_markers_date_chars _ Hchars).
  unfold compiled_formats. cbn [first_success].
  assert (HT : forall items,
            run_format (date_isoformat y m d) (seconds_items ++ items)%list = None).
  { intros items. unfold run_format, date_isoformat, seconds_items. cbn [app].
    change (zpad 4 y +:+ "-" +:+ zpad 2 m +:+ "-" +:+ zpad 2 d)
      with (zpad 4 y +:+ String "-" (zpad 2 m +:+ String "-" (zpad 2 d))).
    rewrite match_items_year_eq by lia.
    rewrite (match_items_lit_eq "-" _ _ _ None); [reflexivity|].
    apply match_items_date_end_fails; lia. }
  pose proof (HT []) as HT0. rewrite app_nil_r in HT0.
  rewrite !HT0. unfold fraction_items. rewrite !HT.
  assert (Hdate : match_items date_items (date_isoformat y m d) strptime_default
                  = Some (midnight y m d, "")).
  { unfold date_items, date_isoformat.
    apply match_items_year; [lia|].
    apply match_items_lit; [reflexivity|].
    apply match_items_two_digit; [exact Hm|].
    apply match_items_lit; [reflexivity|].
    rewrite <- (append_nil_r (zpad 2 d)).
    apply match_items_two_digit; [exact Hd|]. reflexivity. }
  unfold run_format. rewrite Hdate, Hv. reflexivity.
Qed.

Lemma plain_dates_parse_to_midnight_witness :
  parse_date (PStr "2024-12-31") = Some (mkDatetime 2024 12 31 0 0 0 0).
Proof. exact (plain_dates_parse_to_midnight 2024 12 31 eq_refl). Defined.

(** A run of digit classes longer than the digits left does not match. *)
Lemma match_pattern_too_long (k : nat) :
  forall (w : nat) (f : Z),
    (k < w)%nat -> match_pattern (repeat any_digit w) (zpad k f) = None.
Proof.
  induction k as [|k IH]; intros w f Hw.
  - destruct w; [lia | reflexivity].
  - destruct w as [|w]; [lia|]. cbn [repeat zpad match_pattern].
    destruct (in_cls any_digit _); [|reflexivity].
    rewrite IH by lia. reflexivity.
Qed.

(** [%f] on [k] digits at the end of the input: the value is scaled to
    microseconds. *)
Lemma match_items_fraction (k : nat) (f : Z) (acc : datetime) :
  (1 <= k <= 6)%nat -> 0 <= f < 10 ^ Z.of_nat k ->
  match_items [Dir Dirf] (zpad k f) acc
  = Some (set_field Dirf (f * 10 ^ (6 - Z.of_nat k)) acc, "").
Proof.
  intros Hk Hf.
  pose proof (match_pattern_zpad k f "" Hf) as Hm. rewrite append_nil_r in Hm.
  assert (Hval : dir_value Dirf (zpad k f) = f * 10 ^ (6 - Z.of_nat k)).
  { unfold dir_value. rewrite int_of_digits_zpad, zpad_length by exact Hf.
    rewrite Z.mul_0_l, Z.add_0_l. reflexivity. }
  cbn [match_items dir_patterns first_success].
  assert (k = 1 \/ k = 2 \/ k = 3 \/ k = 4 \/ k = 5 \/ k = 6)%nat as Hcases by lia.
  destruct Hcases as [-> | [-> | [-> | [-> | [-> | ->]]]]];
    rewrite ?match_pattern_too_long by lia; rewrite Hm, Hval; reflexivity.
Qed.

(** X18: fractional seconds may have one to six digits; fewer than six
    are scaled up to microseconds (a fraction [.5] is 500000 microseconds). *)
Theorem short_fractions_are_scaled (dt : datetime) (k : nat) (f : Z) :
  valid_datetime dt = true -> (1 <= k <= 6)%nat -> 0 <= f < 10 ^ Z.of_nat k ->
  parse_date (PStr (isoformat_seconds dt ("." +:+ zpad k f)))
  = Some (mkDatetime (year dt) (month dt) (day dt) (hour dt) (minute dt) (second dt)
            (f * 10 ^ (6 - Z.of_nat k))).
Proof.
  intros Hv Hk Hf. cbn [parse_date].
  destruct (valid_datetime_ranges dt Hv) as (Hy & Hm & Hd & HH & HM & HS & _).
  assert (Hus : 0 <= f * 10 ^ (6 - Z.of_nat k) <= 999999).
  { assert (k = 1 \/ k = 2 \/ k = 3 \/ k = 4 \/ k = 5 \/ k = 6)%nat as Hcases by lia.
    destruct Hcases as [-> | [-> | [-> | [-> | [-> | ->]]]]]; cbn in Hf |- *; lia. }
  assert (Hchars : string_forall date_char (isoformat_seconds dt ("." +:+ zpad k f)) = true).
  { unfold isoformat_seconds.
    rewrite !string_forall_app. cbn [string_forall]. rewrite !string_forall_app.
    cbn [string_forall].
    rewrite !(zpad_date_chars 2), (zpad_date_chars 4), (zpad_date_chars k)
      by (change (10 ^ Z.of_nat 4) with 10000; change (10 ^ Z.of_nat 2) with 100; lia).
    reflexivity. }
  rewrite parse_date_str_compiled, (strip_markers_date_chars _ Hchars).
  unfold compiled_formats. cbn [first_success].
  unfold run_format at 1. rewrite <- (app_nil_r seconds_items) at 1.
  rewrite (match_items_seconds dt [] _ (_, _) Hv eq_refl).
  change ("." +:+ zpad k f) with (String "." (zpad k f)). cbv iota.
  unfold run_format at 1. unfold fraction_items.
  rewrite (match_items_seconds dt [Lit "."; Dir Dirf] _
             (mkDatetime (year dt) (month dt) (day dt) (hour dt) (minute dt) (second dt)
                (f * 10 ^ (6 - Z.of_nat k)), "") Hv).
  - assert (Hvalid' : valid_datetime
              (mkDatetime (year dt) (month dt) (day dt) (hour dt) (minute dt) (second dt)
                 (f * 10 ^ (6 - Z.of_nat k))) = true).
    { unfold valid_datetime in Hv |- *.
      cbn [year month day hour minute second microsecond].
      repeat (apply andb_true_iff in Hv as [Hv ?]).
      repeat (apply andb_true_iff; split); try assumption; apply Z.leb_le; lia. }
    rewrite Hvalid'. reflexivity.
  - apply match_items_lit; [reflexivity|].
    rewrite (match_items_fraction k f _ Hk Hf). reflexivity.
Qed.

Lemma short_fractions_are_scaled_witness :
  parse_date (PStr "2024-03-09T14:05:07.5") = Some (mkDatetime 2024 3 9 14 5 7 500000) /\
  parse_date (PStr "2024-03-09T14:05:07.123") = Some (mkDatetime 2024 3 9 14 5 7 123000).
Proof.
  split.
  - exact (short_fractions_are_scaled (mkDatetime 2024 3 9 14 5 7 0) 1 5
             eq_refl ltac:(lia) ltac:(lia)).
  - exact (short_fractions_are_scaled (mkDatetime 2024 3 9 14 5 7 0) 3 123
             eq_refl ltac:(lia) ltac:(lia)).
Defined.

(* ===================================================================== *)
(** ** Boards: order of the columns, counts and the TV cards *)
(* ===================================================================== *)

Lemma key_compare_antisym (ascending : bool) (a b : option Z) :
  key_compare ascending b a = CompOpp (key_compare ascending a b).
Proof.
  destruct a as [x|], b as [y|]; simpl; try reflexivity.
  destruct ascending; apply Z.compare_antisym.
Qed.

Lemma key_compare_Eq_l (ascending : bool) (a b c : option Z) :
  key_compare ascending a b = Eq -> key_compare ascending a c = key_compare ascending b c.
Proof.
  destruct a as [x|], b as [y|]; simpl; try discriminate; [|reflexivity].
  destruct ascending; intros ->%Z.compare_eq; reflexivity.
Qed.

Lemma key_compare_Eq_r (ascending : bool) (a b c : option Z) :
  key_compare ascending b c = Eq -> key_compare ascending a b = key_compare ascending a c.
Proof.
  destruct b as [y|], c as [z|]; simpl; try discriminate; [|reflexivity].
  destruct ascending; intros ->%Z.compare_eq; reflexivity.
Qed.

Lemma key_compare_Lt_trans (ascending : bool) (a b c : option Z) :
  key_compare ascending a b = Lt -> key_compare ascending b c = Lt ->
  key_compare ascending a c = Lt.
Proof.
  destruct a as [x|], b as [y|], c as [z|]; simpl; try discriminate; try reflexivity.
  destruct ascending; rewrite ?Z.compare_lt_iff; lia.
Qed.

Section SortOrder.

Context (by_ : list (sort_key * bool)).

Lemma rows_compare_antisym (a b : order_row) :
  rows_compare by_ b a = CompOpp (rows_compare by_ a b).
Proof.
  induction by_ as [|[k ascending] by' IH]; [reflexivity|]. cbn [rows_compare].
  rewrite (key_compare_antisym ascending (k a) (k b)).
  destruct (key_compare ascending (k a) (k b)); cbn [CompOpp]; [exact IH | reflexivity..].
Qed.

Lemma rows_compare_Eq_l (a b c : order_row) :
  rows_compare by_ a b = Eq -> rows_compare by_ a c = rows_compare by_ b c.
Proof.
  induction by_ as [|[k ascending] by' IH]; [reflexivity|]. cbn [rows_compare].
  destruct (key_compare ascending (k a) (k b)) eqn:Eab; try discriminate.
  intros Hab. rewrite (key_compare_Eq_l _ _ _ (k c) Eab), (IH Hab). reflexivity.
Qed.

Lemma rows_compare_Eq_r (a b c : order_row) :
  rows_compare by_ b c = Eq -> rows_compare by_ a b = rows_compare by_ a c.
Proof.
  induction by_ as [|[k ascending] by' IH]; [reflexivity|]. cbn [rows_compare].
  destruct (key_compare ascending (k b) (k c)) eqn:Ebc; try discriminate.
  intros Hbc. rewrite (key_compare_Eq_r _ (k a) _ _ Ebc), (IH Hbc). reflexivity.
Qed.

Lemma rows_compare_Lt_trans (a b c : order_row) :
  rows_compare by_ a b = Lt -> rows_compare by_ b c = Lt -> rows_compare by_ a c = Lt.
Proof.
  induction by_ as [|[k ascending] by' IH]; [discriminate|]. cbn [rows_compare].
  destruct (key_compare ascending (k a) (k b)) eqn:Eab; try discriminate.
  - rewrite (key_compare_Eq_l _ _ _ (k c) Eab).
    destruct (key_compare ascending (k b) (k c)); try discriminate; [apply IH | reflexivity].
  - destruct (key_compare ascending (k b) (k c)) eqn:Ebc; try discriminate.
    + rewrite <- (key_compare_Eq_r _ (k a) _ _ Ebc), Eab. reflexivity.
    + rewrite (key_compare_Lt_trans _ _ _ _ Eab Ebc). reflexivity.
Qed.

Lemma rows_le_total : Total (rows_le by_).
Proof.
  intros a b. unfold rows_le. rewrite (rows_compare_antisym (snd a) (snd b)).
  destruct (rows_compare by_ (snd a) (snd b)); cbn [CompOpp]; [left | left | right];
    discriminate.
Qed.

Lemma rows_le_trans : Transitive (rows_le by_).
Proof.
  intros a b c. unfold rows_le. intros Hab Hbc.
  destruct (rows_compare by_ (snd a) (snd b)) eqn:Eab; [| |contradiction].
  - rewrite (rows_compare_Eq_l _ _ (snd c) Eab). exact Hbc.
  - destruct (rows_compare by_ (snd b) (snd c)) eqn:Ebc; [| |contradiction].
    + rewrite <- (rows_compare_Eq_r (snd a) _ _ Ebc), Eab. discriminate.
    + rewrite (rows_compare_Lt_trans _ _ _ Eab Ebc). discriminate.
Qed.

Lemma sort_values_sorted (df : DataFrame) :
  StronglySorted (rows_le by_) (sort_values by_ df).
Proof.
  exact (@StronglySorted_merge_sort _ (rows_le by_) _ rows_le_trans rows_le_total df).
Qed.

End SortOrder.

Lemma StronglySorted_weaken {A : Type} (R1 R2 : relation A) (l : list A) :
  (forall a b, R1 a b -> R2 a b) -> StronglySorted R1 l -> StronglySorted R2 l.
Proof.
  intros HR. induction 1 as [|a l _ IH Hall]; constructor; [exact IH|].
  eapply List.Forall_impl; [|exact Hall]. intros b. apply HR.
Qed.

Lemma sort_values_first_key (k : sort_key) (ascending : bool)
    (by_ : list (sort_key * bool)) (df : DataFrame) :
  StronglySorted (key_ordered k ascending) (sort_values ((k, ascending) :: by_) df).
Proof.
  apply (StronglySorted_weaken (rows_le ((k, ascending) :: by_)));
    [|apply sort_values_sorted].
  intros a b. unfold rows_le, key_ordered. cbn [rows_compare]. unfold key_compare.
  destruct (k (snd a)) as [x|], (k (snd b)) as [y|]; try (intros _; exact I).
  - destruct ascending.
    + destruct (Z.compare_spec x y); intros Hgt; try lia. contradiction.
    + destruct (Z.compare_spec y x); intros Hgt; try lia. contradiction.
  - intros H. apply H. reflexivity.
Qed.

Lemma group_rows_app (title : string) (b1 b2 : board) :
  group_rows title (b1 ++ b2)%list = (group_rows title b1 ++ group_rows title b2)%list.
Proof. unfold group_rows. apply flat_map_app. Qed.

Lemma column_sum_filter (col : order_row -> bool) (df : DataFrame) :
  column_sum col df = Z.of_nat (length (df_filter col df)).
Proof.
  induction df as [|[i r] df IH]; [reflexivity|].
  unfold df_filter in *. cbn [column_sum fold_right List.filter snd].
  change (fold_right (fun ir acc => Z.b2z (col ir.2) + acc) 0 df) with (column_sum col df).
  rewrite IH. destruct (col r); cbn [Z.b2z length]; lia.
Qed.

Lemma column_sum_perm (col : order_row -> bool) (df df' : DataFrame) :
  df ≡ₚ df' -> column_sum col df = column_sum col df'.
Proof.
  induction 1 as [|x l l' _ IH|x y l|l l' l'' _ IH1 _ IH2]; unfold column_sum in *;
    cbn [fold_right]; lia.
Qed.

Lemma column_sum_split (col q : order_row -> bool) (df : DataFrame) :
  column_sum col df
  = column_sum col (df_filter q df) + column_sum col (df_filter (fun r => negb (q r)) df).
Proof.
  induction df as [|[i r] df IH]; [reflexivity|].
  unfold df_filter in *. cbn [List.filter snd]. unfold column_sum in *.
  destruct (q r); cbn [negb fold_right snd]; lia.
Qed.

Lemma length_sort_values (by_ : list (sort_key * bool)) (df : DataFrame) :
  length (sort_values by_ df) = length df.
Proof. apply Permutation_length, sort_values_perm. Qed.

Lemma df_empty_true (df : DataFrame) : df_empty df = true -> df = [].
Proof. destruct df; [reflexivity | discriminate]. Qed.






(** X20: on the board of [test.py] the in-progress group has its overdue
    jobs first, the To Collect group and the queue the earliest delivery
    date first, the Overdue group the most overdue first, and the Needs
    ETD group the oldest order first. *)
Theorem test_board_columns_sorted (df : DataFrame) (title : string) (g : DataFrame) :
  (title, g) ∈ Test.render_board df ->
  (title = "Currently in Workshop" -> StronglySorted (key_ordered by_IsOverdue false) g) /\
  (title = "To Collect" \/ title = "Jobs in Queue" ->
   StronglySorted (key_ordered by_EstimatedDeliveryDate true) g) /\
  (title = "Overdue" -> StronglySorted (key_ordered by_DaysOverdue false) g) /\
  (title = "Needs ETD" -> StronglySorted (key_ordered by_CreatedDate true) g).
Proof.
  unfold Test.render_board, Test.render_currently_working_on, Test.render_to_collect,
    Test.render_overdue, Test.render_needs_etd, Test.queue_df.
  destruct (df_empty df); [intros H; inversion H|]. cbv zeta.
  destruct (df_empty (df_filter Test.is_processing df));
    destruct (df_empty (df_filter Test.is_to_collect df));
    destruct (df_empty (df_filter IsOverdue df));
    destruct (df_empty (df_filter no_flag df)); cbn [app]; intros H;
    repeat (apply elem_of_cons in H as [H | H]; [injection H as -> ->|]);
    try (inversion H; fail);
    (repeat split; [intros Ht; try discriminate Ht; apply sort_values_first_key
                   |intros Ht; try discriminate Ht; try destruct Ht as [Ht | Ht];
                     try discriminate Ht; apply sort_values_first_key
                   |intros Ht; try discriminate Ht; apply sort_values_first_key ..]).
Qed.

Lemma test_board_columns_sorted_witness :
  let df : DataFrame :=
    [(0%nat, row_with "Workshop - New" (mkFlags true false false (Some 2)));
     (1%nat, row_with "Workshop - New" (mkFlags true false false (Some 9)))] in
  exists g, ("Overdue", g) ∈ Test.render_board df /\
    StronglySorted (key_ordered by_DaysOverdue false) g /\ g.*1 = [1; 0]%nat.
Proof.
  intros df.
  assert (Hin : ("Overdue",
                 [(1%nat, row_with "Workshop - New" (mkFlags true false false (Some 9)));
                  (0%nat, row_with "Workshop - New" (mkFlags true false false (Some 2)))])
                ∈ Test.render_board df) by (vm_compute; left).
  eexists. split; [exact Hin|]. split; [|reflexivity].
  apply (test_board_columns_sorted df "Overdue" _ Hin). reflexivity.
Defined.

Lemma column_sum_nil (col : order_row -> bool) : column_sum col [] = 0.
Proof. reflexivity. Qed.

(** The KPI counts against the complete board of [app.py]. *)
Lemma App_complete_board_kpis (df : DataFrame) :
  let kpi := AppUI.render_kpi_cards df in
  let shown := App_complete_board df in
  let in_progress := group_rows "Currently Working On" shown in
  AppUI.total_jobs kpi = Z.of_nat (length df) /\
  AppUI.overdue_count kpi
  = Z.of_nat (length (group_rows "Overdue" shown)) + column_sum IsOverdue in_progress /\
  AppUI.due_soon_count kpi
  = Z.of_nat (length (group_rows "Due Soon (7d)" shown)) + column_sum IsDueSoon in_progress /\
  AppUI.on_track_count kpi
  = Z.of_nat (length (group_rows "On Track" shown)) + column_sum IsOnTrack in_progress.
Proof.
  cbv zeta. unfold AppUI.render_kpi_cards, App_complete_board.
  destruct (df_empty df) eqn:He; [apply df_empty_true in He as ->; repeat split|].
  cbv zeta. cbn [AppUI.total_jobs AppUI.overdue_count AppUI.due_soon_count
                 AppUI.on_track_count].
  split; [reflexivity|].
  set (processing := fun r => py_eq_str (Stage r) "Processing").
  assert (Hcol : forall col by_ title,
    column_sum col df
    = Z.of_nat (length (sort_values by_
                  (df_filter col (df_filter (fun r => negb (processing r)) df))))
      + column_sum col
          (group_rows title
             (if df_empty (df_filter processing df) then []
              else [(title, sort_values [(by_IsOverdue, false); (by_IsDueSoon, false);
                                         (by_EstimatedDeliveryDate, true)]
                              (df_filter processing df))]))).
  { intros col by_ title. rewrite length_sort_values, <- column_sum_filter.
    rewrite (column_sum_split col processing df).
    destruct (df_empty (df_filter processing df)) eqn:Ep.
    - apply df_empty_true in Ep. rewrite Ep. cbn [group_rows flat_map].
      rewrite !column_sum_nil. lia.
    - cbn [group_rows flat_map fst snd]. rewrite String.eqb_refl, app_nil_r.
      rewrite (column_sum_perm col _ _ (sort_values_perm _ _)). lia. }
  fold processing.
  rewrite !group_rows_app.
  destruct (df_empty (df_filter processing df)) eqn:Ep.
  - pose proof (Hcol IsOverdue [(by_DaysOverdue, false)] "Currently Working On") as H1.
    pose proof (Hcol IsDueSoon [(by_EstimatedDeliveryDate, true)] "Currently Working On") as H2.
    pose proof (Hcol IsOnTrack [(by_EstimatedDeliveryDate, true)] "Currently Working On") as H3.
    cbn [group_rows flat_map fst snd app String.eqb Ascii.eqb Bool.eqb] in *.
    rewrite !app_nil_r. repeat split; assumption.
  - pose proof (Hcol IsOverdue [(by_DaysOverdue, false)] "Currently Working On") as H1.
    pose proof (Hcol IsDueSoon [(by_EstimatedDeliveryDate, true)] "Currently Working On") as H2.
    pose proof (Hcol IsOnTrack [(by_EstimatedDeliveryDate, true)] "Currently Working On") as H3.
    cbn [group_rows flat_map fst snd app String.eqb Ascii.eqb Bool.eqb] in *.
    rewrite !app_nil_r in *. repeat split; assumption.
Qed.

Lemma column_sum_app (col : order_row -> bool) (df df' : DataFrame) :
  column_sum col (df ++ df')%list = column_sum col df + column_sum col df'.
Proof.
  induction df as [|[i r] df IH]; [reflexivity|].
  unfold column_sum in *. cbn [app fold_right]. lia.
Qed.

Lemma column_sum_nonneg (col : order_row -> bool) (df : DataFrame) : 0 <= column_sum col df.
Proof.
  induction df as [|[i r] df IH]; [reflexivity|].
  unfold column_sum in *. cbn [fold_right snd]. destruct (col r); cbn [Z.b2z]; lia.
Qed.

(** What a group holds on an initial part of a board, against the whole
    board. *)
Lemma group_rows_prefix (title title' : string) (col : order_row -> bool)
    (shown rest : board) :
  Z.of_nat (length (group_rows title shown))
  + column_sum col (group_rows title' shown)
  <= Z.of_nat (length (group_rows title (shown ++ rest)%list))
     + column_sum col (group_rows title' (shown ++ rest)%list).
Proof.
  rewrite !group_rows_app, length_app, column_sum_app.
  pose proof (column_sum_nonneg col (group_rows title' rest)). lia.
Qed.

(** X21: the KPI cards of [app.py] count every job of the table, the jobs
    in progress included, while the columns leave these out: the number
    of active jobs is the size of the table, and when the board is shown
    to its end each urgency count is the size of its column plus the
    number of such jobs in the in-progress group; when the board ends
    early, at a card that cannot be built, the counts are at least that. *)
Theorem app_kpis_count_jobs_in_progress (dtypes : date_dtypes) (df : DataFrame) :
  let kpi := AppUI.render_kpi_cards df in
  let shown := (App.render_board dtypes df).1 in
  let in_progress := group_rows "Currently Working On" shown in
  AppUI.total_jobs kpi = Z.of_nat (length df) /\
  ((App.render_board dtypes df).2 = Ok tt ->
   AppUI.overdue_count kpi
   = Z.of_nat (length (group_rows "Overdue" shown)) + column_sum IsOverdue in_progress /\
   AppUI.due_soon_count kpi
   = Z.of_nat (length (group_rows "Due Soon (7d)" shown))
     + column_sum IsDueSoon in_progress /\
   AppUI.on_track_count kpi
   = Z.of_nat (length (group_rows "On Track" shown)) + column_sum IsOnTrack in_progress) /\
  Z.of_nat (length (group_rows "Overdue" shown)) + column_sum IsOverdue in_progress
  <= AppUI.overdue_count kpi /\
  Z.of_nat (length (group_rows "Due Soon (7d)" shown)) + column_sum IsDueSoon in_progress
  <= AppUI.due_soon_count kpi /\
  Z.of_nat (length (group_rows "On Track" shown)) + column_sum IsOnTrack in_progress
  <= AppUI.on_track_count kpi.
Proof.
  cbv zeta. destruct (App_complete_board_kpis df) as (Htotal & Ho & Hd & Ht).
  cbv zeta in Ho, Hd, Ht.
  destruct (App_render_board_shown dtypes df) as (rest & Hshown & Hall).
  split; [exact Htotal|]. split.
  - intros Hok. specialize (Hall Hok). subst rest. rewrite app_nil_r in Hshown.
    rewrite Hshown. repeat split; assumption.
  - rewrite Ho, Hd, Ht, <- Hshown. repeat split; apply group_rows_prefix.
Qed.

Lemma app_kpis_count_jobs_in_progress_witness :
  let dtypes := mkDtypes ObjectDtype ObjectDtype in
  let df : DataFrame :=
    [(0%nat, row_with "Processing" (mkFlags true false false (Some 2)));
     (1%nat, row_with "New" (mkFlags true false false (Some 9)))] in
  (App.render_board dtypes df).2 = Ok tt /\
  AppUI.overdue_count (AppUI.render_kpi_cards df) = 2 /\
  length (group_rows "Overdue" (App.render_board dtypes df).1) = 1%nat /\
  column_sum IsOverdue (group_rows "Currently Working On" (App.render_board dtypes df).1) = 1.
Proof.
  intros dtypes df.
  assert (Hok : (App.render_board dtypes df).2 = Ok tt) by (vm_compute; reflexivity).
  split; [exact Hok|].
  destruct (app_kpis_count_jobs_in_progress dtypes df) as (_ & Heq & _).
  destruct (Heq Hok) as (Ho & _).
  assert (Hlen : length (group_rows "Overdue" (App.render_board dtypes df).1) = 1%nat)
    by (vm_compute; reflexivity).
  assert (Hsum : column_sum IsOverdue
                   (group_rows "Currently Working On" (App.render_board dtypes df).1) = 1)
    by (vm_compute; reflexivity).
  rewrite Ho, Hlen, Hsum. repeat split.
Defined.

(** X22: on the TV board the OVERDUE column has the most overdue job
    first and the three other columns the earliest delivery date first. *)
Theorem tv_board_columns_sorted (df : DataFrame) (title : string) (g : DataFrame) :
  (title, g) ∈ Test.render_tv_board df ->
  (title = "OVERDUE" -> StronglySorted (key_ordered by_DaysOverdue false) g) /\
  (title <> "OVERDUE" -> StronglySorted (key_ordered by_EstimatedDeliveryDate true) g).
Proof.
  unfold Test.render_tv_board, Test.queue_df.
  destruct (df_empty df); cbn [negb]; cbv zeta; intros H;
    repeat (apply elem_of_cons in H as [H | H]; [injection H as -> ->|]);
    try (inversion H; fail);
    (split; intros Ht; try discriminate Ht; try (exfalso; apply Ht; reflexivity);
     try apply sort_values_first_key; constructor).
Qed.

Lemma tv_board_columns_sorted_witness :
  let df : DataFrame :=
    [(0%nat, row_with "Workshop - New" (mkFlags true false false (Some 2)));
     (1%nat, row_with "Workshop - New" (mkFlags true false false (Some 9)))] in
  exists g, ("OVERDUE", g) ∈ Test.render_tv_board df /\
    StronglySorted (key_ordered by_DaysOverdue false) g /\ g.*1 = [1; 0]%nat.
Proof.
  intros df.
  assert (Hin : ("OVERDUE",
                 [(1%nat, row_with "Workshop - New" (mkFlags true false false (Some 9)));
                  (0%nat, row_with "Workshop - New" (mkFlags true false false (Some 2)))])
                ∈ Test.render_tv_board df) by (vm_compute; left).
  eexists. split; [exact Hin|]. split; [|reflexivity].
  apply (tv_board_columns_sorted df "OVERDUE" _ Hin). reflexivity.
Defined.

(** X23: the TV KPI cards and the TV columns agree on the overdue, in
    workshop and to collect counts; the IN QUEUE card counts every due
    soon job, the COMING UP column only those that are neither in
    progress, nor to collect, nor overdue. *)
Theorem tv_kpis_and_columns (df : DataFrame) :
  let kpi := TestUI.render_tv_kpi_cards df in
  let shown := Test.render_tv_board df in
  TestUI.tv_overdue_count kpi = Z.of_nat (length (group_rows "OVERDUE" shown)) /\
  TestUI.tv_workshop_count kpi = Z.of_nat (length (group_rows "IN WORKSHOP" shown)) /\
  TestUI.tv_to_collect_count kpi = Z.of_nat (length (group_rows "TO COLLECT" shown)) /\
  TestUI.tv_queue_count kpi
  = Z.of_nat (length (group_rows "COMING UP" shown))
    + column_sum (fun r => IsDueSoon r &&
                           (Test.is_processing r || Test.is_to_collect r || IsOverdue r)) df.
Proof.
  cbv zeta. unfold TestUI.render_tv_kpi_cards, Test.render_tv_board.
  destruct (df_empty df) eqn:He; [apply df_empty_true in He as ->; repeat split|].
  cbn [negb]. cbv zeta.
  cbn [TestUI.tv_overdue_count TestUI.tv_workshop_count TestUI.tv_to_collect_count
       TestUI.tv_queue_count].
  cbn [group_rows flat_map fst snd app String.eqb Ascii.eqb Bool.eqb].
  rewrite !app_nil_r. unfold Test.queue_df. rewrite !length_sort_values, !column_sum_filter.
  repeat split.
  rewrite !df_filter_filter. unfold df_filter.
  induction df as [|[i r] df IH]; [discriminate He|].
  clear IH He. induction df as [|[j r'] df IH].
  - cbn [List.filter snd]. destruct (IsDueSoon r), (Test.is_processing r),
      (Test.is_to_collect r), (IsOverdue r); reflexivity.
  - cbn [List.filter snd] in *.
    destruct (IsDueSoon r), (Test.is_processing r), (Test.is_to_collect r), (IsOverdue r),
      (IsDueSoon r'), (Test.is_processing r'), (Test.is_to_collect r'), (IsOverdue r');
      cbn [negb andb orb length] in *; lia.
Qed.

Lemma df_head_take (n : nat) (df : DataFrame) : df_head (Z.of_nat n) df = take n df.
Proof.
  unfold df_head. destruct (Z.leb_spec 0 (Z.of_nat n)); [|lia].
  rewrite Nat2Z.id. reflexivity.
Qed.

(** X24: a TV column shows the first [max_cards] jobs of its group in
    their order, and counts the rest in the "+ n more" line: the cards
    shown and the figure of that line add up to the size of the group, the
    line is printed exactly when jobs are left out, and the "No jobs"
    notice exactly when the group is empty. *)
Theorem tv_column_shows_first_cards (jobs_df : DataFrame) (max_cards : Z) :
  0 <= max_cards ->
  let column := render_tv_column_cards jobs_df max_cards in
  tv_cards column = take (Z.to_nat max_cards) jobs_df /\
  Z.of_nat (length (tv_cards column)) <= max_cards /\
  Z.of_nat (length (tv_cards column)) + default 0 (tv_more column)
  = Z.of_nat (length jobs_df) /\
  (tv_more column = None <-> Z.of_nat (length jobs_df) <= max_cards) /\
  (tv_no_jobs column = true <-> jobs_df = []).
Proof.
  intros Hmax. cbv zeta. unfold render_tv_column_cards.
  assert (Hn : exists n : nat, max_cards = Z.of_nat n) by (exists (Z.to_nat max_cards); lia).
  destruct Hn as [n ->]. rewrite Nat2Z.id.
  destruct jobs_df as [|job jobs].
  - cbn. rewrite take_nil. repeat split; try lia; try reflexivity.
  - cbn [df_empty]. cbv iota.
    assert (Hne : job :: jobs <> []) by discriminate.
    generalize dependent (job :: jobs). intros jobs_df Hne.
    cbn [tv_cards tv_more tv_no_jobs].
    rewrite df_head_take, length_take.
    split; [reflexivity|].
    destruct (Nat.min_spec n (length jobs_df)) as [[Hlt ->] | [Hlt ->]]; (split; [lia|]);
    (destruct (Z.gtb_spec (Z.of_nat (length jobs_df)) (Z.of_nat n)) as [Hgt | Hle]);
      cbn; (split; [lia|]);
      (split; [split; [try discriminate; try lia | try lia; try reflexivity]|]);
      (split; [discriminate | contradiction]).
Qed.

Lemma tv_column_shows_first_cards_witness :
  let row := row_with "Workshop - New" (mkFlags false true false None) in
  let jobs_df : DataFrame := imap (fun i r => (i, r)) (replicate 8 row) in
  (tv_cards (render_tv_column_cards jobs_df 6)).*1 = [0; 1; 2; 3; 4; 5]%nat /\
  tv_more (render_tv_column_cards jobs_df 6) = Some 2.
Proof.
  intros row jobs_df.
  destruct (tv_column_shows_first_cards jobs_df 6 ltac:(lia)) as (Hcards & _ & Hsum & _).
  split; [rewrite Hcards; reflexivity|].
  destruct (tv_more (render_tv_column_cards jobs_df 6)) as [n|] eqn:E;
    [|vm_compute in E; discriminate E].
  f_equal. replace (length (tv_cards (render_tv_column_cards jobs_df 6))) with 6%nat in Hsum
    by (rewrite Hcards; reflexivity).
  change (length jobs_df) with 8%nat in Hsum. cbn in Hsum. lia.
Defined.

Lemma group_rows_optional (title title' : string) (by_ : list (sort_key * bool))
    (mask : order_row -> bool) (df : DataFrame) :
  length (group_rows title
            (if df_empty (df_filter mask df) then []
             else [(title', sort_values by_ (df_filter mask df))]))
  = if String.eqb title' title then length (df_filter mask df) else 0%nat.
Proof.
  destruct (df_empty (df_filter mask df)) eqn:He.
  - apply df_empty_true in He. rewrite He. destruct (String.eqb title' title); reflexivity.
  - cbn [group_rows flat_map fst snd]. rewrite app_nil_r.
    destruct (String.eqb title' title); [apply length_sort_values | reflexivity].
Qed.

(** X25: on the desktop view of [test.py] the Overdue card is the size
    of the Overdue group, which is taken from the whole table; the Due Soon
    card counts every due soon job, the queue only those that are neither
    in progress, nor to collect, nor overdue; the Active Jobs card is the
    size of the table. *)
Theorem test_kpis_and_groups (df : DataFrame) :
  let kpi := TestUI.render_kpi_cards df in
  let shown := Test.render_board df in
  TestUI.total_jobs kpi = Z.of_nat (length df) /\
  TestUI.overdue_count kpi = Z.of_nat (length (group_rows "Overdue" shown)) /\
  TestUI.due_soon_count kpi
  = Z.of_nat (length (group_rows "Jobs in Queue" shown))
    + column_sum (fun r => IsDueSoon r &&
                           (Test.is_processing r || Test.is_to_collect r || IsOverdue r)) df.
Proof.
  cbv zeta. unfold TestUI.render_kpi_cards, Test.render_board.
  destruct (df_empty df) eqn:He; [apply df_empty_true in He as ->; repeat split|].
  cbn [TestUI.total_jobs TestUI.overdue_count TestUI.due_soon_count].
  split; [reflexivity|].
  unfold Test.render_currently_working_on, Test.render_to_collect, Test.render_overdue,
    Test.render_needs_etd. cbv zeta.
  rewrite !group_rows_app, !length_app, !group_rows_optional.
  cbn [String.eqb Ascii.eqb Bool.eqb group_rows flat_map fst snd app length].
  rewrite !app_nil_r, !column_sum_filter. split; [lia|].
  unfold Test.queue_df. rewrite !length_sort_values, !df_filter_filter. unfold df_filter.
  clear He. induction df as [|[j r'] df IH]; [reflexivity|].
  cbn [List.filter snd] in *.
  destruct (IsDueSoon r'), (Test.is_processing r'), (Test.is_to_collect r'), (IsOverdue r');
    cbn [negb andb orb length] in *; lia.
Qed.

(* ===================================================================== *)
(** ** Text of the cards, stage selection and request URL *)
(* ===================================================================== *)

(** Replacing one character: every occurrence goes, the rest stays. *)
Lemma str_replace_char_forall (P : ascii -> bool) (a : ascii) (new s : string) :
  string_forall P new = true ->
  string_forall (fun c => P c || Ascii.eqb a c) s = true ->
  string_forall P (str_replace (String a "") new s) = true.
Proof.
  intros Hnew. unfold str_replace. induction s as [|c s IH]; [reflexivity|].
  cbn [string_forall str_replace_from startswith String.length Nat.sub].
  intros [Hc Hs]%andb_prop. rewrite andb_true_r.
  destruct (Ascii.eqb a c).
  - rewrite string_forall_app, Hnew, (IH Hs). reflexivity.
  - rewrite orb_false_r in Hc. cbn [string_forall]. rewrite Hc, (IH Hs). reflexivity.
Qed.

Lemma string_forall_true (P : ascii -> bool) (s : string) :
  (forall c, P c = true) -> string_forall P s = true.
Proof.
  intros HP. induction s as [|c s IH]; [reflexivity|]. cbn [string_forall].
  rewrite HP, IH. reflexivity.
Qed.

(** X26: the escaping of the card texts leaves no markup character: after
    the chain of [test.py] and after [html.escape] no [<], [>] or double
    quote remains (and no apostrophe after [html.escape]); the chain of
    [app.py] removes [<] and [>]. *)
Theorem escaped_text_has_no_markup (s : string) :
  string_forall (fun c => negb (is_markup c)) (TestUI.escape_text s) = true /\
  string_forall (fun c => negb (is_markup c) && negb (is_quote c)) (html_escape s) = true /\
  string_forall (fun c => negb (Ascii.eqb c "<") && negb (Ascii.eqb c ">"))
    (AppUI.escape_text s) = true.
Proof.
  assert (Hlt : forall t,
    string_forall (fun c => negb (Ascii.eqb c "<")) (str_replace "<" "&lt;" t) = true).
  { intros t. apply str_replace_char_forall; [reflexivity|].
    apply string_forall_true. intros c. rewrite (Ascii.eqb_sym "<" c).
    destruct (Ascii.eqb c "<"); reflexivity. }
  assert (Hgt : forall t,
    string_forall (fun c => negb (Ascii.eqb c "<") && negb (Ascii.eqb c ">"))
      (str_replace ">" "&gt;" (str_replace "<" "&lt;" t)) = true).
  { intros t. apply str_replace_char_forall; [reflexivity|].
    apply (string_forall_impl (fun c => negb (Ascii.eqb c "<"))); [|apply Hlt].
    intros c Hc. rewrite Hc, (Ascii.eqb_sym ">" c).
    destruct (Ascii.eqb c ">"); reflexivity. }
  assert (Hquot : forall t,
    string_forall (fun c => negb (is_markup c))
      (str_replace (String dquote "") "&quot;"
         (str_replace ">" "&gt;" (str_replace "<" "&lt;" t))) = true).
  { intros t. apply str_replace_char_forall; [reflexivity|].
    apply (string_forall_impl
             (fun c => negb (Ascii.eqb c "<") && negb (Ascii.eqb c ">"))); [|apply Hgt].
    intros c Hc. unfold is_markup. rewrite (Ascii.eqb_sym dquote c).
    destruct (Ascii.eqb c "<"), (Ascii.eqb c ">"), (Ascii.eqb c dquote);
      try discriminate Hc; reflexivity. }
  split; [|split].
  - apply Hquot.
  - unfold html_escape. apply str_replace_char_forall; [reflexivity|].
    apply (string_forall_impl (fun c => negb (is_markup c))); [|apply Hquot].
    intros c Hc. unfold is_quote. rewrite Hc, (Ascii.eqb_sym "'" c).
    destruct (Ascii.eqb c "'"); reflexivity.
  - apply Hgt.
Qed.

Lemma str_replace_from_skip_app (old new t rest : string) :
  str_replace_from old new (String.length t) (t +:+ rest) = str_replace_from old new 0 rest.
Proof.
  induction t as [|c t IH]; [reflexivity|]. rewrite append_cons.
  cbn [String.length str_replace_from]. exact IH.
Qed.

Lemma str_replace_no_occurrence (old new s : string) :
  occurs old s = false -> str_replace old new s = s.
Proof.
  unfold str_replace. induction s as [|c s IH]; [reflexivity|].
  cbn [occurs str_replace_from]. intros [Hs Ho]%orb_false_elim.
  rewrite Hs, (IH Ho). reflexivity.
Qed.

(** X27: the stage badge of a card shows the stage without the workshop
    prefix: for a stage that starts with the prefix, what follows it with
    every further occurrence of the prefix removed as well, that is, what
    follows it whenever the prefix does not occur there again; a stage
    without the prefix is shown as it is, and ["Unknown"] is shown when
    the stage is empty or missing. *)
Theorem stage_badge_drops_prefix (stage : pyvalue) (rest : string) :
  (stage = PStr (Test.WORKSHOP_STAGE_PREFIX +:+ rest) ->
   TestUI.display_stage stage = Ok (str_replace Test.WORKSHOP_STAGE_PREFIX "" rest) /\
   (occurs Test.WORKSHOP_STAGE_PREFIX rest = false ->
    TestUI.display_stage stage = Ok rest)) /\
  (stage = PStr rest -> rest <> "" ->
   startswith Test.WORKSHOP_STAGE_PREFIX rest = false ->
   TestUI.display_stage stage = Ok rest) /\
  (truthy stage = false -> TestUI.display_stage stage = Ok "Unknown").
Proof.
  split; [|split].
  - intros ->.
    assert (H : TestUI.display_stage (PStr (Test.WORKSHOP_STAGE_PREFIX +:+ rest))
                = Ok (str_replace Test.WORKSHOP_STAGE_PREFIX "" rest)).
    { unfold TestUI.display_stage.
      rewrite py_or_truthy by reflexivity.
      rewrite startswith_refl. unfold str_replace, Test.WORKSHOP_STAGE_PREFIX.
      rewrite append_cons. cbn [str_replace_from].
      rewrite <- append_cons, startswith_refl.
      change (String.length "Workshop - " - 1)%nat with (String.length "orkshop - ").
      rewrite str_replace_from_skip_app, append_nil_l. reflexivity. }
    split; [exact H|]. intros Ho. rewrite H, (str_replace_no_occurrence _ _ _ Ho).
    reflexivity.
  - intros -> Hne Hs. unfold TestUI.display_stage.
    rewrite py_or_truthy by (destruct rest; [contradiction | reflexivity]).
    rewrite Hs. reflexivity.
  - intros Hf. unfold TestUI.display_stage. rewrite py_or_falsy by exact Hf. reflexivity.
Qed.

Lemma stage_badge_drops_prefix_witness :
  TestUI.display_stage (PStr "Workshop - Waiting for parts") = Ok "Waiting for parts" /\
  TestUI.display_stage (PStr "Workshop - Workshop - Paint") = Ok "Paint" /\
  TestUI.display_stage (PStr "Dispatched") = Ok "Dispatched" /\
  TestUI.display_stage (PStr "") = Ok "Unknown".
Proof.
  split; [|split; [|split]].
  - exact (proj2 (proj1 (stage_badge_drops_prefix (PStr "Workshop - Waiting for parts")
                           "Waiting for parts") eq_refl) eq_refl).
  - exact (proj1 (proj1 (stage_badge_drops_prefix (PStr "Workshop - Workshop - Paint")
                           "Workshop - Paint") eq_refl)).
  - apply (proj1 (proj2 (stage_badge_drops_prefix (PStr "Dispatched") "Dispatched")));
      [reflexivity | discriminate | reflexivity].
  - apply (proj2 (proj2 (stage_badge_drops_prefix (PStr "") ""))). reflexivity.
Defined.

Lemma build_where_clause_cons (stage : string) (stages : list string) :
  exists rest, build_where_clause (stage :: stages) = String "S" rest.
Proof.
  unfold build_where_clause. destruct stages as [|stage' stages]; eexists; reflexivity.
Qed.

(** X28: the stages excluded in the query are the known stages that are
    not selected, in the order of the list of known stages, and the where
    clause is empty exactly when every known stage is selected. *)
Theorem where_clause_of_selection (all_stages selected_stages : list string) :
  (forall s, s ∈ excluded_stages all_stages selected_stages
             <-> s ∈ all_stages /\ s ∉ selected_stages) /\
  (build_where_clause (excluded_stages all_stages selected_stages) = ""
   <-> forall s, s ∈ all_stages -> s ∈ selected_stages).
Proof.
  assert (Hex : forall s, s ∈ excluded_stages all_stages selected_stages
                          <-> s ∈ all_stages /\ s ∉ selected_stages).
  { intros s. unfold excluded_stages. rewrite !list_elem_of_In, filter_In.
    rewrite negb_true_iff, bool_decide_eq_false, !list_elem_of_In. reflexivity. }
  split; [exact Hex|]. split.
  - intros Hclause s Hs. destruct (decide (s ∈ selected_stages)) as [Hin | Hout]; [exact Hin|].
    assert (Hs' : s ∈ excluded_stages all_stages selected_stages) by (apply Hex; auto).
    destruct (excluded_stages all_stages selected_stages) as [|x l]; [inversion Hs'|].
    destruct (build_where_clause_cons x l) as [rest Hrest].
    rewrite Hrest in Hclause. discriminate Hclause.
  - intros Hall. destruct (excluded_stages all_stages selected_stages) as [|x l];
      [reflexivity|].
    assert (Hx : x ∈ x :: l) by left.
    apply Hex in Hx as [Hin Hout]. contradiction (Hout (Hall x Hin)).
Qed.

Lemma rstrip_app_slash (s : string) : rstrip "/" (s +:+ "/") = rstrip "/" s.
Proof.
  induction s as [|c s IH]; [reflexivity|].
  rewrite append_cons. cbn [rstrip]. rewrite IH. reflexivity.
Qed.

(** X29: the request URL does not depend on a trailing slash of the base
    URL nor on a leading slash of the path. *)
Theorem request_url_ignores_slashes (base_url path : string) :
  startswith "/" path = false ->
  request_url (base_url +:+ "/") path = request_url base_url path /\
  request_url base_url ("/" +:+ path) = request_url base_url path /\
  request_url base_url path = rstrip "/" base_url +:+ "/" +:+ path.
Proof.
  intros Hpath. unfold request_url. rewrite rstrip_app_slash, Hpath.
  repeat split.
Qed.

Lemma request_url_ignores_slashes_witness :
  request_url "https://api.cin7.com/api/v1/" "SalesOrders"
  = "https://api.cin7.com/api/v1/SalesOrders" /\
  request_url "https://api.cin7.com/api/v1" "/SalesOrders"
  = "https://api.cin7.com/api/v1/SalesOrders".
Proof.
  destruct (request_url_ignores_slashes "https://api.cin7.com/api/v1" "SalesOrders" eq_refl)
    as (H1 & H2 & H3).
  split.
  - change ("https://api.cin7.com/api/v1/") with ("https://api.cin7.com/api/v1" +:+ "/").
    rewrite H1, H3. reflexivity.
  - change ("/SalesOrders") with ("/" +:+ "SalesOrders"). rewrite H2, H3. reflexivity.
Defined.

(** X30: with the default stage selection of [test.py] (the one the TV
    view always uses) the query excludes no stage that starts with the
    workshop prefix, known or not: no order the classifier would keep is
    filtered out by the where clause. *)
Theorem default_selection_keeps_workshop_stages (stage : string) :
  startswith Test.WORKSHOP_STAGE_PREFIX stage = true ->
  stage ∉ excluded_stages TestUI.all_stages TestUI.ACTIVE_STAGES.
Proof.
  intros Hs Hin. vm_compute in Hin.
  repeat (apply elem_of_cons in Hin as [-> | Hin]; [vm_compute in Hs; discriminate Hs|]).
  inversion Hin.
Qed.

Lemma default_selection_keeps_workshop_stages_witness :
  ("Workshop - Waiting for parts" ∉ excluded_stages TestUI.all_stages TestUI.ACTIVE_STAGES) /\
  ("Workshop - New" ∉ excluded_stages TestUI.all_stages TestUI.ACTIVE_STAGES).
Proof.
  split; apply default_selection_keeps_workshop_stages; reflexivity.
Defined.
